(** * Undervalued-stocks pipeline: a shallow embedding of the batch scripts

    The repository is a chain of Python scripts.  Each script reads a file,
    transforms a table (or calls a REST API per symbol) and writes a file.
    This development embeds the parts of the scripts that the specification
    makes promises about, and what they call and are called by:

    - [Fetch]: [fetch_undervalued_stocks.py] -- the JSON cache, the HTTP
      wrapper, the valuation classifier and the run that drives them;
    - [Frame]: the pandas operations the table stages rely on;
    - [RemoveDuplicates], [FilterUsd], [FilterExchange]: the table stages;
    - [SectorOrganizer], [MarketCap]: [analyze_quarterly_undervalued.py];
    - [Regions]: [fetch_stock_regions.py], up to the list of results.

    Conventions.  Python floats and JSON numbers are exact rationals ([Q]);
    Python strings are [string]s of ASCII characters; a Python exception is
    a value of [exn] carried by [result]; module-level mutable state is
    threaded explicitly.  Worker threads are run one after the other in
    submission order: every update of shared state that the statements
    below talk about is a single dictionary or list operation, or sits
    under the script's lock. *)

From Stdlib Require Import ZArith QArith Qround Lia Lqa String Ascii List.
From Stdlib Require Import Qcanon Permutation.
From stdpp Require Import base numbers sorting gmap strings list.

Local Open Scope string_scope.

(** * Python values and builtins *)

Module Py.

(** Exceptions the scripts can meet. *)
Inductive exn :=
| TypeError
| KeyError
| AttributeError
| ValueError.

(** A computation that returns or raises. *)
Inductive result (A : Type) :=
| Ok (a : A)
| Raise (e : exn).
Arguments Ok {A} a.
Arguments Raise {A} e.

Definition bind {A B} (m : result A) (k : A -> result B) : result B :=
  match m with
  | Ok a => k a
  | Raise e => Raise e
  end.

(** [x < y] on numbers. *)
Definition Qltb (x y : Q) : bool := negb (Qle_bool y x).

(** [round(x)] to the nearest integer, ties to even. *)
Definition round_half_even (x : Q) : Z :=
  let f := Qfloor x in
  match (x - inject_Z f ?= 1 # 2)%Q with
  | Lt => f
  | Gt => (f + 1)%Z
  | Eq => if Z.even f then f else (f + 1)%Z
  end.

(** [round(x, 2)]. *)
Definition round2 (x : Q) : Q :=
  (inject_Z (round_half_even (x * 100)) / 100)%Q.

End Py.

(** * fetch_undervalued_stocks.py *)

Module Fetch.
Import Py.
Local Open Scope Q_scope.

(** ** JSON data

    A JSON leaf is null, a number or a string; the API answers with an
    object of leaves or an array of such objects.  A cache entry and the
    values that travel through process_stock are leaves or objects. *)

Inductive scalar :=
| SNull
| SNum (q : Q)
| SStr (s : string).

Abbreviation obj := (gmap string scalar).

Inductive value :=
| Scalar (v : scalar)
| Dict (o : obj).

(** [None] as a Python value. *)
Definition VNone : value := Scalar SNull.

(** [o.get(k, default)] *)
Definition get (o : obj) (k : string) (default : scalar) : scalar :=
  match o !! k with
  | Some v => v
  | None => default
  end.

(** [bool(v)] *)
Definition truthy_scalar (v : scalar) : bool :=
  match v with
  | SNull => false
  | SNum q => negb (Qeq_bool q 0)
  | SStr s => negb (String.eqb s "")
  end.

Definition truthy (v : value) : bool :=
  match v with
  | Scalar v => truthy_scalar v
  | Dict o => negb (bool_decide (o = ∅))
  end.

(** [v > 0] and [v <= 0]: defined on numbers, a TypeError otherwise. *)
Definition gt0 (v : value) : result bool :=
  match v with
  | Scalar (SNum q) => Ok (Qltb 0 q)
  | _ => Raise TypeError
  end.

Definition le0 (v : value) : result bool :=
  match v with
  | Scalar (SNum q) => Ok (Qle_bool q 0)
  | _ => Raise TypeError
  end.

(** [v is None] *)
Definition is_none (v : value) : bool :=
  match v with
  | Scalar SNull => true
  | _ => false
  end.

(** [stock.get('symbol', '')], for tickers that are JSON strings; any
    other leaf is read as the empty (falsy) ticker. *)
Definition get_symbol (o : obj) : string :=
  match o !! "symbol" with
  | Some (SStr s) => s
  | _ => ""
  end.

(** ** Valuation (process_stock, once price and DCF are both known) *)

(** The values that [stock_detail['status']] takes. *)
Inductive status :=
| UNKNOWN
| DATA_UNAVAILABLE
| NO_DCF_DATA
| NO_PRICE_DATA
| UNDERVALUED
| OVERVALUED   (* the string "OVERVALUED (>20%)" *)
| FAIR.

(** [OVERVALUED_BUFFER = 0.20] in find_undervalued_stocks. *)
Definition OVERVALUED_BUFFER : Q := 20 # 100.

(** [premium_pct] and [discount_pct] as computed for the log line. *)
Definition premium_pct (current_price dcf_value : Q) : Q :=
  if Qltb dcf_value current_price
  then round2 (((current_price - dcf_value) / dcf_value) * 100)
  else 0.

Definition discount_pct (current_price dcf_value : Q) : Q :=
  if Qltb current_price dcf_value
  then round2 (((dcf_value - current_price) / dcf_value) * 100)
  else 0.

(** The if / elif / else that chooses the status. *)
Definition valuation_status (current_price dcf_value buffer : Q) : status :=
  if Qltb current_price dcf_value then UNDERVALUED
  else if Qltb (dcf_value * (1 + buffer)) current_price then OVERVALUED
  else FAIR.

(** The [stock_data] dictionary written to the result lists. *)
Record stock_data := {
  Symbol : string;
  Company_Name : scalar;
  Current_Price : Q;
  DCF_Price : Q;
  Discount_pct : Q;
  Premium_pct : Q;
  Valuation_Status : status;
  Sector : scalar;
  Industry : scalar;
  Timestamp : string
}.

(** The record built in the [if current_price < dcf_value] branch. *)
Definition undervalued_record (symbol : string) (profile : obj)
    (current_price dcf_value : Q) (now : string) : stock_data :=
  {| Symbol := symbol;
     Company_Name := get profile "companyName" (SStr "N/A");
     Current_Price := round2 current_price;
     DCF_Price := round2 dcf_value;
     Discount_pct :=
       round2 (((dcf_value - current_price) / dcf_value) * 100);
     Premium_pct := 0;
     Valuation_Status := UNDERVALUED;
     Sector := get profile "sector" (SStr "N/A");
     Industry := get profile "industry" (SStr "N/A");
     Timestamp := now |}.

(** The record built in the [elif] (fair value) branch. *)
Definition fair_record (symbol : string) (profile : obj)
    (current_price dcf_value : Q) (now : string) : stock_data :=
  {| Symbol := symbol;
     Company_Name := get profile "companyName" (SStr "N/A");
     Current_Price := round2 current_price;
     DCF_Price := round2 dcf_value;
     Discount_pct := 0;
     Premium_pct :=
       round2 (((current_price - dcf_value) / dcf_value) * 100);
     Valuation_Status := FAIR;
     Sector := get profile "sector" (SStr "N/A");
     Industry := get profile "industry" (SStr "N/A");
     Timestamp := now |}.

(** ** Program state

    [stock_cache] is one dictionary: a ticker maps to an entry (a
    dictionary of fields), and the keys ['_undervalued_stocks'] and
    ['_fair_stocks'] map to lists of records. *)

Inductive cache_value :=
| Entry (e : gmap string value)
| RecordList (l : list stock_data).

Inductive level := ERROR | WARNING.

Inductive endpoint :=
| StockList
| DcfBulk
| ProfileBulk (part : nat)
| DcfOf (symbol : string)
| QuoteOf (symbol : string)
| ProfileOf (symbol : string).

(** What [response.json()] yields. *)
Inductive body :=
| NotJson
| JObject (o : obj)
| JArray (l : list obj).

(** What [requests.get] does. *)
Inductive http_result :=
| Timeout
| RequestException
| Response (status_code : Z) (b : body).

(** The world outside the process: the answer to the n-th request and
    the n-th reading of the clock. *)
Record env := {
  http : nat -> endpoint -> http_result;
  now_at : nat -> string
}.

Record stock_detail := {
  d_symbol : string;
  d_company_name : scalar;
  d_price : value;
  d_dcf : value;
  d_status : status;
  d_has_data : bool
}.

Record state := {
  stock_cache : gmap string cache_value;
  undervalued_stocks_cache : list stock_data;
  undervalued_stocks : list stock_data;
  fair_stocks : list stock_data;
  processed_counter : nat;
  skipped : nat;
  stocks_details : list stock_detail;
  log : list (level * string);
  requests : list (endpoint * http_result);
  clock : nat;
  cache_file : option (gmap string cache_value);
  undervalued_cache_file : option (list stock_data)
}.

Definition set_stock_cache (c : gmap string cache_value) (s : state) :=
  {| stock_cache := c;
     undervalued_stocks_cache := undervalued_stocks_cache s;
     undervalued_stocks := undervalued_stocks s;
     fair_stocks := fair_stocks s;
     processed_counter := processed_counter s;
     skipped := skipped s;
     stocks_details := stocks_details s;
     log := log s;
     requests := requests s;
     clock := clock s;
     cache_file := cache_file s;
     undervalued_cache_file := undervalued_cache_file s |}.

Definition set_undervalued_stocks_cache (l : list stock_data) (s : state) :=
  {| stock_cache := stock_cache s;
     undervalued_stocks_cache := l;
     undervalued_stocks := undervalued_stocks s;
     fair_stocks := fair_stocks s;
     processed_counter := processed_counter s;
     skipped := skipped s;
     stocks_details := stocks_details s;
     log := log s;
     requests := requests s;
     clock := clock s;
     cache_file := cache_file s;
     undervalued_cache_file := undervalued_cache_file s |}.

Definition set_undervalued_stocks (l : list stock_data) (s : state) :=
  {| stock_cache := stock_cache s;
     undervalued_stocks_cache := undervalued_stocks_cache s;
     undervalued_stocks := l;
     fair_stocks := fair_stocks s;
     processed_counter := processed_counter s;
     skipped := skipped s;
     stocks_details := stocks_details s;
     log := log s;
     requests := requests s;
     clock := clock s;
     cache_file := cache_file s;
     undervalued_cache_file := undervalued_cache_file s |}.

Definition set_fair_stocks (l : list stock_data) (s : state) :=
  {| stock_cache := stock_cache s;
     undervalued_stocks_cache := undervalued_stocks_cache s;
     undervalued_stocks := undervalued_stocks s;
     fair_stocks := l;
     processed_counter := processed_counter s;
     skipped := skipped s;
     stocks_details := stocks_details s;
     log := log s;
     requests := requests s;
     clock := clock s;
     cache_file := cache_file s;
     undervalued_cache_file := undervalued_cache_file s |}.

Definition set_counters (processed skip : nat) (ds : list stock_detail)
    (s : state) :=
  {| stock_cache := stock_cache s;
     undervalued_stocks_cache := undervalued_stocks_cache s;
     undervalued_stocks := undervalued_stocks s;
     fair_stocks := fair_stocks s;
     processed_counter := processed;
     skipped := skip;
     stocks_details := ds;
     log := log s;
     requests := requests s;
     clock := clock s;
     cache_file := cache_file s;
     undervalued_cache_file := undervalued_cache_file s |}.

Definition set_log (l : list (level * string)) (s : state) :=
  {| stock_cache := stock_cache s;
     undervalued_stocks_cache := undervalued_stocks_cache s;
     undervalued_stocks := undervalued_stocks s;
     fair_stocks := fair_stocks s;
     processed_counter := processed_counter s;
     skipped := skipped s;
     stocks_details := stocks_details s;
     log := l;
     requests := requests s;
     clock := clock s;
     cache_file := cache_file s;
     undervalued_cache_file := undervalued_cache_file s |}.

Definition set_requests (l : list (endpoint * http_result)) (s : state) :=
  {| stock_cache := stock_cache s;
     undervalued_stocks_cache := undervalued_stocks_cache s;
     undervalued_stocks := undervalued_stocks s;
     fair_stocks := fair_stocks s;
     processed_counter := processed_counter s;
     skipped := skipped s;
     stocks_details := stocks_details s;
     log := log s;
     requests := l;
     clock := clock s;
     cache_file := cache_file s;
     undervalued_cache_file := undervalued_cache_file s |}.

Definition set_clock (n : nat) (s : state) :=
  {| stock_cache := stock_cache s;
     undervalued_stocks_cache := undervalued_stocks_cache s;
     undervalued_stocks := undervalued_stocks s;
     fair_stocks := fair_stocks s;
     processed_counter := processed_counter s;
     skipped := skipped s;
     stocks_details := stocks_details s;
     log := log s;
     requests := requests s;
     clock := n;
     cache_file := cache_file s;
     undervalued_cache_file := undervalued_cache_file s |}.

Definition set_files (c : option (gmap string cache_value))
    (u : option (list stock_data)) (s : state) :=
  {| stock_cache := stock_cache s;
     undervalued_stocks_cache := undervalued_stocks_cache s;
     undervalued_stocks := undervalued_stocks s;
     fair_stocks := fair_stocks s;
     processed_counter := processed_counter s;
     skipped := skipped s;
     stocks_details := stocks_details s;
     log := log s;
     requests := requests s;
     clock := clock s;
     cache_file := c;
     undervalued_cache_file := u |}.

(** ** A state monad with exceptions *)

Definition M (A : Type) : Type := state -> result A * state.

Definition ret {A} (a : A) : M A := fun s => (Ok a, s).

Definition raise {A} (e : exn) : M A := fun s => (Raise e, s).

Definition bindM {A B} (m : M A) (k : A -> M B) : M B :=
  fun s =>
    match m s with
    | (Ok a, s') => k a s'
    | (Raise e, s') => (Raise e, s')
    end.

Definition lift {A} (r : result A) : M A := fun s => (r, s).

Definition gets {A} (f : state -> A) : M A := fun s => (Ok (f s), s).

Definition modify (f : state -> state) : M unit := fun s => (Ok tt, f s).

(** [try: m  except <handled>: h] *)
Definition try_except {A} (m : M A) (handled : exn -> bool) (h : M A)
    : M A :=
  fun s =>
    match m s with
    | (Ok a, s') => (Ok a, s')
    | (Raise e, s') => if handled e then h s' else (Raise e, s')
    end.

Notation "x <- m ;; k" := (bindM m (fun x => k))
  (at level 100, m at next level, right associativity).
Notation "m ;; k" := (bindM m (fun _ => k))
  (at level 100, right associativity).

Definition log_msg (l : level) (msg : string) : M unit :=
  modify (fun s => set_log (log s ++ [(l, msg)]) s).

(** ** load_cache, save_cache and their undervalued twins

    A file is absent ([None]), unreadable ([Some None]) or holds a
    document. *)

Definition with_list_keys (c : gmap string cache_value)
    : gmap string cache_value :=
  let c1 :=
    match c !! "_undervalued_stocks" with
    | Some _ => c
    | None => <["_undervalued_stocks" := RecordList []]> c
    end in
  match c1 !! "_fair_stocks" with
  | Some _ => c1
  | None => <["_fair_stocks" := RecordList []]> c1
  end.

Definition empty_cache : gmap string cache_value :=
  <["_fair_stocks" := RecordList []]>
    (<["_undervalued_stocks" := RecordList []]> ∅).

Definition load_cache (file : option (option (gmap string cache_value)))
    : gmap string cache_value :=
  match file with
  | Some (Some c) => with_list_keys c
  | Some None => empty_cache
  | None => empty_cache
  end.

Definition load_undervalued_cache
    (file : option (option (list stock_data))) : list stock_data :=
  match file with
  | Some (Some l) => l
  | Some None => []
  | None => []
  end.

Definition save_cache : M unit :=
  modify (fun s => set_files (Some (stock_cache s))
                             (undervalued_cache_file s) s).

Definition save_undervalued_cache : M unit :=
  modify (fun s => set_files (cache_file s)
                             (Some (undervalued_stocks_cache s)) s).

(** The state after the module-level [load_cache()] and
    [load_undervalued_cache()]. *)
Definition initial_state
    (cache_json : option (option (gmap string cache_value)))
    (undervalued_json : option (option (list stock_data))) : state :=
  {| stock_cache := load_cache cache_json;
     undervalued_stocks_cache := load_undervalued_cache undervalued_json;
     undervalued_stocks := [];
     fair_stocks := [];
     processed_counter := 0;
     skipped := 0;
     stocks_details := [];
     log := [];
     requests := [];
     clock := 0;
     cache_file :=
       match cache_json with Some (Some c) => Some c | _ => None end;
     undervalued_cache_file :=
       match undervalued_json with Some (Some l) => Some l | _ => None end
  |}.

(** ** get_cached_stock and cache_stock *)

Definition get_cached_stock (symbol : string) : M (option cache_value) :=
  gets (fun s => stock_cache s !! symbol).

(** cache_stock on the dictionary.  An argument that is [None] is left
    out; assigning a field into a list value raises TypeError before
    anything is written. *)
Definition cache_stock_in (now : string) (symbol : string)
    (price dcf profile : value) (c : gmap string cache_value)
    : result (gmap string cache_value) :=
  let c0 :=
    match c !! symbol with
    | Some _ => c
    | None => <[symbol := Entry ∅]> c
    end in
  match c0 !! symbol with
  | Some (Entry e) =>
      let e1 := if is_none price then e else <["price" := price]> e in
      let e2 := if is_none dcf then e1 else <["dcf" := dcf]> e1 in
      let e3 := if is_none profile then e2 else <["profile" := profile]> e2 in
      Ok (<[symbol := Entry (<["timestamp" := Scalar (SStr now)]> e3)]> c0)
  | _ => Raise TypeError
  end.

Section WithEnv.
Variable E : env.

Definition cache_stock (symbol : string) (price dcf profile : value)
    : M unit :=
  fun s =>
    match cache_stock_in (now_at E (clock s)) symbol price dcf profile
            (stock_cache s) with
    | Ok c => (Ok tt, set_clock (S (clock s)) (set_stock_cache c s))
    | Raise e => (Raise e, s)
    end.

(** ** make_api_request *)

(** ['Error Message' in response.json()] *)
Definition has_error_message (b : body) : result bool :=
  match b with
  | NotJson => Raise ValueError
  | JObject o => Ok (bool_decide (is_Some (o !! "Error Message")))
  | JArray _ => Ok false
  end.

Definition make_api_request (ep : endpoint) : M (option body) :=
  fun s =>
    let r := http E (length (requests s)) ep in
    let s := set_requests (requests s ++ [(ep, r)]) s in
    match r with
    | Response status_code b =>
        if (status_code =? 401)%Z || (status_code =? 403)%Z then
          (match has_error_message b with
           | Ok true =>
               log_msg ERROR "API Key Error" ;;
               log_msg ERROR "Please check your API key in .env file"
           | Ok false => ret tt
           | Raise _ => log_msg ERROR "Authentication failed"
           end ;;
           ret None) s
        else if (status_code =? 429)%Z then
          (log_msg WARNING "Rate limit hit" ;; ret None) s
        else if (400 <=? status_code)%Z then
          (match has_error_message b with
           | Ok true => log_msg ERROR "API Error"
           | Ok false => log_msg WARNING "HTTP error"
           | Raise _ => log_msg WARNING "HTTP error"
           end ;;
           ret None) s
        else (Ok (Some b), s)
    | Timeout => (log_msg WARNING "Request timeout" ;; ret None) s
    | RequestException => (log_msg WARNING "Request error" ;; ret None) s
    end.

(** ** The fetchers *)

(** Exceptions caught by [except (ValueError, IndexError, TypeError)]. *)
Definition parse_errors (e : exn) : bool :=
  match e with
  | ValueError | TypeError => true
  | _ => false
  end.

Definition only_ValueError (e : exn) : bool :=
  match e with
  | ValueError => true
  | _ => false
  end.

(** [v and v > 0] *)
Definition truthy_and_gt0 (v : value) : result bool :=
  if truthy v then gt0 v else Ok false.

(** [v is None or v <= 0] *)
Definition none_or_le0 (v : value) : result bool :=
  if is_none v then Ok true else le0 v.

(** The field [k] of a cache hit, when
    [cached and k in cached and cached[k] is not None]. *)
Definition cached_field (cached : option cache_value) (k : string)
    : option value :=
  match cached with
  | Some (Entry e) =>
      match e !! k with
      | Some v => if is_none v then None else Some v
      | None => None
      end
  | _ => None
  end.

(** What [data and len(data) > 0 and isinstance(data[0], dict)] leaves:
    the first item of a non-empty array; nothing for an empty body; a
    KeyError for [data[0]] on a non-empty object. *)
Definition first_item (b : body) : result (option obj) :=
  match b with
  | NotJson => Raise ValueError
  | JObject o => if bool_decide (o = ∅) then Ok None else Raise KeyError
  | JArray [] => Ok None
  | JArray (item :: _) => Ok (Some item)
  end.

(** get_stock_list's fallback tickers. *)
Definition popular_symbols : list string :=
  ["AAPL"; "MSFT"; "GOOGL"; "AMZN"; "META"; "TSLA"; "NVDA"; "BRK.B"; "V";
   "JNJ"; "WMT"; "JPM"; "MA"; "PG"; "UNH"; "HD"; "DIS"; "BAC"; "ADBE";
   "NFLX"; "PYPL"; "CMCSA"; "KO"; "PFE"; "TMO"; "COST"; "AVGO"; "CSCO";
   "PEP"; "ABT"; "NKE"; "MRK"; "T"; "VZ"; "CVX"; "XOM"; "LLY"; "ABBV";
   "ACN"; "DHR"].

(** get_all_stocks returns whatever non-empty JSON the API sent, or the
    fallback list. *)
Definition get_all_stocks : M body :=
  let fallback :=
    log_msg WARNING "stock/list endpoint failed or unavailable" ;;
    ret (JArray (map (fun sym => {["symbol" := SStr sym]}) popular_symbols))
  in
  response <- make_api_request StockList ;;
  match response with
  | Some NotJson =>
      log_msg ERROR "Error parsing response" ;; fallback
  | Some (JObject o) =>
      if bool_decide (o = ∅)
      then log_msg WARNING "Received empty stock list from API" ;; fallback
      else ret (JObject o)
  | Some (JArray []) =>
      log_msg WARNING "Received empty stock list from API" ;; fallback
  | Some (JArray l) => ret (JArray l)
  | None => fallback
  end.

(** The [for item in data] loop of get_dcf_bulk. *)
Fixpoint dcf_bulk_items (data : list obj) (dcf_dict : gmap string scalar)
    : M (gmap string scalar) :=
  match data with
  | [] => ret dcf_dict
  | item :: rest =>
      let symbol := get_symbol item in
      let dcf_value := get item "dcf" SNull in
      if negb (String.eqb symbol "") && truthy_scalar dcf_value
      then
        cache_stock symbol VNone (Scalar dcf_value) VNone ;;
        dcf_bulk_items rest (<[symbol := dcf_value]> dcf_dict)
      else dcf_bulk_items rest dcf_dict
  end.

Definition get_dcf_bulk : M (option (gmap string scalar)) :=
  response <- make_api_request DcfBulk ;;
  match response with
  | Some NotJson =>
      log_msg ERROR "Error parsing DCF bulk response" ;; ret (Some ∅)
  | Some (JObject o) =>
      (* iterating a dictionary yields its keys; [str.get] does not
         exist *)
      if bool_decide (o = ∅) then ret (Some ∅) else raise AttributeError
  | Some (JArray data) =>
      d <- dcf_bulk_items data ∅ ;; ret (Some d)
  | None =>
      log_msg WARNING "Failed to fetch DCF bulk data" ;; ret None
  end.

Definition profile_of_item (item : obj) : obj :=
  <["sector" := get item "sector" (SStr "N/A")]>
    (<["industry" := get item "industry" (SStr "N/A")]>
       (<["companyName" := get item "companyName" (SStr "N/A")]> ∅)).

Definition get_dcf_value (symbol : string) : M (value * value) :=
  cached <- get_cached_stock symbol ;;
  match cached_field cached "dcf" with
  | Some dcf =>
      let cached_price :=
        match cached with
        | Some (Entry e) => default VNone (e !! "price")
        | _ => VNone
        end in
      ret (dcf, cached_price)
  | None =>
      response <- make_api_request (DcfOf symbol) ;;
      match response with
      | Some b =>
          try_except
            (item <- lift (first_item b) ;;
             match item with
             | Some item =>
                 let dcf_value := Scalar (get item "dcf" SNull) in
                 let stock_price_from_dcf :=
                   Scalar (get item "Stock Price" SNull) in
                 ok <- lift (truthy_and_gt0 dcf_value) ;;
                 if ok : bool then
                   has_price <- lift (truthy_and_gt0 stock_price_from_dcf) ;;
                   (if has_price : bool
                    then cache_stock symbol stock_price_from_dcf
                           dcf_value VNone
                    else cache_stock symbol VNone dcf_value VNone) ;;
                   ret (dcf_value, stock_price_from_dcf)
                 else ret (VNone, VNone)
             | None => ret (VNone, VNone)
             end)
            parse_errors
            (ret (VNone, VNone))
      | None => ret (VNone, VNone)
      end
  end.

Definition get_stock_price (symbol : string) : M value :=
  cached <- get_cached_stock symbol ;;
  match cached_field cached "price" with
  | Some price => ret price
  | None =>
      response <- make_api_request (QuoteOf symbol) ;;
      match response with
      | Some b =>
          try_except
            (item <- lift (first_item b) ;;
             match item with
             | Some item =>
                 let price := Scalar (get item "price" SNull) in
                 ok <- lift (truthy_and_gt0 price) ;;
                 if ok : bool then
                   cache_stock symbol price VNone VNone ;;
                   ret price
                 else ret VNone
             | None => ret VNone
             end)
            parse_errors
            (ret VNone)
      | None => ret VNone
      end
  end.

Definition get_company_profile (symbol : string) : M value :=
  cached <- get_cached_stock symbol ;;
  match cached_field cached "profile" with
  | Some profile => ret profile
  | None =>
      response <- make_api_request (ProfileOf symbol) ;;
      match response with
      | Some b =>
          try_except
            (item <- lift (first_item b) ;;
             match item with
             | Some item =>
                 let profile := Dict (profile_of_item item) in
                 cache_stock symbol VNone VNone profile ;;
                 ret profile
             | None => ret VNone
             end)
            parse_errors
            (ret VNone)
      | None => ret VNone
      end
  end.

(** The [for item in data] loop of get_profiles_bulk. *)
Fixpoint profile_bulk_items (data : list obj)
    (profiles_dict : gmap string obj) : M (gmap string obj) :=
  match data with
  | [] => ret profiles_dict
  | item :: rest =>
      let symbol := get_symbol item in
      if negb (String.eqb symbol "")
      then
        let profile := profile_of_item item in
        cache_stock symbol VNone VNone (Dict profile) ;;
        profile_bulk_items rest (<[symbol := profile]> profiles_dict)
      else profile_bulk_items rest profiles_dict
  end.

(** The [while True] loop of get_profiles_bulk; [None] when [fuel]
    rounds were not enough to leave it. *)
Fixpoint profiles_bulk_loop (fuel part : nat)
    (profiles_dict : gmap string obj) : M (option (gmap string obj)) :=
  match fuel with
  | O => ret None
  | S fuel =>
      response <- make_api_request (ProfileBulk part) ;;
      match response with
      | None => ret (Some profiles_dict)
      | Some NotJson =>
          log_msg ERROR "Error parsing profile bulk response" ;;
          ret (Some profiles_dict)
      | Some (JObject o) =>
          if bool_decide (o = ∅) then ret (Some profiles_dict)
          else raise AttributeError
      | Some (JArray []) => ret (Some profiles_dict)
      | Some (JArray data) =>
          profiles_dict <- profile_bulk_items data profiles_dict ;;
          if (length data <? 1000)%nat then ret (Some profiles_dict)
          else profiles_bulk_loop fuel (S part) profiles_dict
      end
  end.

(** [Some None] is Python's [None]: no profile was fetched. *)
Definition get_profiles_bulk (fuel : nat)
    : M (option (option (gmap string obj))) :=
  r <- profiles_bulk_loop fuel 0 ∅ ;;
  match r with
  | None => ret None
  | Some profiles_dict =>
      if bool_decide (profiles_dict = ∅) then ret (Some None)
      else ret (Some (Some profiles_dict))
  end.

(** ** process_stock *)

(** [datetime.now().isoformat()] *)
Definition now : M string :=
  fun s => (Ok (now_at E (clock s)), set_clock (S (clock s)) s).

(** Lines 584-588 (and 616-620): replace the first record that carries
    [symbol], or append. *)
Definition upsert (symbol : string) (stock_data : stock_data)
    (cache : list Fetch.stock_data) : list Fetch.stock_data :=
  match list_find (fun s => Symbol s = symbol) cache with
  | Some (existing_idx, _) => <[existing_idx := stock_data]> cache
  | None => cache ++ [stock_data]
  end.

(** The same on [stock_cache['_fair_stocks']]. *)
Definition upsert_fair (symbol : string) (stock_data : stock_data)
    : M unit :=
  c <- gets stock_cache ;;
  match c !! "_fair_stocks" with
  | None =>
      modify (set_stock_cache
                (<["_fair_stocks" := RecordList [stock_data]]> c))
  | Some (RecordList l) =>
      modify (set_stock_cache
                (<["_fair_stocks" :=
                     RecordList (upsert symbol stock_data l)]> c))
  | Some (Entry _) => raise AttributeError
  end.

(** [bulk.get(symbol)] behind [if use_bulk and bulk:]. *)
Definition bulk_profile (use_bulk : bool)
    (profiles_bulk : option (gmap string obj)) (symbol : string)
    : value :=
  match profiles_bulk with
  | Some profiles =>
      if use_bulk && negb (bool_decide (profiles = ∅))
      then match profiles !! symbol with
           | Some o => Dict o
           | None => VNone
           end
      else VNone
  | None => VNone
  end.

Definition process_stock (stock : obj) (use_bulk : bool)
    (dcf_bulk : option (gmap string scalar))
    (profiles_bulk : option (gmap string obj)) (buffer : Q)
    : M (option stock_detail) :=
  let symbol := get_symbol stock in
  if String.eqb symbol "" then ret None else
  (* company name for the log *)
  let profile_display := bulk_profile use_bulk profiles_bulk symbol in
  profile_display <-
    (if truthy profile_display then ret profile_display
     else
       cached <- get_cached_stock symbol ;;
       match cached with
       | Some (Entry e) =>
           match e !! "profile" with
           | Some v => ret v
           | None => ret profile_display
           end
       | _ => ret profile_display
       end) ;;
  company_name <-
    (if truthy profile_display
     then match profile_display with
          | Dict o => ret (get o "companyName" (SStr symbol))
          | Scalar _ => raise AttributeError
          end
     else ret (SStr symbol)) ;;
  (* DCF value *)
  dcf <-
    (match dcf_bulk with
     | Some bulk =>
         if use_bulk && negb (bool_decide (bulk = ∅))
         then
           let dcf_value := Scalar (get bulk symbol SNull) in
           if is_none dcf_value then get_dcf_value symbol
           else ret (dcf_value, VNone)
         else get_dcf_value symbol
     | None => get_dcf_value symbol
     end) ;;
  let dcf_value := fst dcf in
  let stock_price_from_dcf := snd dcf in
  (* current price *)
  from_dcf <- lift (truthy_and_gt0 stock_price_from_dcf) ;;
  current_price <-
    (if from_dcf : bool then ret stock_price_from_dcf
     else get_stock_price symbol) ;;
  no_dcf <- lift (none_or_le0 dcf_value) ;;
  if no_dcf : bool then
    no_price <- lift (none_or_le0 current_price) ;;
    if no_price : bool then
      ret (Some {| d_symbol := symbol; d_company_name := company_name;
                   d_price := VNone; d_dcf := VNone;
                   d_status := DATA_UNAVAILABLE; d_has_data := false |})
    else
      ret (Some {| d_symbol := symbol; d_company_name := company_name;
                   d_price := current_price; d_dcf := VNone;
                   d_status := NO_DCF_DATA; d_has_data := false |})
  else
  no_price <- lift (none_or_le0 current_price) ;;
  if no_price : bool then
    ret (Some {| d_symbol := symbol; d_company_name := company_name;
                 d_price := VNone; d_dcf := dcf_value;
                 d_status := NO_PRICE_DATA; d_has_data := false |})
  else
  match current_price, dcf_value with
  | Scalar (SNum price), Scalar (SNum dcf) =>
      let detail :=
        {| d_symbol := symbol; d_company_name := company_name;
           d_price := current_price; d_dcf := dcf_value;
           d_status := valuation_status price dcf buffer;
           d_has_data := true |} in
      let profile := bulk_profile use_bulk profiles_bulk symbol in
      profile <-
        (if is_none profile then get_company_profile symbol
         else ret profile) ;;
      if truthy profile then
        match profile with
        | Scalar _ => raise AttributeError
        | Dict o =>
            if Qltb price dcf then
              t <- now ;;
              let stock_data := undervalued_record symbol o price dcf t in
              modify (fun s =>
                set_undervalued_stocks_cache
                  (upsert symbol stock_data (undervalued_stocks_cache s))
                  (set_undervalued_stocks
                     (undervalued_stocks s ++ [stock_data]) s)) ;;
              cache_stock symbol current_price dcf_value profile ;;
              ret (Some detail)
            else if Qle_bool dcf price
                    && Qle_bool price (dcf * (1 + buffer)) then
              t <- now ;;
              let stock_data := fair_record symbol o price dcf t in
              modify (fun s =>
                set_fair_stocks (fair_stocks s ++ [stock_data]) s) ;;
              upsert_fair symbol stock_data ;;
              cache_stock symbol current_price dcf_value profile ;;
              ret (Some detail)
            else
              cache_stock symbol current_price dcf_value profile ;;
              ret (Some detail)
        end
      else
        cache_stock symbol current_price dcf_value VNone ;;
        ret (Some detail)
  | _, _ => raise TypeError
  end.

(** ** find_undervalued_stocks *)

Definition BATCH_SIZE : nat := 2000.

(** One future of the pool: run process_stock, then the body of the
    [for future in as_completed(...)] loop on its result. *)
Definition run_future (stock : obj) (use_bulk : bool)
    (dcf_bulk : option (gmap string scalar))
    (profiles_bulk : option (gmap string obj)) : M unit :=
  try_except
    (stock_detail <-
       process_stock stock use_bulk dcf_bulk profiles_bulk
         OVERVALUED_BUFFER ;;
     match stock_detail with
     | None =>
         modify (fun s =>
           set_counters (processed_counter s) (S (skipped s))
             (stocks_details s) s)
     | Some stock_detail =>
         modify (fun s =>
           set_counters (S (processed_counter s)) (skipped s)
             (stocks_details s ++ [stock_detail]) s) ;;
         processed <- gets processed_counter ;;
         if (processed mod 100 =? 0)%nat
         then save_cache ;; save_undervalued_cache
         else ret tt
     end)
    (fun _ => true)
    (log_msg ERROR "Error processing stock" ;;
     modify (fun s =>
       set_counters (processed_counter s) (S (skipped s))
         (stocks_details s) s)).

Fixpoint run_batch (batch_stocks : list obj) (use_bulk : bool)
    (dcf_bulk : option (gmap string scalar))
    (profiles_bulk : option (gmap string obj)) : M unit :=
  match batch_stocks with
  | [] => ret tt
  | stock :: rest =>
      run_future stock use_bulk dcf_bulk profiles_bulk ;;
      run_batch rest use_bulk dcf_bulk profiles_bulk
  end.

(** [for batch_num in range(total_batches)] over the batch numbers
    still to do. *)
Fixpoint run_batches (batch_nums : list nat) (all_stocks : list obj)
    (use_bulk : bool) (dcf_bulk : option (gmap string scalar))
    (profiles_bulk : option (gmap string obj)) : M unit :=
  match batch_nums with
  | [] => ret tt
  | batch_num :: rest =>
      let batch_start := (batch_num * BATCH_SIZE)%nat in
      let batch_stocks := take BATCH_SIZE (drop batch_start all_stocks) in
      run_batch batch_stocks use_bulk dcf_bulk profiles_bulk ;;
      save_cache ;;
      save_undervalued_cache ;;
      run_batches rest all_stocks use_bulk dcf_bulk profiles_bulk
  end.

(** [None] when get_profiles_bulk did not come back within [fuel]
    requests.  The CSV reports and the console summary produced after the
    last batch read the state and are left out. *)
Definition find_undervalued_stocks (fuel : nat) : M (option unit) :=
  all_stocks <- get_all_stocks ;;
  dcf_bulk <- get_dcf_bulk ;;
  fetched <- get_profiles_bulk fuel ;;
  match fetched with
  | None => ret None
  | Some profiles_bulk =>
      let use_bulk :=
        match dcf_bulk with Some _ => true | None => false end in
      match all_stocks with
      | JArray all_stocks =>
          let total_batches :=
            ((length all_stocks + BATCH_SIZE - 1) / BATCH_SIZE)%nat in
          run_batches (seq 0 total_batches) all_stocks use_bulk dcf_bulk
            profiles_bulk ;;
          save_cache ;;
          save_undervalued_cache ;;
          ret (Some tt)
      | _ =>
          (* [all_stocks[batch_start:batch_end]] on a dictionary
             (a KeyError from Python 3.12 on) *)
          raise TypeError
      end
  end.

(** ** validate_api_key and the script body *)

Definition validate_api_key : M bool :=
  fun s =>
    let r := http E (length (requests s)) (ProfileOf "AAPL") in
    let s := set_requests (requests s ++ [(ProfileOf "AAPL", r)]) s in
    match r with
    | Response status_code b =>
        if (status_code =? 200)%Z then (Ok true, s)
        else if (status_code =? 401)%Z || (status_code =? 403)%Z then
          (log_msg ERROR "API key validation failed" ;; ret false) s
        else
          (log_msg WARNING "API key validation returned status" ;;
           ret true) s
    | Timeout | RequestException =>
        (log_msg ERROR "Error validating API key" ;; ret true) s
    end.

Inductive outcome :=
| NoApiKey
| ApiKeyTooShort
| ValidationFailed (s : state)
| Finished (s : state)
| Crashed (e : exn) (s : state)
| Diverged.

(** The [if __name__ == "__main__"] block, from the state left by the
    module-level loads. *)
Definition main (API_KEY : option string) (fuel : nat) (s0 : state)
    : outcome :=
  match API_KEY with
  | None => NoApiKey
  | Some key =>
      if String.eqb key "" then NoApiKey
      else if (String.length key <? 10)%nat then ApiKeyTooShort
      else
        match validate_api_key s0 with
        | (Ok true, s1) =>
            match find_undervalued_stocks fuel s1 with
            | (Ok (Some _), s2) => Finished s2
            | (Ok None, _) => Diverged
            | (Raise e, s2) =>
                Crashed e
                  (snd ((log_msg ERROR "Unexpected error occurred" ;;
                         save_cache ;; save_undervalued_cache) s2))
            end
        | (_, s1) => ValidationFailed s1
        end
  end.

End WithEnv.

(** The run stopped before or while working through the stock list. *)
Definition aborted (o : outcome) : bool :=
  match o with
  | Finished _ => false
  | _ => true
  end.

Definition final_state (o : outcome) : option state :=
  match o with
  | ValidationFailed s | Finished s | Crashed _ s => Some s
  | _ => None
  end.

(** A request of the run was answered 401 or 403. *)
Definition auth_failure (r : endpoint * http_result) : bool :=
  match snd r with
  | Response status_code _ =>
      (status_code =? 401)%Z || (status_code =? 403)%Z
  | _ => false
  end.

End Fetch.

(** * Python [str] methods, on ASCII strings *)

Module Str.

Definition isupper (c : ascii) : bool :=
  let n := nat_of_ascii c in (65 <=? n)%nat && (n <=? 90)%nat.

Definition islower (c : ascii) : bool :=
  let n := nat_of_ascii c in (97 <=? n)%nat && (n <=? 122)%nat.

Definition isdigit (c : ascii) : bool :=
  let n := nat_of_ascii c in (48 <=? n)%nat && (n <=? 57)%nat.

Definition isalnum (c : ascii) : bool := isupper c || islower c || isdigit c.

(** Tab, line feed, vertical tab, form feed, carriage return, the four
    separators 28-31 and the space. *)
Definition isspace (c : ascii) : bool :=
  let n := nat_of_ascii c in
  ((9 <=? n)%nat && (n <=? 13)%nat) || ((28 <=? n)%nat && (n <=? 32)%nat).

Definition lower_char (c : ascii) : ascii :=
  if isupper c then ascii_of_nat (nat_of_ascii c + 32) else c.

Definition upper_char (c : ascii) : ascii :=
  if islower c then ascii_of_nat (nat_of_ascii c - 32) else c.

Fixpoint map_chars (f : ascii -> ascii) (s : string) : string :=
  match s with
  | EmptyString => EmptyString
  | String c s => String (f c) (map_chars f s)
  end.

Definition lower : string -> string := map_chars lower_char.
Definition upper : string -> string := map_chars upper_char.

(** [pat in s] *)
Fixpoint contains (pat s : string) : bool :=
  String.prefix pat s ||
  match s with
  | EmptyString => false
  | String _ s' => contains pat s'
  end.

(** A literal pattern searched with [re.IGNORECASE]. *)
Definition contains_nocase (pat s : string) : bool :=
  contains (lower pat) (lower s).

Fixpoint lstrip (s : string) : string :=
  match s with
  | EmptyString => EmptyString
  | String c s' => if isspace c then lstrip s' else s
  end.

Fixpoint rstrip (s : string) : string :=
  match s with
  | EmptyString => EmptyString
  | String c s' =>
      match rstrip s' with
      | EmptyString => if isspace c then EmptyString else String c EmptyString
      | r => String c r
      end
  end.

Definition strip (s : string) : string := rstrip (lstrip s).

(** ["".join(c for c in s if keep(c))] *)
Fixpoint filter_chars (keep : ascii -> bool) (s : string) : string :=
  match s with
  | EmptyString => EmptyString
  | String c s' =>
      if keep c then String c (filter_chars keep s') else filter_chars keep s'
  end.

(** [s.replace(a, b)] for single characters. *)
Definition replace_char (a b : ascii) : string -> string :=
  map_chars (fun c => if Ascii.eqb c a then b else c).

End Str.

(** * The pandas operations used by the table stages *)

Module Frame.
Import Py.

(** A cell of a sheet: empty (NaN), text or a number. *)
Inductive cell :=
| NaN
| Str (s : string)
| Num (q : Qc).

#[global] Instance cell_eq_dec : EqDecision cell.
Proof. solve_decision. Defined.

Abbreviation row := (gmap string cell).

Record DataFrame := {
  columns : list string;
  rows : list row
}.

(** [r[c]]; a column that a row does not fill is NaN. *)
Definition loc (r : row) (c : string) : cell := default NaN (r !! c).

(** [df[c]] as the list of its values. *)
Definition column (c : string) (df : DataFrame) : list cell :=
  map (fun r => loc r c) (rows df).

(** [c in df.columns] *)
Definition has_column (c : string) (df : DataFrame) : bool :=
  bool_decide (c ∈ columns df).

(** [df[mask]] for a mask computed row by row. *)
Definition where_ (p : row -> bool) (df : DataFrame) : DataFrame :=
  {| columns := columns df; rows := List.filter p (rows df) |}.

(** [df[mask]] for a mask given as a list. *)
Fixpoint select {A} (mask : list bool) (l : list A) : list A :=
  match mask, l with
  | b :: mask, x :: l => if b then x :: select mask l else select mask l
  | _, _ => []
  end.

(** [duplicated(keep='first')]: a value is a duplicate when an earlier
    row carried it; NaN counts as a value. *)
Fixpoint duplicated_from (seen keys : list cell) : list bool :=
  match keys with
  | [] => []
  | k :: keys => bool_decide (k ∈ seen) :: duplicated_from (k :: seen) keys
  end.

Definition duplicated (subset : string) (df : DataFrame) : list bool :=
  duplicated_from [] (column subset df).

(** [df.drop_duplicates(subset=[c], keep='first')] *)
Definition drop_duplicates (subset : string) (df : DataFrame) : DataFrame :=
  {| columns := columns df;
     rows := select (map negb (duplicated subset df)) (rows df) |}.

Definition count_occ_cell (k : cell) (l : list cell) : nat :=
  length (List.filter (fun x => bool_decide (x = k)) l).

(** [unique()]: the distinct values in order of first appearance. *)
Definition unique (l : list cell) : list cell :=
  select (map negb (duplicated_from [] l)) l.

(** [df[df.duplicated(subset=[c], keep=False)][c].unique()]: the values
    carried by more than one row. *)
Definition duplicate_values (subset : string) (df : DataFrame) : list cell :=
  let col := column subset df in
  unique (List.filter (fun k => (1 <? count_occ_cell k col)%nat) col).

Definition is_str (c : cell) : bool :=
  match c with Str _ => true | _ => false end.

Definition is_num (c : cell) : bool :=
  match c with Num _ => true | _ => false end.

(** Python's [<] is defined between two strings or between two floats
    (NaN is a float), and raises TypeError across the two: [sorted] of a
    list that mixes them raises. *)
Definition comparable (l : list cell) : bool :=
  forallb is_str l || forallb (fun c => negb (is_str c)) l.

(** [isin(values)] for a list of strings. *)
Definition isin (values : list string) (c : cell) : bool :=
  match c with
  | Str s => bool_decide (s ∈ values)
  | _ => false
  end.

(** [.str.contains(pat, case=False, na=False)] on one value. *)
Definition str_contains_nocase (pat : string) (c : cell) : bool :=
  match c with
  | Str s => Str.contains_nocase pat s
  | _ => false
  end.

(** The [.str] accessor exists for a column of object dtype whose
    non-null values are not all numbers.  [read] is the column as it was
    read from the sheet (it fixes the dtype: object when some cell is
    text or the sheet has no rows), [now] the values it is applied to. *)
Definition str_accessor (read now : list cell) : result unit :=
  if (existsb is_str read || bool_decide (read = []))
     && (existsb is_str now || negb (existsb is_num now))
  then Ok tt
  else Raise AttributeError.

(** Order of [sort_values(ascending=False)]: larger values first, NaN
    last.  (pandas leaves the order of ties open.) *)
Definition sorts_before (c : string) (r1 r2 : row) : Prop :=
  match loc r1 c, loc r2 c with
  | _, NaN => True
  | NaN, _ => False
  | Num a, Num b => (b <= a)%Qc
  | Str a, Str b => String.leb b a = true
  | Str _, Num _ => True
  | Num _, Str _ => False
  end.

#[global] Instance sorts_before_dec c r1 r2 : Decision (sorts_before c r1 r2).
Proof.
  unfold sorts_before.
  destruct (loc r1 c), (loc r2 c); apply _.
Defined.

(** [df.sort_values(c, ascending=False)] *)
Definition sort_values_desc (c : string) (df : DataFrame)
    : result DataFrame :=
  if comparable (List.filter (fun x => negb (bool_decide (x = NaN)))
                   (column c df))
  then Ok {| columns := columns df;
             rows := merge_sort (sorts_before c) (rows df) |}
  else Raise TypeError.

(** [df.dropna(subset=[c])] *)
Definition dropna (c : string) (df : DataFrame) : DataFrame :=
  where_ (fun r => negb (bool_decide (loc r c = NaN))) df.

(** [df[c] = df[c].fillna(v)] *)
Definition fillna (c : string) (v : cell) (df : DataFrame) : DataFrame :=
  {| columns := columns df;
     rows := map (fun r => if bool_decide (loc r c = NaN)
                           then <[c := v]> r else r) (rows df) |}.

(** An Excel file on disk. *)
Inductive file :=
| Missing
| Unreadable
| Sheet (df : DataFrame).

End Frame.

(** * remove_duplicates.py *)

Module RemoveDuplicates.
Import Py Frame.

(** What a stage leaves behind: the table it returns, the file it
    wrote, and the error and warning lines it printed. *)
Record stage_result := {
  returned : option DataFrame;
  written : option DataFrame;
  messages : list string
}.

Definition failed (msg : string) : stage_result :=
  {| returned := None; written := None; messages := [msg] |}.

(** [df.duplicated(subset=['Symbol']).sum()] *)
Definition duplicate_count (df : DataFrame) : nat :=
  length (List.filter id (duplicated "Symbol" df)).

Definition remove_duplicates (input : file) : stage_result :=
  match input with
  | Missing => failed "Error: Input file not found"
  | Unreadable => failed "Error processing file"
  | Sheet df =>
      if negb (has_column "Symbol" df)
      then failed "Error: 'Symbol' column not found in the Excel file."
      else if (duplicate_count df =? 0)%nat
      then {| returned := Some df; written := None;
              messages := ["No duplicates found. File is already clean!"] |}
      else
        let df_cleaned := drop_duplicates "Symbol" df in
        (* [sorted(duplicates)] for the report *)
        if comparable (duplicate_values "Symbol" df)
        then {| returned := Some df_cleaned; written := Some df_cleaned;
                messages := [] |}
        else failed "Error processing file"
  end.

(** The [--overwrite] variant; [written] is the input file itself. *)
Definition remove_duplicates_in_place (input : file) : stage_result :=
  match input with
  | Missing => failed "Error: Input file not found"
  | Unreadable => failed "Error"
  | Sheet df =>
      if negb (has_column "Symbol" df)
      then failed "Error: 'Symbol' column not found."
      else
        let df_cleaned := drop_duplicates "Symbol" df in
        {| returned := Some df_cleaned; written := Some df_cleaned;
           messages := [] |}
  end.

End RemoveDuplicates.

(** * filter_usd_stocks.py *)

Module FilterUsd.
Import Py Frame.
Import RemoveDuplicates.

Definition usd_variations : list string :=
  ["USD"; "usd"; "Usd"; "US Dollar"; "US$"; "$"].

Definition us_variations : list string :=
  ["US"; "us"; "Us"; "USA"; "usa"; "U.S."; "U.S.A."; "United States";
   "United States of America"].

(** The mask of lines 71-73 on one Currency value. *)
Definition is_usd (c : cell) : bool :=
  isin usd_variations c
  || str_contains_nocase "USD" c
  || str_contains_nocase "US Dollar" c.

(** The mask of lines 85-88 on one Country value. *)
Definition is_us (c : cell) : bool :=
  isin us_variations c
  || str_contains_nocase "United States" c
  || str_contains_nocase "USA" c
  || str_contains_nocase "US" c.

(** Lines 70-73: [df_usd]. *)
Definition usd_filter (df : DataFrame) : result DataFrame :=
  bind (str_accessor (column "Currency" df) (column "Currency" df))
    (fun _ => Ok (where_ (fun r => is_usd (loc r "Currency")) df)).

(** Lines 84-88: [df_usd_us], from [df_usd]; the dtype of the Country
    column is the one it was read with. *)
Definition us_filter (df df_usd : DataFrame) : result DataFrame :=
  bind (str_accessor (column "Country" df) (column "Country" df_usd))
    (fun _ => Ok (where_ (fun r => is_us (loc r "Country")) df_usd)).

(** Step 2, lines 108-134: [df_final] before sorting. *)
Definition dedup_step (df_filtered : DataFrame) : result DataFrame :=
  if (duplicate_count df_filtered =? 0)%nat then Ok df_filtered
  else if comparable (duplicate_values "Symbol" df_filtered)
  then Ok (drop_duplicates "Symbol" df_filtered)
  else Raise TypeError.

(** Step 3: sort by discount when the column is there. *)
Definition sort_step (df_final : DataFrame) : result DataFrame :=
  if has_column "Discount %" df_final
  then sort_values_desc "Discount %" df_final
  else Ok df_final.

(** The closing statistics format the mean, maximum and minimum of
    Discount % with [:.2f]; that needs numbers. *)
Definition statistics (df_final : DataFrame) : result unit :=
  if has_column "Discount %" df_final
     && existsb is_str (column "Discount %" df_final)
  then Raise TypeError
  else Ok tt.

(** Steps 2 to 4 and the summary, from [df_filtered]. *)
Definition finish (df_filtered : DataFrame) : stage_result :=
  match bind (dedup_step df_filtered) sort_step with
  | Raise _ => failed "Error processing file"
  | Ok df_final =>
      match statistics df_final with
      | Ok _ => {| returned := Some df_final; written := Some df_final;
                   messages := [] |}
      | Raise _ => {| returned := None; written := Some df_final;
                      messages := ["Error processing file"] |}
      end
  end.

Definition filter_usd_stocks (input : file) : stage_result :=
  match input with
  | Missing => failed "Error: Input file not found"
  | Unreadable => failed "Error processing file"
  | Sheet df =>
      if negb (has_column "Currency" df)
      then failed "Error: 'Currency' column not found in the Excel file."
      else if negb (has_column "Symbol" df)
      then failed "Error: 'Symbol' column not found in the Excel file."
      else
        match usd_filter df with
        | Raise _ => failed "Error processing file"
        | Ok df_usd =>
            if (length (rows df_usd) =? 0)%nat
            then failed "No USD stocks found. Exiting."
            else if has_column "Country" df_usd then
              match us_filter df df_usd with
              | Raise _ => failed "Error processing file"
              | Ok df_usd_us =>
                  if (length (rows df_usd_us) =? 0)%nat
                  then failed "No US stocks found. Exiting."
                  else finish df_usd_us
              end
            else finish df_usd
        end
  end.

(** filter_usd_stocks_parallel: the same filters, then drop_duplicates
    and the sort, without the report on duplicates and the closing
    statistics. *)
Definition filter_usd_stocks_parallel (input : file) : stage_result :=
  match input with
  | Missing => failed "Error: Input file not found"
  | Unreadable => failed "Error"
  | Sheet df =>
      if negb (has_column "Currency" df) || negb (has_column "Symbol" df)
      then failed "Error: Required columns (Currency, Symbol) not found."
      else
        match usd_filter df with
        | Raise _ => failed "Error"
        | Ok df_usd =>
            if (length (rows df_usd) =? 0)%nat
            then failed "No USD stocks found."
            else
              let finish_parallel df_filtered :=
                let df_final := drop_duplicates "Symbol" df_filtered in
                match sort_step df_final with
                | Raise _ => failed "Error"
                | Ok df_final =>
                    {| returned := Some df_final; written := Some df_final;
                       messages := [] |}
                end in
              if has_column "Country" df_usd then
                match us_filter df df_usd with
                | Raise _ => failed "Error"
                | Ok df_filtered =>
                    if (length (rows df_filtered) =? 0)%nat
                    then failed "No US stocks found."
                    else finish_parallel df_filtered
                end
              else finish_parallel df_usd
        end
  end.

End FilterUsd.

(** * filter_exchange_stocks.py *)

Module FilterExchange.
Import Py Frame.

Definition possible_names : list string :=
  ["Exchange"; "exchange"; "EXCHANGE"; "Stock Exchange"; "Stock_Exchange"].

(** Lines 67-82: the column to filter on, and whether the warning of
    line 76 was logged on the way. *)
Definition find_exchange_column (df : DataFrame) : option string * bool :=
  match List.find (fun col_name => has_column col_name df) possible_names with
  | Some col_name => (Some col_name, false)
  | None =>
      (List.find (fun col => Str.contains "exchange" (Str.lower col))
         (columns df), true)
  end.

(** [astype(str).str.upper().str.contains('NYSE|NASDAQ|NYS|NSDQ',
    case=False, regex=True)]: the text of an empty cell is 'nan' and
    that of a number has no letter of the pattern. *)
Definition is_listed (c : cell) : bool :=
  match c with
  | Str s =>
      existsb (fun pat => Str.contains_nocase pat (Str.upper s))
        ["NYSE"; "NASDAQ"; "NYS"; "NSDQ"]
  | _ => false
  end.

Record file_result := {
  counts : nat * nat * nat;   (* total, filtered, removed *)
  output : option DataFrame;  (* the file written, if any *)
  logged : list string        (* warnings and errors *)
}.

Definition filter_stocks_by_exchange (input : file) : file_result :=
  match input with
  | Missing | Unreadable =>
      {| counts := (0, 0, 0)%nat; output := None;
         logged := ["ERROR Error processing"] |}
  | Sheet df =>
      let total_count := length (rows df) in
      if (total_count =? 0)%nat
      then {| counts := (0, 0, 0)%nat; output := None;
              logged := ["WARNING Empty file"] |}
      else
        let found := find_exchange_column df in
        let warned :=
          if snd found then ["WARNING No Exchange column found"] else [] in
        match fst found with
        | None =>
            {| counts := (total_count, 0, total_count)%nat; output := None;
               logged :=
                 warned ++ ["ERROR Cannot find Exchange column. Skipping."] |}
        | Some exchange_column =>
            let df_filtered :=
              where_ (fun r => is_listed (loc r exchange_column)) df in
            let filtered_count := length (rows df_filtered) in
            let removed_count := (total_count - filtered_count)%nat in
            if (0 <? filtered_count)%nat
            then {| counts := (total_count, filtered_count, removed_count);
                    output := Some df_filtered; logged := warned |}
            else {| counts := (total_count, filtered_count, removed_count);
                    output := None;
                    logged :=
                      warned ++ ["WARNING No NYSE/NASDAQ stocks found. File not created."] |}
        end
  end.

Record totals := {
  total_stocks : nat;
  filtered_stocks : nat;
  removed_stocks : nat;
  files_processed : nat;
  files_with_results : nat
}.

(** The loop of main over the sector files, in sorted order; the
    output folder maps a file name to what was written under it. *)
Fixpoint process_files (excel_files : list (string * file))
    (stats : totals) (out : gmap string DataFrame) (log : list string)
    : totals * gmap string DataFrame * list string :=
  match excel_files with
  | [] => (stats, out, log)
  | (file_name, input) :: rest =>
      let r := filter_stocks_by_exchange input in
      let '(total, filtered, removed) := counts r in
      let stats :=
        {| total_stocks := total_stocks stats + total;
           filtered_stocks := filtered_stocks stats + filtered;
           removed_stocks := removed_stocks stats + removed;
           files_processed := files_processed stats + 1;
           files_with_results :=
             if (0 <? filtered)%nat then files_with_results stats + 1
             else files_with_results stats |} in
      let out :=
        match output r with
        | Some df => <[file_name := df]> out
        | None => out
        end in
      process_files rest stats out (log ++ logged r)
  end.

End FilterExchange.

(** * analyze_quarterly_undervalued.py *)

Module SectorOrganizer.
Import Py Frame.

(** [bool(v)] for a cell: NaN is a non-zero float. *)
Definition truthy_cell (c : cell) : bool :=
  match c with
  | NaN => true
  | Str s => negb (String.eqb s "")
  | Num q => negb (bool_decide (q = 0%Qc))
  end.

Definition one_billion : Qc := Q2Qc (1000000000 # 1).

Section WithWorld.
(** What get_market_cap answered for the i-th row handed to the pool. *)
Variable get_market_cap : nat -> cell -> option Qc.
(** [pd.to_numeric(errors='coerce')] on a text cell. *)
Variable to_numeric_text : string -> option Qc.
(** [str(x)] for a float. *)
Variable str_of_float : Qc -> string.

(** process_stock on the row with index [i]. *)
Definition process_stock (i : nat) (row : Frame.row) : option Frame.row :=
  let symbol := loc row "Symbol" in
  if negb (truthy_cell symbol) then None
  else
    let market_cap := get_market_cap i symbol in
    let result_row := delete "Region_Fetched" row in
    Some (<["Market Cap" :=
              match market_cap with
              | Some m => if bool_decide (m = 0%Qc) then NaN else Num m
              | None => NaN
              end]> result_row).

(** The pool, one row after the other: [processed_stocks]. *)
Fixpoint process_all (i : nat) (rs : list Frame.row) : list Frame.row :=
  match rs with
  | [] => []
  | row :: rs =>
      match process_stock i row with
      | Some result => result :: process_all (S i) rs
      | None => process_all (S i) rs
      end
  end.

(** Lines 275-306: the order of the columns. *)
Definition pick (cols : list string) (all_columns : list string)
    : list string :=
  List.filter (fun col => bool_decide (col ∈ all_columns)) cols.

Definition reorder_columns (all_columns : list string) : list string :=
  let priority_columns :=
    ["Symbol"; "Company Name"; "Current Price"; "DCF Price"] in
  let remaining_important :=
    ["Market Cap"; "Price Difference"; "Price Difference %"; "Sector";
     "Industry"; "Country"; "Currency"] in
  let ordered : list string :=
    (pick priority_columns all_columns
     ++ pick remaining_important all_columns)%list in
  (ordered
   ++ List.filter (fun col => negb (bool_decide (col ∈ ordered)))
        all_columns)%list.

(** [pd.DataFrame(processed_stocks)], reordered. *)
Definition processed_frame (df : DataFrame) (processed : list Frame.row)
    : DataFrame :=
  let cols :=
    List.filter (fun col => negb (String.eqb col "Region_Fetched"))
      (columns df) in
  let cols : list string :=
    if bool_decide ("Market Cap" ∈ cols) then cols
    else (cols ++ ["Market Cap"])%list in
  {| columns := reorder_columns cols; rows := processed |}.

(** [astype(str).str.strip() != ''] *)
Definition nonblank (c : cell) : bool :=
  match c with
  | Str s => negb (String.eqb (Str.strip s) "")
  | _ => true
  end.

(** [pd.to_numeric(..., errors='coerce')] on one cell. *)
Definition to_numeric (c : cell) : cell :=
  match c with
  | Str s => match to_numeric_text s with Some q => Num q | None => NaN end
  | c => c
  end.

(** Lines 316-328. *)
Definition clean (df_processed : DataFrame) : DataFrame :=
  let df1 := dropna "Symbol" df_processed in
  let df2 := where_ (fun r => nonblank (loc r "Symbol")) df1 in
  if has_column "Market Cap" df2 then
    let df3 :=
      {| columns := columns df2;
         rows := map (fun r => <["Market Cap" :=
                                   to_numeric (loc r "Market Cap")]> r)
                   (rows df2) |} in
    where_ (fun r => match loc r "Market Cap" with
                     | Num m => bool_decide (one_billion <= m)%Qc
                     | _ => false
                     end) df3
  else df2.

(** Lines 344-348. *)
Definition with_sector (df : DataFrame) : DataFrame :=
  let df :=
    if has_column "Sector" df then df
    else {| columns := (columns df ++ ["Sector"])%list;
            rows := map (fun r => <["Sector" := Str "Unknown"]> r)
                      (rows df) |} in
  fillna "Sector" (Str "Unknown") df.

(** [str(sector)] *)
Definition str_of_cell (c : cell) : string :=
  match c with
  | NaN => "nan"
  | Str s => s
  | Num q => str_of_float q
  end.

(** Lines 371-376, without the folder and the extension. *)
Definition safe_sector_name (sector : cell) : string :=
  let kept :=
    Str.filter_chars
      (fun c => Str.isalnum c
                || Ascii.eqb c " " || Ascii.eqb c "-" || Ascii.eqb c "_")
      (str_of_cell sector) in
  let safe_sector_name := Str.replace_char " " "_" (Str.strip kept) in
  if String.eqb safe_sector_name "" then "Unknown" else safe_sector_name.

(** The order of [sorted(sectors)]. *)
Definition cell_le (a b : cell) : Prop :=
  match a, b with
  | Str a, Str b => String.leb a b = true
  | Num a, Num b => (a <= b)%Qc
  | _, _ => True
  end.

#[local] Instance cell_le_dec a b : Decision (cell_le a b).
Proof. unfold cell_le. destruct a, b; apply _. Defined.

(** [df_processed[df_processed['Sector'] == sector]] *)
Definition sector_rows (sector : cell) (df : DataFrame) : DataFrame :=
  where_ (fun r => bool_decide (loc r "Sector" = sector)) df.

(** The body of the loop over the sectors: the group, sorted by
    discount when that column is there. *)
Definition sector_frame (sector : cell) (df : DataFrame)
    : result DataFrame :=
  let sector_df := sector_rows sector df in
  if has_column "Discount %" sector_df
  then sort_values_desc "Discount %" sector_df
  else Ok sector_df.

(** The loop: each sector's frame goes to the file named after it,
    replacing what an earlier turn wrote there.  A TypeError from
    sort_values is not caught and ends the script. *)
Fixpoint write_sectors (sectors : list cell) (df : DataFrame)
    (folder : gmap string DataFrame)
    : gmap string DataFrame * option exn :=
  match sectors with
  | [] => (folder, None)
  | sector :: rest =>
      match sector_frame sector df with
      | Ok sector_df =>
          write_sectors rest df
            (<[safe_sector_name sector := sector_df]> folder)
      | Raise e => (folder, Some e)
      end
  end.

(** Lines 360-384 on the cleaned table. *)
Definition organize (df_processed : DataFrame)
    : gmap string DataFrame * option exn :=
  let df := with_sector df_processed in
  let sectors := unique (column "Sector" df) in
  if comparable sectors
  then write_sectors (merge_sort cell_le sectors) df ∅
  else (∅, Some TypeError).

(** The table that reaches the partitioner, when the script gets
    that far. *)
Definition filtered_table (API_KEY : option string) (input : file)
    : option DataFrame :=
  match API_KEY, input with
  | Some key, Sheet df =>
      if String.eqb key "" then None
      else if negb (has_column "Symbol" df) then None
      else
        let df := dropna "Symbol" df in
        if (length (rows df) =? 0)%nat then None
        else
          let processed_stocks := process_all 0 (rows df) in
          if (length processed_stocks =? 0)%nat then None
          else
            let df_processed :=
              clean (processed_frame df processed_stocks) in
            if (length (rows df_processed) =? 0)%nat then None
            else Some df_processed
  | _, _ => None
  end.

(** main: the sector files it leaves in the output folder. *)
Definition main (API_KEY : option string) (input : file)
    : gmap string DataFrame * option exn :=
  match filtered_table API_KEY input with
  | Some df_processed => organize df_processed
  | None => (∅, None)
  end.

End WithWorld.

End SectorOrganizer.

(** * State and exceptions for the scripts with a small state *)

Module Run.
Import Py.

Section WithState.
Context {St : Type}.

Definition M (A : Type) : Type := St -> result A * St.

Definition ret {A} (a : A) : M A := fun s => (Ok a, s).

Definition raise {A} (e : exn) : M A := fun s => (Raise e, s).

Definition bind {A B} (m : M A) (k : A -> M B) : M B :=
  fun s =>
    match m s with
    | (Ok a, s') => k a s'
    | (Raise e, s') => (Raise e, s')
    end.

Definition lift {A} (r : result A) : M A := fun s => (r, s).

Definition gets {A} (f : St -> A) : M A := fun s => (Ok (f s), s).

Definition modify (f : St -> St) : M unit := fun s => (Ok tt, f s).

(** [try: m  except <handled>: h] *)
Definition try_except {A} (m : M A) (handled : exn -> bool) (h : M A)
    : M A :=
  fun s =>
    match m s with
    | (Ok a, s') => (Ok a, s')
    | (Raise e, s') => if handled e then h s' else (Raise e, s')
    end.

End WithState.

End Run.

(** * analyze_quarterly_undervalued.py: the market cap of one stock *)

Module MarketCap.
Import Py.

Local Notation "x <- m ;; k" := (Run.bind m (fun x => k))
  (at level 100, m at next level, right associativity).
Local Notation "m ;; k" := (Run.bind m (fun _ => k))
  (at level 100, right associativity).

Inductive endpoint :=
| KeyMetrics (symbol : string)
| Profile (symbol : string)
| Quote (symbol : string).

Record state := {
  log : list (Fetch.level * string);
  requests : list (endpoint * Fetch.http_result)
}.

Definition log_msg (l : Fetch.level) (msg : string) : Run.M unit :=
  Run.modify (fun s => {| log := log s ++ [(l, msg)];
                          requests := requests s |}).

Section WithApi.
(** The answer to the n-th request of the script. *)
Variable http : nat -> endpoint -> Fetch.http_result.

(** Only a 200 hands the response back. *)
Definition make_api_request (ep : endpoint) : Run.M (option Fetch.body) :=
  fun s =>
    let r := http (length (requests s)) ep in
    let s := {| log := log s; requests := requests s ++ [(ep, r)] |} in
    match r with
    | Fetch.Response status_code b =>
        if (status_code =? 200)%Z then (Ok (Some b), s)
        else if (status_code =? 429)%Z then
          (log_msg Fetch.WARNING "Rate limit hit" ;; Run.ret None) s
        else if (status_code =? 401)%Z || (status_code =? 403)%Z then
          (log_msg Fetch.ERROR "API authentication error" ;; Run.ret None) s
        else
          (log_msg Fetch.WARNING "API request failed" ;; Run.ret None) s
    | Fetch.Timeout =>
        (log_msg Fetch.WARNING "Request timeout" ;; Run.ret None) s
    | Fetch.RequestException =>
        (log_msg Fetch.WARNING "Request error" ;; Run.ret None) s
    end.

(** [if market_cap and market_cap > 0: return float(market_cap)]: the
    number when it is positive; nothing for null, 0, a negative number
    or the empty string; comparing a non-empty string with 0 raises. *)
Definition positive (market_cap : Fetch.scalar) : result (option Q) :=
  match market_cap with
  | Fetch.SNull => Ok None
  | Fetch.SNum q => Ok (if Qltb 0 q then Some q else None)
  | Fetch.SStr s => if String.eqb s "" then Ok None else Raise TypeError
  end.

(** [if price and shares_outstanding:] followed by the product and
    [market_cap > 0].  With a non-empty string among the two, either
    the product or the comparison raises TypeError. *)
Definition price_times_shares (price shares_outstanding : Fetch.scalar)
    : result (option Q) :=
  if Fetch.truthy_scalar price && Fetch.truthy_scalar shares_outstanding
  then
    match price, shares_outstanding with
    | Fetch.SNum p, Fetch.SNum n =>
        Ok (if Qltb 0 (p * n) then Some (p * n)%Q else None)
    | _, _ => Raise TypeError
    end
  else Ok None.

(** [data and len(data) > 0], then [data[0]] *)
Definition latest (b : Fetch.body) : result (option Fetch.obj) :=
  Fetch.first_item b.

Definition get_market_cap (symbol : string) : Run.M (option Q) :=
  (* key metrics *)
  response <- make_api_request (KeyMetrics symbol) ;;
  found <-
    match response with
    | Some b =>
        Run.try_except
          (item <- Run.lift (latest b) ;;
           match item with
           | Some item =>
               Run.lift (positive (Fetch.get item "marketCap" Fetch.SNull))
           | None => Run.ret None
           end)
          Fetch.parse_errors
          (Run.ret None)
    | None => Run.ret None
    end ;;
  match found with
  | Some market_cap => Run.ret (Some market_cap)
  | None =>
  (* profile *)
  response <- make_api_request (Profile symbol) ;;
  found <-
    match response with
    | Some b =>
        Run.try_except
          (item <- Run.lift (latest b) ;;
           match item with
           | Some item =>
               Run.lift (positive (Fetch.get item "mktCap" Fetch.SNull))
           | None => Run.ret None
           end)
          Fetch.parse_errors
          (Run.ret None)
    | None => Run.ret None
    end ;;
  match found with
  | Some market_cap => Run.ret (Some market_cap)
  | None =>
  (* quote: shares outstanding times price *)
  response <- make_api_request (Quote symbol) ;;
  match response with
  | Some b =>
      Run.try_except
        (item <- Run.lift (latest b) ;;
         match item with
         | Some item =>
             Run.lift
               (price_times_shares
                  (Fetch.get item "price" Fetch.SNull)
                  (Fetch.get item "sharesOutstanding" Fetch.SNull))
         | None => Run.ret None
         end)
        Fetch.parse_errors
        (Run.ret None)
  | None => Run.ret None
  end
  end
  end.

End WithApi.

End MarketCap.

(** * fetch_stock_regions.py *)

Module Regions.
Import Py.

Local Notation "x <- m ;; k" := (Run.bind m (fun x => k))
  (at level 100, m at next level, right associativity).
Local Notation "m ;; k" := (Run.bind m (fun _ => k))
  (at level 100, right associativity).

(** A value of an enhanced record: what the cache file held, or the
    flag [Region_Fetched]. *)
Inductive field :=
| Json (v : Fetch.scalar)
| Bool (b : bool).

Abbreviation record := (gmap string field).

(** The answer to the n-th request, made for the profile of [symbol],
    and the n-th reading of the clock. *)
Record env := {
  http : nat -> Fetch.scalar -> Fetch.http_result;
  now_at : nat -> string
}.

(** [batch_results] is the list handed to the workers as [results_list]
    and the list the loop over the futures appends to: one list. *)
Record state := {
  batch_results : list record;
  results : list record;
  processed_counter : nat;
  log : list (Fetch.level * string);
  requests : list (Fetch.scalar * Fetch.http_result);
  clock : nat
}.

Definition set_batch_results (l : list record) (s : state) : state :=
  {| batch_results := l;
     results := results s;
     processed_counter := processed_counter s;
     log := log s;
     requests := requests s;
     clock := clock s |}.

Definition log_msg (l : Fetch.level) (msg : string) : Run.M unit :=
  Run.modify (fun s =>
    {| batch_results := batch_results s;
       results := results s;
       processed_counter := processed_counter s;
       log := log s ++ [(l, msg)];
       requests := requests s;
       clock := clock s |}).

Definition initial_state : state :=
  {| batch_results := [];
     results := [];
     processed_counter := 0;
     log := [];
     requests := [];
     clock := 0 |}.

Section WithEnv.
Variable E : env.

(** [datetime.now().isoformat()] *)
Definition now : Run.M string :=
  fun s =>
    (Ok (now_at E (clock s)),
     {| batch_results := batch_results s;
        results := results s;
        processed_counter := processed_counter s;
        log := log s;
        requests := requests s;
        clock := S (clock s) |}).

Definition make_api_request (symbol : Fetch.scalar)
    : Run.M (option Fetch.body) :=
  fun s =>
    let r := http E (length (requests s)) symbol in
    let s :=
      {| batch_results := batch_results s;
         results := results s;
         processed_counter := processed_counter s;
         log := log s;
         requests := requests s ++ [(symbol, r)];
         clock := clock s |} in
    match r with
    | Fetch.Response status_code b =>
        if (status_code =? 401)%Z || (status_code =? 403)%Z then
          (match Fetch.has_error_message b with
           | Ok true => log_msg Fetch.ERROR "API Key Error"
           | Ok false => Run.ret tt
           | Raise _ => log_msg Fetch.ERROR "Authentication failed"
           end ;;
           Run.ret None) s
        else if (status_code =? 429)%Z then
          (log_msg Fetch.WARNING "Rate limit hit" ;; Run.ret None) s
        else if (400 <=? status_code)%Z then
          (log_msg Fetch.WARNING "HTTP error" ;; Run.ret None) s
        else (Ok (Some b), s)
    | Fetch.Timeout =>
        (log_msg Fetch.WARNING "Request timeout" ;; Run.ret None) s
    | Fetch.RequestException =>
        (log_msg Fetch.WARNING "Request error" ;; Run.ret None) s
    end.

(** The [region_info] dictionary built from the first item of the
    profile response. *)
Definition region_info_of (profile_data : Fetch.obj) : Fetch.obj :=
  <["country" := Fetch.get profile_data "country" (Fetch.SStr "N/A")]>
  (<["city" := Fetch.get profile_data "city" (Fetch.SStr "N/A")]>
  (<["state" := Fetch.get profile_data "state" (Fetch.SStr "N/A")]>
  (<["address" := Fetch.get profile_data "address" (Fetch.SStr "N/A")]>
  (<["phone" := Fetch.get profile_data "phone" (Fetch.SStr "N/A")]>
  (<["website" := Fetch.get profile_data "website" (Fetch.SStr "N/A")]>
  (<["exchange" :=
       Fetch.get profile_data "exchangeShortName" (Fetch.SStr "N/A")]>
  (<["currency" := Fetch.get profile_data "currency" (Fetch.SStr "N/A")]>
     ∅))))))).

Definition get_stock_region (symbol : Fetch.scalar)
    : Run.M (option Fetch.obj) :=
  response <- make_api_request symbol ;;
  match response with
  | Some b =>
      Run.try_except
        (item <- Run.lift (Fetch.first_item b) ;;
         match item with
         | Some profile_data => Run.ret (Some (region_info_of profile_data))
         | None => Run.ret None
         end)
        Fetch.parse_errors
        (Run.ret None)
  | None => Run.ret None
  end.

(** The nine region columns, from [region_info] when the fetch gave
    one (a dictionary of eight keys, never empty) and as 'N/A'
    otherwise. *)
Definition with_region (region_info : option Fetch.obj)
    (enhanced_stock : record) : record :=
  match region_info with
  | Some region_info =>
      let field_of k := Json (Fetch.get region_info k (Fetch.SStr "N/A")) in
      <["Region_Fetched" := Bool true]>
      (<["Currency" := field_of "currency"]>
      (<["Exchange" := field_of "exchange"]>
      (<["Website" := field_of "website"]>
      (<["Phone" := field_of "phone"]>
      (<["Address" := field_of "address"]>
      (<["State" := field_of "state"]>
      (<["City" := field_of "city"]>
      (<["Country" := field_of "country"]> enhanced_stock))))))))
  | None =>
      let na := Json (Fetch.SStr "N/A") in
      <["Region_Fetched" := Bool false]>
      (<["Currency" := na]>
      (<["Exchange" := na]>
      (<["Website" := na]>
      (<["Phone" := na]>
      (<["Address" := na]>
      (<["State" := na]>
      (<["City" := na]>
      (<["Country" := na]> enhanced_stock))))))))
  end.

(** process_stock: the worker.  It appends its record to
    [results_list], which is [batch_results], and returns it. *)
Definition process_stock (stock_data : Fetch.obj) : Run.M (option record) :=
  let symbol := Fetch.get stock_data "Symbol" (Fetch.SStr "") in
  if negb (Fetch.truthy_scalar symbol) then Run.ret None else
  region_info <- get_stock_region symbol ;;
  let enhanced_stock := with_region region_info (Json <$> stock_data) in
  t <- now ;;
  let enhanced_stock :=
    <["Region_Fetch_Timestamp" := Json (Fetch.SStr t)]> enhanced_stock in
  Run.modify (fun s =>
    {| batch_results := batch_results s ++ [enhanced_stock];
       results := results s;
       processed_counter := S (processed_counter s);
       log := log s;
       requests := requests s;
       clock := clock s |}) ;;
  Run.ret (Some enhanced_stock).

(** One future, and the body of the loop over the completed futures
    on its result; a record is never an empty dictionary, so
    [if result:] asks whether there is one. *)
Definition run_future (stock : Fetch.obj) : Run.M unit :=
  Run.try_except
    (result <- process_stock stock ;;
     match result with
     | Some result =>
         Run.modify (fun s =>
           set_batch_results (batch_results s ++ [result]) s)
     | None => Run.ret tt
     end)
    (fun _ => true)
    (log_msg Fetch.ERROR "Error processing stock").

Fixpoint run_batch (batch_stocks : list Fetch.obj) : Run.M unit :=
  match batch_stocks with
  | [] => Run.ret tt
  | stock :: rest => run_future stock ;; run_batch rest
  end.

Definition BATCH_SIZE : nat := 2000.

(** [for batch_num in range(total_batches)], over the batch numbers
    still to do. *)
Fixpoint run_batches (batch_nums : list nat) (stocks : list Fetch.obj)
    : Run.M unit :=
  match batch_nums with
  | [] => Run.ret tt
  | batch_num :: rest =>
      let batch_start := (batch_num * BATCH_SIZE)%nat in
      let batch_stocks := take BATCH_SIZE (drop batch_start stocks) in
      Run.modify (set_batch_results []) ;;
      run_batch batch_stocks ;;
      Run.modify (fun s =>
        {| batch_results := batch_results s;
           results := results s ++ batch_results s;
           processed_counter := processed_counter s;
           log := log s;
           requests := requests s;
           clock := clock s |}) ;;
      run_batches rest stocks
  end.

(** load_undervalued_stocks: the cache file is absent ([None]), is not
    JSON, or holds a document. *)
Definition load_undervalued_stocks (file : option Fetch.body)
    : Run.M (option Fetch.body) :=
  match file with
  | None => log_msg Fetch.ERROR "Cache file not found" ;; Run.ret None
  | Some Fetch.NotJson =>
      log_msg Fetch.ERROR "Error loading cache file" ;; Run.ret None
  | Some stocks => Run.ret (Some stocks)
  end.

(** fetch_regions_for_stocks up to line 289, where [results] is
    complete: [false] when it left at 'No stocks to process'.  The
    sheet is built from [results] afterwards. *)
Definition fetch_regions_for_stocks (file : option Fetch.body)
    : Run.M bool :=
  stocks <- load_undervalued_stocks file ;;
  let no_stocks :=
    log_msg Fetch.ERROR "No stocks to process. Exiting." ;; Run.ret false in
  match stocks with
  | None | Some Fetch.NotJson | Some (Fetch.JArray []) => no_stocks
  | Some (Fetch.JObject o) =>
      if bool_decide (o = ∅) then no_stocks
      else
        (* [stocks[batch_start:batch_end]] on a dictionary *)
        Run.raise TypeError
  | Some (Fetch.JArray stocks) =>
      let total_batches :=
        ((length stocks + BATCH_SIZE - 1) / BATCH_SIZE)%nat in
      run_batches (seq 0 total_batches) stocks ;;
      Run.ret true
  end.

End WithEnv.

End Regions.

(** * Notions used in the statements *)

(** The entry of [symbol] has a field named [field]. *)
Definition field_present (c : gmap string Fetch.cache_value)
    (symbol field : string) : Prop :=
  exists e, c !! symbol = Some (Fetch.Entry e) /\ is_Some (e !! field).

(** The rows that [drop_duplicates] keeps out of [rs] when the values in
    [seen] were met before. *)
Definition kept (subset : string) (seen : list Frame.cell)
    (rs : list Frame.row) : list Frame.row :=
  Frame.select
    (map negb (Frame.duplicated_from seen
                 (map (fun r => Frame.loc r subset) rs)))
    rs.


(** Every state change made by [m] is a step of the relation [R]. *)
Definition respects (R : Fetch.state -> Fetch.state -> Prop) {A}
    (m : Fetch.M A) : Prop :=
  forall s, R s (snd (m s)).


(** No two records of the list carry the same Symbol. *)
Definition unique_symbols (l : list Fetch.stock_data) : Prop :=
  NoDup (Fetch.Symbol <$> l).

(** The undervalued cache, in memory and on disk, has one record per
    Symbol. *)
Definition undervalued_cache_unique (s : Fetch.state) : Prop :=
  unique_symbols (Fetch.undervalued_stocks_cache s) /\
  forall l, Fetch.undervalued_cache_file s = Some l -> unique_symbols l.



(** The number of stocks a run has dealt with so far: given a detail
    record, or skipped. *)
Definition handled (s : Fetch.state) : nat :=
  (Fetch.processed_counter s + Fetch.skipped s)%nat.

(** The counters and the list of details are those of [s]. *)
Definition same_counters (s s' : Fetch.state) : Prop :=
  Fetch.processed_counter s' = Fetch.processed_counter s /\
  Fetch.skipped s' = Fetch.skipped s /\
  Fetch.stocks_details s' = Fetch.stocks_details s.

(** An API that accepts the key check and answers every later request
    with 403. *)
Definition api_403 : Fetch.env :=
  {| Fetch.http := fun n ep =>
       match n with
       | O => Fetch.Response 200 (Fetch.JArray [])
       | _ => Fetch.Response 403
                (Fetch.JObject
                   {["Error Message" := Fetch.SStr "Invalid API KEY."]})
       end;
     Fetch.now_at := fun _ => "2024-01-01T00:00:00" |}.

Definition dup_table : Frame.DataFrame :=
  {| Frame.columns := ["Symbol"; "v"];
     Frame.rows :=
       [ <["Symbol" := Frame.Str "X"]> {["v" := Frame.Num (Q2Qc 1)]};
         <["Symbol" := Frame.Str "X"]> {["v" := Frame.Num (Q2Qc 2)]} ] |}.

Definition eur_table : Frame.DataFrame :=
  {| Frame.columns := ["Symbol"; "Currency"];
     Frame.rows :=
       [ <["Symbol" := Frame.Str "SAP"]> {["Currency" := Frame.Str "EUR"]} ] |}.

(** The sizes of the batches with the given numbers, added up. *)
Definition batch_sizes (batch_nums : list nat) (all_stocks : list Fetch.obj)
    : nat :=
  list_sum
    (map (fun batch_num =>
            length (take Fetch.BATCH_SIZE
                      (drop (batch_num * Fetch.BATCH_SIZE) all_stocks)))
       batch_nums).

(** The answer is a 401 or a 403. *)
Definition is_auth_failure (r : Fetch.http_result) : Prop :=
  exists status_code b,
    r = Fetch.Response status_code b /\
    (status_code = 401 \/ status_code = 403)%Z.

(** From [s] to [s'] one request was made and no stock was counted. *)
Definition one_request_more (s s' : Fetch.state) : Prop :=
  length (Fetch.requests s') = S (length (Fetch.requests s)) /\
  handled s' = handled s.

(** The stock list get_all_stocks falls back on. *)
Definition fallback_stocks : list Fetch.obj :=
  map (fun sym => {["symbol" := Fetch.SStr sym]}) Fetch.popular_symbols.

(** A state whose cache knows the price of AAPL. *)
Definition state_with_price : Fetch.state :=
  Fetch.set_stock_cache
    (<["AAPL" := Fetch.Entry {["price" := Fetch.Scalar (Fetch.SNum 150)]}]>
       Fetch.empty_cache)
    (Fetch.initial_state None None).

(** Two rows whose sectors differ only by a space and an underscore, a
    small company, and an API that knows the market cap of the first
    two. *)
Definition row_AAA : Frame.row :=
  <["Symbol" := Frame.Str "AAA"]>
    (<["Sector" := Frame.Str "Real Estate"]>
       {["Discount %" := Frame.Num (Q2Qc 5)]}).

Definition row_BBB : Frame.row :=
  <["Symbol" := Frame.Str "BBB"]>
    (<["Sector" := Frame.Str "Real_Estate"]>
       {["Discount %" := Frame.Num (Q2Qc 7)]}).

Definition row_TINY : Frame.row :=
  <["Symbol" := Frame.Str "TINY"]>
    (<["Sector" := Frame.Str "Technology"]>
       {["Discount %" := Frame.Num (Q2Qc 9)]}).

Definition sector_table : Frame.DataFrame :=
  {| Frame.columns := ["Symbol"; "Sector"; "Discount %"];
     Frame.rows := [row_AAA; row_BBB; row_TINY] |}.

Definition two_billion : Qc := Q2Qc (2000000000 # 1).

Definition sample_market_cap (i : nat) (symbol : Frame.cell) : option Qc :=
  match symbol with
  | Frame.Str "TINY" => None
  | _ => Some two_billion
  end.

(** The sector files written for [sector_table]. *)
Definition sector_files : gmap string Frame.DataFrame * option Py.exn :=
  SectorOrganizer.main sample_market_cap (fun _ => None) (fun _ => "")
    (Some "key") (Frame.Sheet sector_table).

(** [row_BBB] with its market cap filled in. *)
Definition row_BBB_out : Frame.row :=
  <["Market Cap" := Frame.Num two_billion]> row_BBB.

(** ** Notions for the stages beyond the promises of the specification *)

Definition usd_table : Frame.DataFrame :=
  {| Frame.columns := ["Symbol"; "Currency"; "Discount %"];
     Frame.rows :=
       [ <["Symbol" := Frame.Str "A"]>
           (<["Currency" := Frame.Str "usd"]>
              {["Discount %" := Frame.Num (Q2Qc 5)]});
         <["Symbol" := Frame.Str "B"]>
           (<["Currency" := Frame.Str "USD"]>
              {["Discount %" := Frame.Num (Q2Qc 7)]});
         <["Symbol" := Frame.Str "A"]>
           (<["Currency" := Frame.Str "USD"]>
              {["Discount %" := Frame.Num (Q2Qc 9)]});
         <["Symbol" := Frame.Str "C"]>
           (<["Currency" := Frame.Str "EUR"]>
              {["Discount %" := Frame.Num (Q2Qc 8)]}) ] |}.

Definition usd_table_out : Frame.DataFrame :=
  {| Frame.columns := ["Symbol"; "Currency"; "Discount %"];
     Frame.rows :=
       [ <["Symbol" := Frame.Str "B"]>
           (<["Currency" := Frame.Str "USD"]>
              {["Discount %" := Frame.Num (Q2Qc 7)]});
         <["Symbol" := Frame.Str "A"]>
           (<["Currency" := Frame.Str "usd"]>
              {["Discount %" := Frame.Num (Q2Qc 5)]}) ] |}.


(** A character that the file names of the sector files are made of. *)
Definition safe_char (c : ascii) : bool :=
  Str.isalnum c || Ascii.eqb c "-" || Ascii.eqb c "_".

Definition two_sector_table : Frame.DataFrame :=
  {| Frame.columns := ["Symbol"; "Sector"; "Discount %"];
     Frame.rows := [row_AAA; row_TINY] |}.

(** What one of the three attempts finds in the response. *)
Definition found_ok (found : Py.result (option Q)) : Prop :=
  (exists m, found = Py.Ok (Some m) /\ (0 < m)%Q)
  \/ found = Py.Raise Py.KeyError.

(** The stock record carries a ticker: [stock_data.get('Symbol', '')] is
    truthy. *)
Definition has_symbol (stock_data : Fetch.obj) : bool :=
  Fetch.truthy_scalar (Fetch.get stock_data "Symbol" (Fetch.SStr "")).

(** The columns that process_stock of the regions script fills in. *)
Definition region_columns : list string :=
  ["Country"; "City"; "State"; "Address"; "Phone"; "Website"; "Exchange";
   "Currency"; "Region_Fetched"; "Region_Fetch_Timestamp"].

(** From [s] to [s'] only the log and the request trace changed, the
    trace by the one request [x]. *)
Definition one_region_request (x : Fetch.scalar * Fetch.http_result)
    (s s' : Regions.state) : Prop :=
  Regions.requests s' = (Regions.requests s ++ [x])%list /\
  Regions.batch_results s' = Regions.batch_results s /\
  Regions.results s' = Regions.results s /\
  Regions.processed_counter s' = Regions.processed_counter s /\
  Regions.clock s' = Regions.clock s.

(** The request was answered, below status 400, with a JSON object
    that is not empty: the one answer [data[0]] fails on. *)
Definition object_answer (a : Fetch.http_result) : Prop :=
  exists status_code o,
    a = Fetch.Response status_code (Fetch.JObject o) /\
    (400 <=? status_code)%Z = false /\ o <> ∅.

(** The record process_stock builds from the stock, the region
    information and the time. *)
Definition enhanced (region_info : option Fetch.obj) (t : string)
    (stock_data : Fetch.obj) : Regions.record :=
  <["Region_Fetch_Timestamp" := Regions.Json (Fetch.SStr t)]>
    (Regions.with_region region_info (Regions.Json <$> stock_data)).

(** What get_stock_region makes of the answer to its request. *)
Definition region_info_for (a : Fetch.http_result)
    : Py.result (option Fetch.obj) :=
  match a with
  | Fetch.Response status_code b =>
      if (400 <=? status_code)%Z then Py.Ok None
      else
        match b with
        | Fetch.NotJson => Py.Ok None
        | Fetch.JObject o =>
            if bool_decide (o = ∅) then Py.Ok None else Py.Raise Py.KeyError
        | Fetch.JArray [] => Py.Ok None
        | Fetch.JArray (item :: _) =>
            Py.Ok (Some (Regions.region_info_of item))
        end
  | _ => Py.Ok None
  end.

(** Every record of [es] twice: the list the model's schedule leaves. *)
Definition twice (es : list Regions.record) : list Regions.record :=
  flat_map (fun e => [e; e]) es.

(** [e] is the record built for one of [stocks] that carries a ticker. *)
Definition enhanced_from (stocks : list Fetch.obj) (e : Regions.record)
    : Prop :=
  exists stock region_info t,
    stock ∈ stocks /\ has_symbol stock = true /\
    e = enhanced region_info t stock.

(** The tickers of the stocks that carry one, in the order of the file. *)
Definition asked_symbols (stocks : list Fetch.obj) : list Fetch.scalar :=
  map (fun stock_data => Fetch.get stock_data "Symbol" (Fetch.SStr ""))
    (List.filter has_symbol stocks).

(** The API never answers with a JSON object that [data[0]] fails on. *)
Definition never_object (E : Regions.env) : Prop :=
  forall n symbol, ~ object_answer (Regions.http E n symbol).

(** What a stretch of the run leaves behind, for the stocks [stocks] it
    went through: [es] are the records it built. *)
Definition collected (E : Regions.env) (stocks : list Fetch.obj)
    (es : list Regions.record) (s s' : Regions.state) : Prop :=
  map fst (Regions.requests s')
  = (map fst (Regions.requests s) ++ asked_symbols stocks)%list /\
  Regions.processed_counter s'
  = (Regions.processed_counter s + length es)%nat /\
  (length es <= length (asked_symbols stocks))%nat /\
  Forall (enhanced_from stocks) es /\
  (never_object E ->
   (fun e : Regions.record => e !! "Symbol") <$> es
   = (fun v => Some (Regions.Json v)) <$> asked_symbols stocks).

(** The region columns of [e] say that nothing was fetched. *)
Definition region_na (e : Regions.record) : Prop :=
  e !! "Region_Fetched" = Some (Regions.Bool false) /\
  Forall (fun k => e !! k = Some (Regions.Json (Fetch.SStr "N/A")))
    ["Country"; "City"; "State"; "Address"; "Phone"; "Website"; "Exchange";
     "Currency"].

(** The region columns of [e] are read off the profile [item]. *)
Definition region_of (item : Fetch.obj) (e : Regions.record) : Prop :=
  e !! "Region_Fetched" = Some (Regions.Bool true) /\
  Forall (fun kc : string * string =>
            e !! fst kc
            = Some (Regions.Json (Fetch.get item (snd kc) (Fetch.SStr "N/A"))))
    [("Country", "country"); ("City", "city"); ("State", "state");
     ("Address", "address"); ("Phone", "phone"); ("Website", "website");
     ("Exchange", "exchangeShortName"); ("Currency", "currency")].

(** Every DCF value of the bulk dictionary is a truthy value filed under
    a ticker, and the cache holds it for that ticker. *)
Definition dcf_bulk_cached (dcf_dict : gmap string Fetch.scalar)
    (s : Fetch.state) : Prop :=
  forall symbol dcf_value,
    dcf_dict !! symbol = Some dcf_value ->
    symbol <> "" /\ Fetch.truthy_scalar dcf_value = true /\
    Fetch.cached_field (Fetch.stock_cache s !! symbol) "dcf"
    = Some (Fetch.Scalar dcf_value).

(** The same for the profiles of the bulk dictionary. *)
Definition profiles_bulk_cached (profiles_dict : gmap string Fetch.obj)
    (s : Fetch.state) : Prop :=
  forall symbol profile,
    profiles_dict !! symbol = Some profile ->
    symbol <> "" /\
    (exists item, profile = Fetch.profile_of_item item) /\
    Fetch.cached_field (Fetch.stock_cache s !! symbol) "profile"
    = Some (Fetch.Dict profile).

(** [m] makes at most [n] requests, all of them to endpoints in [eps]. *)
Definition asks (eps : list Fetch.endpoint) (n : nat) {A} (m : Fetch.M A)
    : Prop :=
  forall s, exists made,
    Fetch.requests (snd (m s)) = (Fetch.requests s ++ made)%list /\
    (length made <= n)%nat /\
    Forall (fun x => fst x ∈ eps) made.

(** The two cache files hold what the caches hold in memory. *)
Definition caches_saved (s : Fetch.state) : Prop :=
  Fetch.cache_file s = Some (Fetch.stock_cache s) /\
  Fetch.undervalued_cache_file s = Some (Fetch.undervalued_stocks_cache s).

(** The cache has its two list keys. *)
Definition has_list_keys (c : gmap string Fetch.cache_value) : Prop :=
  is_Some (c !! "_undervalued_stocks") /\ is_Some (c !! "_fair_stocks").

(** A record as the undervalued branch of process_stock writes it. *)
Definition undervalued_entry (r : Fetch.stock_data) : Prop :=
  Fetch.Valuation_Status r = Fetch.UNDERVALUED /\ Fetch.Premium_pct r = 0%Q.

(** A record as the fair-value branch writes it. *)
Definition fair_entry (r : Fetch.stock_data) : Prop :=
  Fetch.Valuation_Status r = Fetch.FAIR /\ Fetch.Discount_pct r = 0%Q.

(** From [s] to [s'] the result lists grew by undervalued and by fair
    entries, each in its own list, and the undervalued cache took in
    undervalued entries only. *)
Definition filed_by_status (s s' : Fetch.state) : Prop :=
  (exists new_u new_f,
     Fetch.undervalued_stocks s' = (Fetch.undervalued_stocks s ++ new_u)%list /\
     Fetch.fair_stocks s' = (Fetch.fair_stocks s ++ new_f)%list /\
     Forall undervalued_entry new_u /\ Forall fair_entry new_f) /\
  (Forall undervalued_entry (Fetch.undervalued_stocks_cache s) ->
   Forall undervalued_entry (Fetch.undervalued_stocks_cache s')).

(** Whatever [m] returns satisfies [P]. *)
Definition returns {A} (P : A -> Prop) (m : Fetch.M A) : Prop :=
  forall s a s', m s = (Py.Ok a, s') -> P a.

(** The detail record is one of the six that process_stock can give for
    the ticker [symbol]. *)
Definition detail_ok (symbol : string) (buffer : Q) (d : Fetch.stock_detail)
    : Prop :=
  Fetch.d_symbol d = symbol /\
  match Fetch.d_status d with
  | Fetch.UNKNOWN => False
  | Fetch.DATA_UNAVAILABLE =>
      Fetch.d_has_data d = false /\
      Fetch.d_price d = Fetch.VNone /\ Fetch.d_dcf d = Fetch.VNone
  | Fetch.NO_DCF_DATA =>
      Fetch.d_has_data d = false /\ Fetch.d_dcf d = Fetch.VNone /\
      exists price, Fetch.d_price d = Fetch.Scalar (Fetch.SNum price)
                    /\ (0 < price)%Q
  | Fetch.NO_PRICE_DATA =>
      Fetch.d_has_data d = false /\ Fetch.d_price d = Fetch.VNone /\
      exists dcf, Fetch.d_dcf d = Fetch.Scalar (Fetch.SNum dcf) /\ (0 < dcf)%Q
  | _ =>
      Fetch.d_has_data d = true /\
      exists price dcf,
        Fetch.d_price d = Fetch.Scalar (Fetch.SNum price) /\
        Fetch.d_dcf d = Fetch.Scalar (Fetch.SNum dcf) /\
        (0 < price)%Q /\ (0 < dcf)%Q /\
        Fetch.d_status d = Fetch.valuation_status price dcf buffer
  end.


(** An API for market caps: key metrics are rate limited, the profile
    knows a market cap of five billion. *)
Definition cap_api (n : nat) (ep : MarketCap.endpoint) : Fetch.http_result :=
  match ep with
  | MarketCap.KeyMetrics _ => Fetch.Response 429 Fetch.NotJson
  | MarketCap.Profile _ =>
      Fetch.Response 200
        (Fetch.JArray [{["mktCap" := Fetch.SNum 5000000000]}])
  | MarketCap.Quote _ => Fetch.Timeout
  end.

Definition no_requests : MarketCap.state :=
  {| MarketCap.log := []; MarketCap.requests := [] |}.

(** A profile API that knows the ticker AAA only, and a cache file with
    two tickers and a record without one. *)
Definition regions_api : Regions.env :=
  {| Regions.http := fun n symbol =>
       match symbol with
       | Fetch.SStr "AAA" =>
           Fetch.Response 200
             (Fetch.JArray
                [ <["country" := Fetch.SStr "US"]>
                    {["currency" := Fetch.SStr "USD"]} ])
       | _ => Fetch.Response 404 (Fetch.JArray [])
       end;
     Regions.now_at := fun _ => "2024-01-01T00:00:00" |}.

Definition stock_AAA : Fetch.obj :=
  <["Symbol" := Fetch.SStr "AAA"]> {["Discount %" := Fetch.SNum 5]}.

Definition stock_BBB : Fetch.obj := {["Symbol" := Fetch.SStr "BBB"]}.

Definition cached_stocks : list Fetch.obj :=
  [stock_AAA; stock_BBB; {["Company Name" := Fetch.SStr "No ticker"]}].

Definition regions_run : Py.result bool * Regions.state :=
  Regions.fetch_regions_for_stocks regions_api
    (Some (Fetch.JArray cached_stocks)) Regions.initial_state.

(** The state in which the run against [api_403] ends. *)
Definition state_after_403 : Fetch.state :=
  default (Fetch.initial_state None None)
    (Fetch.final_state
       (Fetch.main api_403 (Some "0123456789abcdef") 5
          (Fetch.initial_state None None))).

(** An API that values every stock at 100 against a price of 90. *)
Definition api_undervalued : Fetch.env :=
  {| Fetch.http := fun n ep =>
       match ep with
       | Fetch.DcfOf _ =>
           Fetch.Response 200
             (Fetch.JArray
                [ <["dcf" := Fetch.SNum 100]>
                    {["Stock Price" := Fetch.SNum 90]} ])
       | Fetch.ProfileOf _ =>
           Fetch.Response 200
             (Fetch.JArray [ {["companyName" := Fetch.SStr "Apple Inc."]} ])
       | _ => Fetch.Response 404 Fetch.NotJson
       end;
     Fetch.now_at := fun _ => "2024-01-01T00:00:00" |}.

Definition detail_AAPL : Fetch.stock_detail :=
  {| Fetch.d_symbol := "AAPL";
     Fetch.d_company_name := Fetch.SStr "AAPL";
     Fetch.d_price := Fetch.Scalar (Fetch.SNum 90);
     Fetch.d_dcf := Fetch.Scalar (Fetch.SNum 100);
     Fetch.d_status := Fetch.UNDERVALUED;
     Fetch.d_has_data := true |}.

(** * Properties *)

Local Open Scope Q_scope.

Lemma Qltb_lt (x y : Q) : Py.Qltb x y = true <-> x < y.
Proof.
  unfold Py.Qltb. rewrite negb_true_iff, <- not_true_iff_false, Qle_bool_iff.
  split; [apply Qnot_le_lt | apply Qlt_not_le].
Qed.



Example classify_spec_example :
  Fetch.valuation_status 90 100 Fetch.OVERVALUED_BUFFER = Fetch.UNDERVALUED /\
  Fetch.valuation_status 130 100 Fetch.OVERVALUED_BUFFER = Fetch.OVERVALUED /\
  Fetch.valuation_status 100 100 Fetch.OVERVALUED_BUFFER = Fetch.FAIR /\
  Fetch.discount_pct 90 100 == 10 /\
  Fetch.premium_pct 100 100 == 0.
Proof. repeat split. Qed.



Local Close Scope Q_scope.

(** ** The cache only grows *)

Lemma insert_unless_keeps (b : bool) (k f : string) (v : Fetch.value)
    (e : gmap string Fetch.value) :
  is_Some (e !! f) -> is_Some ((if b then e else <[k := v]> e) !! f).
Proof.
  intros H. destruct b; [done |].
  apply lookup_insert_is_Some'. by right.
Qed.

Lemma cache_stock_in_keeps_fields now symbol price dcf profile c c' sym f :
  Fetch.cache_stock_in now symbol price dcf profile c = Py.Ok c' ->
  field_present c sym f -> field_present c' sym f.
Proof.
  unfold Fetch.cache_stock_in. intros Hc (e & He & Hf).
  destruct (decide (sym = symbol)) as [-> | Hne].
  - rewrite !He in Hc. inversion Hc; subst; clear Hc.
    eexists. split; [apply lookup_insert_eq |].
    apply lookup_insert_is_Some'. right.
    by repeat apply insert_unless_keeps.
  - exists e. split; [| done].
    destruct (c !! symbol) as [v |] eqn:Hs.
    + rewrite Hs in Hc. destruct v; [| done].
      inversion Hc; subst. by rewrite lookup_insert_ne.
    + rewrite lookup_insert_eq in Hc. inversion Hc; subst.
      by rewrite !lookup_insert_ne.
Qed.

(** C3.  Whatever arguments cache_stock is called with, and for every
    symbol, each field that the symbol's cache entry had before the call
    is still there after it: the call adds or replaces fields and deletes
    none.  (A call that raises leaves the cache as it was.) *)
Theorem cache_stock_keeps_fields (E : Fetch.env) (symbol : string)
    (price dcf profile : Fetch.value) (s : Fetch.state)
    (sym field : string) :
  field_present (Fetch.stock_cache s) sym field ->
  field_present
    (Fetch.stock_cache
       (snd (Fetch.cache_stock E symbol price dcf profile s)))
    sym field.
Proof.
  intros H. unfold Fetch.cache_stock.
  destruct (Fetch.cache_stock_in _ symbol price dcf profile
              (Fetch.stock_cache s)) as [c |] eqn:Hc; simpl; [| done].
  eapply cache_stock_in_keeps_fields; eauto.
Qed.

Lemma cache_stock_keeps_fields_witness :
  field_present (Fetch.stock_cache state_with_price) "AAPL" "price" /\
  field_present
    (Fetch.stock_cache
       (snd (Fetch.cache_stock api_403 "AAPL" Fetch.VNone
               (Fetch.Scalar (Fetch.SNum 120)) Fetch.VNone state_with_price)))
    "AAPL" "price".
Proof.
  assert (H : field_present (Fetch.stock_cache state_with_price) "AAPL" "price").
  { exists {["price" := Fetch.Scalar (Fetch.SNum 150)]}.
    split; [reflexivity |]. eexists. reflexivity. }
  split; [exact H |].
  apply (cache_stock_keeps_fields api_403 "AAPL" Fetch.VNone
           (Fetch.Scalar (Fetch.SNum 120)) Fetch.VNone state_with_price).
  exact H.
Defined.


(** ** Deduplication *)

Lemma kept_cons subset seen r rs :
  kept subset seen (r :: rs) =
    if bool_decide (Frame.loc r subset ∈ seen)
    then kept subset (Frame.loc r subset :: seen) rs
    else r :: kept subset (Frame.loc r subset :: seen) rs.
Proof.
  unfold kept. simpl. by destruct (bool_decide _).
Qed.

Lemma kept_sublist subset rs : forall seen, sublist (kept subset seen rs) rs.
Proof.
  induction rs as [| r rs IH]; intros seen.
  - constructor.
  - rewrite kept_cons. case_bool_decide.
    + apply sublist_cons, IH.
    + apply sublist_skip, IH.
Qed.

Lemma kept_fresh subset rs :
  forall seen r, r ∈ kept subset seen rs -> Frame.loc r subset ∉ seen.
Proof.
  induction rs as [| r0 rs IH]; intros seen r Hr.
  - unfold kept in Hr. simpl in Hr. by apply elem_of_nil in Hr.
  - rewrite kept_cons in Hr. case_bool_decide as Hin.
    + apply IH in Hr. apply not_elem_of_cons in Hr. tauto.
    + apply elem_of_cons in Hr as [-> | Hr]; [done |].
      apply IH in Hr. apply not_elem_of_cons in Hr. tauto.
Qed.

Lemma kept_NoDup subset rs :
  forall seen, NoDup (map (fun r => Frame.loc r subset) (kept subset seen rs)).
Proof.
  induction rs as [| r0 rs IH]; intros seen.
  - constructor.
  - rewrite kept_cons. case_bool_decide as Hin; [apply IH |].
    simpl. constructor; [| apply IH].
    intros Hk. apply list_elem_of_In, in_map_iff in Hk as (r & Heq & Hr).
    apply list_elem_of_In, kept_fresh in Hr. rewrite Heq in Hr.
    apply Hr, list_elem_of_here.
Qed.


Lemma kept_id subset rs :
  forall seen,
    NoDup (map (fun r => Frame.loc r subset) rs) ->
    (forall r, r ∈ rs -> Frame.loc r subset ∉ seen) ->
    kept subset seen rs = rs.
Proof.
  induction rs as [| r rs IH]; intros seen Hnd Hfresh; [done |].
  rewrite kept_cons. simpl in Hnd.
  pose proof (NoDup_cons_1_1 _ _ Hnd) as Hr. apply NoDup_cons_1_2 in Hnd.
  rewrite bool_decide_eq_false_2 by (apply Hfresh, list_elem_of_here).
  f_equal. apply IH; [done |].
  intros r' Hr'. apply not_elem_of_cons. split.
  - intros Heq. apply Hr. rewrite <- Heq.
    apply list_elem_of_In. apply (in_map (fun r => Frame.loc r subset)).
    by apply list_elem_of_In.
  - by apply Hfresh, list_elem_of_further.
Qed.

Lemma kept_idempotent subset rs :
  kept subset [] (kept subset [] rs) = kept subset [] rs.
Proof.
  apply kept_id; [apply kept_NoDup |]. intros r _. apply not_elem_of_nil.
Qed.

Lemma duplicated_from_length seen keys :
  length (Frame.duplicated_from seen keys) = length keys.
Proof.
  revert seen. induction keys as [| k keys IH]; intros seen; simpl; auto.
Qed.

Lemma select_no_true {A} (mask : list bool) (l : list A) :
  length mask = length l ->
  length (List.filter id mask) = 0%nat ->
  Frame.select (map negb mask) l = l.
Proof.
  revert l. induction mask as [| b mask IH]; intros [| x l] Hlen Hcount;
    simpl in *; try done.
  destruct b; simpl in *; [done |]. f_equal. apply IH; [lia | done].
Qed.

Lemma drop_duplicates_rows subset df :
  Frame.rows (Frame.drop_duplicates subset df) = kept subset [] (Frame.rows df).
Proof. reflexivity. Qed.

Lemma drop_duplicates_none subset df :
  length (List.filter id (Frame.duplicated subset df)) = 0%nat ->
  Frame.drop_duplicates subset df = df.
Proof.
  intros H. destruct df as [cols rs]. unfold Frame.drop_duplicates. simpl.
  f_equal. apply select_no_true; [| done].
  unfold Frame.duplicated, Frame.column. simpl.
  by rewrite duplicated_from_length, length_map.
Qed.

Lemma duplicated_from_fresh keys :
  forall seen,
    NoDup keys -> (forall k, k ∈ keys -> k ∉ seen) ->
    List.filter id (Frame.duplicated_from seen keys) = [].
Proof.
  induction keys as [| k keys IH]; intros seen Hnd Hfresh; [done |].
  simpl. pose proof (NoDup_cons_1_1 _ _ Hnd) as Hk.
  apply NoDup_cons_1_2 in Hnd.
  rewrite bool_decide_eq_false_2 by (apply Hfresh, list_elem_of_here).
  simpl. apply IH; [done |].
  intros k' Hk'. apply not_elem_of_cons. split.
  - by intros ->.
  - by apply Hfresh, list_elem_of_further.
Qed.

Lemma duplicate_count_drop_duplicates df :
  RemoveDuplicates.duplicate_count (Frame.drop_duplicates "Symbol" df) = 0%nat.
Proof.
  unfold RemoveDuplicates.duplicate_count, Frame.duplicated, Frame.column.
  rewrite drop_duplicates_rows, duplicated_from_fresh; [done | |].
  - apply kept_NoDup.
  - intros k _. apply not_elem_of_nil.
Qed.

Lemma has_column_drop_duplicates c subset df :
  Frame.has_column c (Frame.drop_duplicates subset df) = Frame.has_column c df.
Proof. reflexivity. Qed.

Lemma comparable_nil : Frame.comparable [] = true.
Proof. reflexivity. Qed.

Lemma duplicate_values_none subset df :
  length (List.filter id (Frame.duplicated subset df)) = 0%nat ->
  Frame.duplicate_values subset df = [].
Proof.
  intros H. unfold Frame.duplicate_values.
  set (col := Frame.column subset df).
  assert (Hnone : forall seen l,
             length (List.filter id (Frame.duplicated_from seen l)) = 0%nat ->
             forall k, k ∈ l -> (k ∉ seen) /\
               length (List.filter (fun x => bool_decide (x = k)) l) = 1%nat).
  { clear. intros seen l. revert seen.
    induction l as [| x l IH]; intros seen Hc k Hk.
    - by apply elem_of_nil in Hk.
    - simpl in Hc. case_bool_decide as Hx; simpl in Hc; [done |].
      specialize (IH _ Hc). simpl.
      apply elem_of_cons in Hk as [-> | Hk].
      + split; [done |]. rewrite bool_decide_eq_true_2 by done. simpl.
        f_equal. destruct (List.filter _ l) as [| y ys] eqn:Hf; [done |].
        assert (Hy : In y (List.filter (fun x0 => bool_decide (x0 = x)) l)).
        { rewrite Hf. by left. }
        apply filter_In in Hy as [Hy Hyx].
        apply bool_decide_eq_true_1 in Hyx. subst y.
        apply list_elem_of_In, IH in Hy as [Hy _].
        exfalso. apply Hy, list_elem_of_here.
      + destruct (IH k Hk) as [Hks Hlen].
        apply not_elem_of_cons in Hks as [Hne Hks]. split; [done |].
        by rewrite bool_decide_eq_false_2 by (intros ->; done). }
  assert (Hempty : List.filter
                     (fun k => (1 <? Frame.count_occ_cell k col)%nat) col = []).
  { destruct (List.filter _ col) as [| y ys] eqn:Hf; [done |].
    assert (Hy : In y (List.filter
                         (fun k => (1 <? Frame.count_occ_cell k col)%nat) col)).
    { rewrite Hf. by left. }
    apply filter_In in Hy as [Hy Hc].
    apply list_elem_of_In in Hy.
    destruct (Hnone [] col H y Hy) as [_ Hone].
    unfold Frame.count_occ_cell in Hc. rewrite Hone in Hc. done. }
  by rewrite Hempty.
Qed.



(** ** The currency filter *)

Lemma loc_insert_eq (r : Frame.row) c v : Frame.loc (<[c := v]> r) c = v.
Proof. unfold Frame.loc. by rewrite lookup_insert_eq. Qed.

Lemma loc_insert_ne (r : Frame.row) c c' v :
  c <> c' -> Frame.loc (<[c := v]> r) c' = Frame.loc r c'.
Proof. intros H. unfold Frame.loc. by rewrite lookup_insert_ne. Qed.

Lemma is_usd_any_case (c : string) :
  Str.lower c = "usd" -> FilterUsd.is_usd (Frame.Str c) = true.
Proof.
  intros Hc. unfold FilterUsd.is_usd, Frame.str_contains_nocase,
    Str.contains_nocase.
  rewrite Hc. apply orb_true_iff. left. apply orb_true_iff. by right.
Qed.

(** The exact-match entries of [usd_variations] are matched as written:
    'US$' passes, 'us$' does not. *)
Example is_usd_dollar_sign :
  FilterUsd.is_usd (Frame.Str "US$") = true /\
  FilterUsd.is_usd (Frame.Str "us$") = false.
Proof. split; reflexivity. Qed.

(** C7.  Take any table and any of its rows, and write 'USD' into the
    row's Currency in any letter case ('usd', 'USD', 'Usd', ...).  The USD
    filter runs and retains the row, and what it does with the other rows
    does not depend on the case chosen: so the row with 'usd' is retained
    if and only if the row with 'USD' is, and both are. *)
Theorem usd_filter_ignores_case (cols : list string)
    (before after : list Frame.row) (r : Frame.row) (c : string) :
  Str.lower c = "usd" ->
  let retained :=
    List.filter (fun r => FilterUsd.is_usd (Frame.loc r "Currency")) in
  FilterUsd.usd_filter
    {| Frame.columns := cols;
       Frame.rows := before ++ <["Currency" := Frame.Str c]> r :: after |}
  = Py.Ok
      {| Frame.columns := cols;
         Frame.rows :=
           retained before ++ <["Currency" := Frame.Str c]> r :: retained after |}.
Proof.
  intros Hc retained. unfold FilterUsd.usd_filter, Frame.str_accessor.
  assert (Hstr : existsb Frame.is_str
                   (Frame.column "Currency"
                      {| Frame.columns := cols;
                         Frame.rows :=
                           before ++ <["Currency" := Frame.Str c]> r :: after |})
                 = true).
  { unfold Frame.column. simpl. rewrite map_app, existsb_app. simpl.
    rewrite loc_insert_eq. simpl. apply orb_true_r. }
  rewrite Hstr. simpl. unfold Frame.where_. simpl. f_equal. f_equal.
  rewrite List.filter_app. simpl.
  by rewrite loc_insert_eq, (is_usd_any_case c Hc).
Qed.

Lemma usd_filter_ignores_case_witness :
  Str.lower "usd" = "usd" /\ Str.lower "USD" = "usd" /\
  FilterUsd.usd_filter
    {| Frame.columns := ["Symbol"; "Currency"];
       Frame.rows := [ <["Currency" := Frame.Str "usd"]> ∅;
                       <["Currency" := Frame.Str "USD"]> ∅;
                       <["Currency" := Frame.Str "EUR"]> ∅ ] |}
  = Py.Ok
      {| Frame.columns := ["Symbol"; "Currency"];
         Frame.rows := [ <["Currency" := Frame.Str "usd"]> ∅;
                         <["Currency" := Frame.Str "USD"]> ∅ ] |}.
Proof.
  split; [reflexivity |]. split; [reflexivity |].
  etransitivity.
  - apply (usd_filter_ignores_case ["Symbol"; "Currency"] []
             [ <["Currency" := Frame.Str "USD"]> ∅;
               <["Currency" := Frame.Str "EUR"]> ∅ ] ∅ "usd").
    reflexivity.
  - reflexivity.
Defined.

(** ** Error states of the table stages *)

(** C8, as stated, fails: a table that has every required column but no
    USD row makes filter_usd_stocks stop with a message, return nothing
    and write nothing; so does a missing input file. *)
Lemma stage_error_without_missing_column :
  Frame.has_column "Currency" eur_table = true /\
  Frame.has_column "Symbol" eur_table = true /\
  FilterUsd.filter_usd_stocks (Frame.Sheet eur_table)
  = RemoveDuplicates.failed "No USD stocks found. Exiting." /\
  RemoveDuplicates.remove_duplicates Frame.Missing
  = RemoveDuplicates.failed "Error: Input file not found".
Proof. repeat split. Qed.

Lemma remove_duplicates_reports input :
  RemoveDuplicates.returned (RemoveDuplicates.remove_duplicates input) = None ->
  RemoveDuplicates.written (RemoveDuplicates.remove_duplicates input) = None /\
  RemoveDuplicates.messages (RemoveDuplicates.remove_duplicates input) <> [].
Proof.
  unfold RemoveDuplicates.remove_duplicates.
  destruct input as [| | df]; simpl; try done.
  repeat case_match; simpl; done.
Qed.

Lemma filter_usd_stocks_reports input :
  RemoveDuplicates.returned (FilterUsd.filter_usd_stocks input) = None ->
  RemoveDuplicates.messages (FilterUsd.filter_usd_stocks input) <> [].
Proof.
  unfold FilterUsd.filter_usd_stocks, FilterUsd.finish.
  destruct input as [| | df]; simpl; try done.
  repeat case_match; simpl; done.
Qed.

(** C8, amended.  A missing required column stops the stage with a
    message: remove_duplicates (Symbol) and filter_usd_stocks (Currency,
    Symbol) print the error, return no table and write no file;
    filter_stocks_by_exchange, given a non-empty sheet with no exchange
    column, logs the error, writes no file for it, counts all its rows as
    removed, and the loop goes on with the remaining files.  The stages
    have other error states as well (a missing or unreadable input file,
    no row left by the currency or country filter, an exception while
    processing), and whenever a stage returns no table it has printed a
    message. *)
Theorem stage_errors_are_reported :
  (forall df, Frame.has_column "Symbol" df = false ->
     RemoveDuplicates.remove_duplicates (Frame.Sheet df)
     = RemoveDuplicates.failed
         "Error: 'Symbol' column not found in the Excel file.") /\
  (forall df, Frame.has_column "Currency" df = false ->
     FilterUsd.filter_usd_stocks (Frame.Sheet df)
     = RemoveDuplicates.failed
         "Error: 'Currency' column not found in the Excel file.") /\
  (forall df, Frame.has_column "Currency" df = true ->
     Frame.has_column "Symbol" df = false ->
     FilterUsd.filter_usd_stocks (Frame.Sheet df)
     = RemoveDuplicates.failed "Error: 'Symbol' column not found in the Excel file.") /\
  (forall df name rest stats out log,
     Frame.rows df <> [] ->
     fst (FilterExchange.find_exchange_column df) = None ->
     let r := FilterExchange.filter_stocks_by_exchange (Frame.Sheet df) in
     FilterExchange.output r = None /\
     FilterExchange.counts r
     = (length (Frame.rows df), 0%nat, length (Frame.rows df)) /\
     "ERROR Cannot find Exchange column. Skipping." ∈ FilterExchange.logged r /\
     FilterExchange.process_files ((name, Frame.Sheet df) :: rest) stats out log
     = FilterExchange.process_files rest
         {| FilterExchange.total_stocks :=
              FilterExchange.total_stocks stats + length (Frame.rows df);
            FilterExchange.filtered_stocks :=
              FilterExchange.filtered_stocks stats + 0;
            FilterExchange.removed_stocks :=
              FilterExchange.removed_stocks stats + length (Frame.rows df);
            FilterExchange.files_processed :=
              FilterExchange.files_processed stats + 1;
            FilterExchange.files_with_results :=
              FilterExchange.files_with_results stats |}
         out (log ++ FilterExchange.logged r)) /\
  (forall input,
     RemoveDuplicates.returned (RemoveDuplicates.remove_duplicates input) = None ->
     RemoveDuplicates.written (RemoveDuplicates.remove_duplicates input) = None /\
     RemoveDuplicates.messages (RemoveDuplicates.remove_duplicates input) <> []) /\
  (forall input,
     RemoveDuplicates.returned (FilterUsd.filter_usd_stocks input) = None ->
     RemoveDuplicates.messages (FilterUsd.filter_usd_stocks input) <> []) /\
  RemoveDuplicates.remove_duplicates Frame.Missing
  = RemoveDuplicates.failed "Error: Input file not found" /\
  FilterUsd.filter_usd_stocks Frame.Missing
  = RemoveDuplicates.failed "Error: Input file not found" /\
  (forall df df_usd,
     Frame.has_column "Currency" df = true ->
     Frame.has_column "Symbol" df = true ->
     FilterUsd.usd_filter df = Py.Ok df_usd ->
     Frame.rows df_usd = [] ->
     FilterUsd.filter_usd_stocks (Frame.Sheet df)
     = RemoveDuplicates.failed "No USD stocks found. Exiting.").
Proof.
  repeat split.
  - intros df H. unfold RemoveDuplicates.remove_duplicates. by rewrite H.
  - intros df H. unfold FilterUsd.filter_usd_stocks. by rewrite H.
  - intros df H1 H2. unfold FilterUsd.filter_usd_stocks. by rewrite H1, H2.
  - unfold FilterExchange.filter_stocks_by_exchange.
    destruct (Frame.rows df) eqn:Hr; [done |]. simpl.
    destruct (FilterExchange.find_exchange_column df) as [[c |] w]; simpl in *;
      done.
  - unfold FilterExchange.filter_stocks_by_exchange.
    destruct (Frame.rows df) eqn:Hr; [done |]. simpl.
    destruct (FilterExchange.find_exchange_column df) as [[c |] w]; simpl in *;
      done.
  - unfold FilterExchange.filter_stocks_by_exchange.
    destruct (Frame.rows df) eqn:Hr; [done |]. simpl.
    destruct (FilterExchange.find_exchange_column df) as [[c |] w]; simpl in *;
      [done |].
    apply list_elem_of_In, in_or_app. right. by left.
  - simpl. unfold FilterExchange.filter_stocks_by_exchange.
    destruct (Frame.rows df) eqn:Hr; [done |]. simpl.
    destruct (FilterExchange.find_exchange_column df) as [[c |] w]; simpl in *;
      done.
  - by apply remove_duplicates_reports.
  - by apply remove_duplicates_reports.
  - apply filter_usd_stocks_reports.
  - intros df df_usd H1 H2 H3 H4. unfold FilterUsd.filter_usd_stocks.
    by rewrite H1, H2, H3, H4.
Qed.

(** ** The sector organizer *)

Section SectorOrganizerFacts.
Import Frame.
Variable get_market_cap : nat -> cell -> option Qc.
Variable to_numeric_text : string -> option Qc.
Variable str_of_float : Qc -> string.

Lemma loc_delete_ne (r : row) c c' :
  c <> c' -> loc (delete c r) c' = loc r c'.
Proof. intros H. unfold loc. by rewrite lookup_delete_ne. Qed.

(** What process_stock returns, spelled out. *)
Lemma process_stock_Some i r r' :
  SectorOrganizer.process_stock get_market_cap i r = Some r' ->
  loc r' "Symbol" = loc r "Symbol" /\
  (loc r' "Market Cap" = NaN \/
   exists m, get_market_cap i (loc r "Symbol") = Some m /\
             loc r' "Market Cap" = Num m).
Proof.
  unfold SectorOrganizer.process_stock.
  destruct (SectorOrganizer.truthy_cell (loc r "Symbol")); simpl; [| done].
  intros [= <-]. split.
  - by rewrite loc_insert_ne, loc_delete_ne.
  - rewrite loc_insert_eq.
    destruct (get_market_cap i (loc r "Symbol")) as [m |]; [| by left].
    case_bool_decide; [by left | right; eauto].
Qed.

Lemma process_all_elem rs :
  forall i0 r',
    r' ∈ SectorOrganizer.process_all get_market_cap i0 rs ->
    exists j r, rs !! j = Some r /\
      SectorOrganizer.process_stock get_market_cap (i0 + j) r = Some r'.
Proof.
  induction rs as [| r rs IH]; intros i0 r' Hr'; simpl in Hr'.
  - by apply elem_of_nil in Hr'.
  - destruct (SectorOrganizer.process_stock get_market_cap i0 r) as [x |] eqn:Hp.
    + apply elem_of_cons in Hr' as [-> | Hr'].
      * exists 0%nat, r. by rewrite Nat.add_0_r.
      * destruct (IH _ _ Hr') as (j & r0 & Hj & Hp0).
        exists (S j), r0. split; [done |].
        by replace (i0 + S j)%nat with (S i0 + j)%nat by lia.
    + destruct (IH _ _ Hr') as (j & r0 & Hj & Hp0).
      exists (S j), r0. split; [done |].
      by replace (i0 + S j)%nat with (S i0 + j)%nat by lia.
Qed.

Lemma has_market_cap_column df processed :
  has_column "Market Cap"
    (SectorOrganizer.processed_frame df processed) = true.
Proof.
  unfold has_column, SectorOrganizer.processed_frame. simpl.
  apply bool_decide_eq_true_2.
  set (cols0 := List.filter _ (columns df)).
  set (cols := if bool_decide ("Market Cap" ∈ cols0) then cols0
               else (cols0 ++ ["Market Cap"])%list).
  assert (Hin : "Market Cap" ∈ cols).
  { unfold cols. case_bool_decide; [done |].
    apply list_elem_of_In, in_or_app. right. by left. }
  unfold SectorOrganizer.reorder_columns.
  apply list_elem_of_In, in_or_app. left. apply in_or_app. right.
  unfold SectorOrganizer.pick. apply filter_In. split.
  - simpl. tauto.
  - by apply bool_decide_eq_true_2.
Qed.

(** The threshold filter keeps only rows whose market cap is a number
    of at least one billion: a NaN never passes. *)
Lemma clean_elem df r :
  has_column "Market Cap" df = true ->
  r ∈ rows (SectorOrganizer.clean to_numeric_text df) ->
  exists r0 m,
    r0 ∈ rows df /\
    r = <["Market Cap" :=
            SectorOrganizer.to_numeric to_numeric_text
              (loc r0 "Market Cap")]> r0 /\
    loc r "Market Cap" = Num m /\ (SectorOrganizer.one_billion <= m)%Qc.
Proof.
  intros Hcol. unfold SectorOrganizer.clean.
  assert (Hcol' : has_column "Market Cap"
            (where_ (fun r => SectorOrganizer.nonblank (loc r "Symbol"))
               (dropna "Symbol" df)) = true) by exact Hcol.
  rewrite Hcol'. unfold where_. simpl.
  rewrite list_elem_of_In, filter_In, in_map_iff.
  intros [(r0 & <- & Hr0) Hm].
  apply filter_In in Hr0 as [Hr0 _]. apply filter_In in Hr0 as [Hr0 _].
  destruct (loc (<["Market Cap" := _]> r0) "Market Cap") as [| | m] eqn:Hl;
    try done.
  apply bool_decide_eq_true_1 in Hm.
  exists r0, m. by rewrite list_elem_of_In.
Qed.

Lemma with_sector_elem df r :
  r ∈ rows (SectorOrganizer.with_sector df) ->
  exists r0, r0 ∈ rows df /\
    forall c, c <> "Sector" -> loc r c = loc r0 c.
Proof.
  unfold SectorOrganizer.with_sector, fillna.
  destruct (has_column "Sector" df); simpl;
    rewrite list_elem_of_In, in_map_iff.
  - intros (r0 & <- & Hr0). exists r0. split; [by apply list_elem_of_In |].
    intros c Hc. case_bool_decide; [| done]. by rewrite loc_insert_ne.
  - intros (r1 & <- & Hr1). apply in_map_iff in Hr1 as (r0 & <- & Hr0).
    exists r0. split; [by apply list_elem_of_In |].
    intros c Hc. case_bool_decide; by rewrite ?loc_insert_ne.
Qed.

Lemma sector_frame_elem sector df t r :
  SectorOrganizer.sector_frame sector df = Py.Ok t ->
  r ∈ rows t -> r ∈ rows df /\ loc r "Sector" = sector.
Proof.
  unfold SectorOrganizer.sector_frame, sort_values_desc.
  assert (Hin : forall r, In r (rows (SectorOrganizer.sector_rows sector df))
                  -> r ∈ rows df /\ loc r "Sector" = sector).
  { intros r0 H0. apply filter_In in H0 as [H0 Hs].
    apply bool_decide_eq_true_1 in Hs. by rewrite list_elem_of_In. }
  destruct (has_column _ _).
  - destruct (comparable _); [| done]. intros [= <-]. simpl.
    rewrite (merge_sort_Permutation (sorts_before "Discount %")).
    intros H. by apply Hin, list_elem_of_In.
  - intros [= <-] H. by apply Hin, list_elem_of_In.
Qed.

Lemma write_sectors_elem sectors df :
  forall folder f t r,
    (forall f t r, folder !! f = Some t -> r ∈ rows t -> r ∈ rows df) ->
    fst (SectorOrganizer.write_sectors str_of_float sectors df folder) !! f
      = Some t ->
    r ∈ rows t -> r ∈ rows df.
Proof.
  induction sectors as [| sector rest IH]; intros folder f t r Hfolder;
    simpl.
  - apply Hfolder.
  - destruct (SectorOrganizer.sector_frame sector df) as [sdf |] eqn:Hs;
      simpl; [| apply Hfolder].
    apply IH. intros f' t' r' Hf' Hr'.
    destruct (decide (SectorOrganizer.safe_sector_name str_of_float sector = f'))
      as [<- | Hne].
    + rewrite lookup_insert_eq in Hf'. injection Hf' as <-.
      by apply (sector_frame_elem sector df sdf).
    + rewrite lookup_insert_ne in Hf' by done. eauto.
Qed.

End SectorOrganizerFacts.

Lemma filtered_table_Some get_market_cap to_numeric_text API_KEY input dfp :
  SectorOrganizer.filtered_table get_market_cap to_numeric_text API_KEY input
  = Some dfp ->
  exists df,
    input = Frame.Sheet df /\
    dfp = SectorOrganizer.clean to_numeric_text
            (SectorOrganizer.processed_frame (Frame.dropna "Symbol" df)
               (SectorOrganizer.process_all get_market_cap 0
                  (Frame.rows (Frame.dropna "Symbol" df)))).
Proof.
  unfold SectorOrganizer.filtered_table.
  destruct API_KEY as [key |]; [| done].
  destruct input as [| | df]; try done.
  repeat case_match; try done.
  intros [= <-]. by exists df.
Qed.

(** C9.  Every row of every sector file written by the organizer comes
    from an input row whose market cap was fetched, as a number of at
    least 1,000,000,000, and carries that number: a stock whose market cap
    is unknown (the fetch gave nothing, or zero, so the cell is NaN) is
    removed by the threshold filter and appears in no sector file. *)
Theorem unknown_market_cap_never_written
    (get_market_cap : nat -> Frame.cell -> option Qc)
    (to_numeric_text : string -> option Qc) (str_of_float : Qc -> string)
    (API_KEY : option string) (input : Frame.file)
    (f : string) (t : Frame.DataFrame) (r' : Frame.row) :
  fst (SectorOrganizer.main get_market_cap to_numeric_text str_of_float
         API_KEY input) !! f = Some t ->
  r' ∈ Frame.rows t ->
  exists df i r m,
    input = Frame.Sheet df /\
    Frame.rows (Frame.dropna "Symbol" df) !! i = Some r /\
    get_market_cap i (Frame.loc r "Symbol") = Some m /\
    (SectorOrganizer.one_billion <= m)%Qc /\
    Frame.loc r' "Market Cap" = Frame.Num m /\
    Frame.loc r' "Symbol" = Frame.loc r "Symbol".
Proof.
  unfold SectorOrganizer.main. intros Hf Hr'.
  destruct (SectorOrganizer.filtered_table _ _ _ _) as [dfp |] eqn:Hft;
    [| simpl in Hf; by rewrite lookup_empty in Hf].
  apply filtered_table_Some in Hft as (df & -> & ->).
  unfold SectorOrganizer.organize in Hf.
  destruct (Frame.comparable _);
    [| simpl in Hf; by rewrite lookup_empty in Hf].
  eapply write_sectors_elem in Hf; [| | exact Hr'].
  2: { intros f0 t0 r0 H0. by rewrite lookup_empty in H0. }
  apply with_sector_elem in Hf as (r2 & Hr2 & Hsame).
  apply clean_elem in Hr2 as (r1 & m & Hr1 & -> & Hm & Hbig);
    [| apply has_market_cap_column].
  simpl in Hr1. apply process_all_elem in Hr1 as (j & r & Hj & Hp).
  apply process_stock_Some in Hp as [Hsym Hcap].
  rewrite loc_insert_eq in Hm.
  exists df, j, r, m. repeat split; try done.
  - destruct Hcap as [Hnan | (m0 & Hget & Hl)].
    + rewrite Hnan in Hm. done.
    + rewrite Hl in Hm. simpl in Hm. by injection Hm as ->.
  - rewrite Hsame by done. rewrite loc_insert_eq.
    destruct Hcap as [Hnan | (m0 & Hget & Hl)].
    + rewrite Hnan in Hm. done.
    + by rewrite Hl in Hm |- *.
  - rewrite Hsame by done. by rewrite loc_insert_ne.
Qed.

Lemma unknown_market_cap_never_written_witness :
  exists df i r m,
    Frame.Sheet sector_table = Frame.Sheet df /\
    Frame.rows (Frame.dropna "Symbol" df) !! i = Some r /\
    sample_market_cap i (Frame.loc r "Symbol") = Some m /\
    (SectorOrganizer.one_billion <= m)%Qc /\
    Frame.loc row_BBB_out "Market Cap" = Frame.Num m /\
    Frame.loc row_BBB_out "Symbol" = Frame.loc r "Symbol".
Proof.
  apply (unknown_market_cap_never_written sample_market_cap (fun _ => None)
           (fun _ => "") (Some "key") (Frame.Sheet sector_table) "Real_Estate"
           {| Frame.columns := ["Symbol"; "Market Cap"; "Sector"; "Discount %"];
              Frame.rows := [row_BBB_out] |} row_BBB_out).
  - vm_compute. reflexivity.
  - apply list_elem_of_here.
Defined.

(** ** Sector files *)

(** C4 at a failing input.  The table that reaches the partitioner has
    the rows AAA (sector 'Real Estate') and BBB (sector 'Real_Estate');
    both sectors are written to the file name 'Real_Estate', the second
    over the first, and the only sector file left holds BBB alone: the
    row AAA is in no output file. *)
Theorem sector_files_lose_a_row :
  (Frame.column "Symbol"
     <$> SectorOrganizer.filtered_table sample_market_cap (fun _ => None)
           (Some "key") (Frame.Sheet sector_table))
  = Some [Frame.Str "AAA"; Frame.Str "BBB"] /\
  snd sector_files = None /\
  (fun named => (fst named, Frame.column "Symbol" (snd named)))
    <$> map_to_list (fst sector_files)
  = [("Real_Estate", [Frame.Str "BBB"])] /\
  SectorOrganizer.safe_sector_name (fun _ => "") (Frame.Str "Real Estate")
  = SectorOrganizer.safe_sector_name (fun _ => "") (Frame.Str "Real_Estate").
Proof. repeat split; vm_compute; reflexivity. Qed.

(** ** State changes of the fetch run

    A relation between states that is reflexive, transitive and closed
    under the primitive updates below is respected by every function of
    the run. *)

Section Respects.
Import Py Fetch.
Variable E : env.
Variable R : state -> state -> Prop.
Hypothesis R_refl : forall s, R s s.
Hypothesis R_trans : forall s1 s2 s3, R s1 s2 -> R s2 s3 -> R s1 s3.
Hypothesis R_log : forall s l, R s (set_log l s).
Hypothesis R_requests :
  forall s x, R s (set_requests (requests s ++ [x]) s).
Hypothesis R_clock : forall s n, R s (set_clock n s).
Hypothesis R_counters : forall s p k ds, R s (set_counters p k ds s).
Hypothesis R_save_cache :
  forall s, R s (set_files (Some (stock_cache s)) (undervalued_cache_file s) s).
Hypothesis R_save_undervalued :
  forall s, R s (set_files (cache_file s) (Some (undervalued_stocks_cache s)) s).
Hypothesis R_cache_stock :
  forall s t symbol price dcf profile c,
    cache_stock_in t symbol price dcf profile (stock_cache s) = Ok c ->
    R s (set_stock_cache c s).
Hypothesis R_fair_cache :
  forall s l,
    (forall e, stock_cache s !! "_fair_stocks" <> Some (Entry e)) ->
    R s (set_stock_cache (<["_fair_stocks" := RecordList l]> (stock_cache s)) s).
Hypothesis R_undervalued :
  forall s symbol o (price dcf : Q) t,
    (0 < price)%Q -> (0 < dcf)%Q -> (price < dcf)%Q ->
    let stock_data := undervalued_record symbol o price dcf t in
    R s (set_undervalued_stocks_cache
           (upsert symbol stock_data (undervalued_stocks_cache s))
           (set_undervalued_stocks (undervalued_stocks s ++ [stock_data]) s)).
Hypothesis R_fair :
  forall s symbol o (price dcf : Q) t,
    (0 < price)%Q -> (0 < dcf)%Q -> (dcf <= price)%Q ->
    (price <= dcf * (1 + OVERVALUED_BUFFER))%Q ->
    R s (set_fair_stocks
           (fair_stocks s ++ [fair_record symbol o price dcf t]) s).

Lemma respects_ret {A} (a : A) : respects R (ret a).
Proof. intros s. apply R_refl. Qed.

Lemma respects_raise {A} e : respects R (@raise A e).
Proof. intros s. apply R_refl. Qed.

Lemma respects_lift {A} (r : result A) : respects R (lift r).
Proof. intros s. apply R_refl. Qed.

Lemma respects_gets {A} (f : state -> A) : respects R (gets f).
Proof. intros s. apply R_refl. Qed.

Lemma respects_modify (f : state -> state) :
  (forall s, R s (f s)) -> respects R (modify f).
Proof. intros H s. apply H. Qed.

Lemma respects_bind {A B} (m : M A) (k : A -> M B) :
  respects R m -> (forall a, respects R (k a)) -> respects R (bindM m k).
Proof.
  intros Hm Hk s. unfold bindM. specialize (Hm s).
  destruct (m s) as [[a | e] s'] eqn:Hms; simpl in *; [| done].
  eapply R_trans; [exact Hm | apply Hk].
Qed.

Lemma respects_bind_lift {A B} (r : result A) (k : A -> M B) :
  (forall a, r = Ok a -> respects R (k a)) -> respects R (bindM (lift r) k).
Proof.
  intros Hk s. unfold bindM, lift. destruct r as [a | e]; simpl.
  - by apply Hk.
  - apply R_refl.
Qed.

Lemma respects_bind_gets {A B} (f : state -> A) (k : A -> M B) :
  (forall s, R s (snd (k (f s) s))) -> respects R (bindM (gets f) k).
Proof. intros Hk s. unfold bindM, gets. apply Hk. Qed.

Lemma respects_try_except {A} (m h : M A) handled :
  respects R m -> respects R h -> respects R (try_except m handled h).
Proof.
  intros Hm Hh s. unfold try_except. specialize (Hm s).
  destruct (m s) as [[a | e] s'] eqn:Hms; simpl in *; [done |].
  destruct (handled e); [| done].
  eapply R_trans; [exact Hm | apply Hh].
Qed.

Lemma respects_log_msg l msg : respects R (log_msg l msg).
Proof. apply respects_modify. intros s. apply R_log. Qed.

Lemma respects_save_cache : respects R save_cache.
Proof. apply respects_modify, R_save_cache. Qed.

Lemma respects_save_undervalued_cache : respects R save_undervalued_cache.
Proof. apply respects_modify, R_save_undervalued. Qed.

Lemma respects_cache_stock symbol price dcf profile :
  respects R (cache_stock E symbol price dcf profile).
Proof.
  intros s. unfold cache_stock.
  destruct (cache_stock_in _ _ _ _ _ _) as [c |] eqn:Hc; simpl.
  - eapply R_trans; [eapply R_cache_stock; exact Hc | apply R_clock].
  - apply R_refl.
Qed.

Lemma respects_now : respects R (now E).
Proof. intros s. apply R_clock. Qed.

Ltac respects_step :=
  lazymatch goal with
  | |- respects _ (ret _) => apply respects_ret
  | |- respects _ (raise _) => apply respects_raise
  | |- respects _ (lift _) => apply respects_lift
  | |- respects _ (gets _) => apply respects_gets
  | |- respects _ (get_cached_stock _) => apply respects_gets
  | |- respects _ (log_msg _ _) => apply respects_log_msg
  | |- respects _ save_cache => apply respects_save_cache
  | |- respects _ save_undervalued_cache =>
      apply respects_save_undervalued_cache
  | |- respects _ (cache_stock _ _ _ _ _) => apply respects_cache_stock
  | |- respects _ (now _) => apply respects_now
  | |- respects _ (bindM (lift _) _) =>
      apply respects_bind_lift; intros ? ?
  | |- respects _ (bindM _ _) => apply respects_bind; [| intros ?]
  | |- respects _ (try_except _ _ _) => apply respects_try_except
  | |- respects _ (match ?x with _ => _ end) => destruct x eqn:?
  | |- respects _ (if ?x then _ else _) => destruct x eqn:?
  end.

Lemma respects_make_api_request ep : respects R (make_api_request E ep).
Proof.
  intros s. unfold make_api_request.
  eapply R_trans;
    [apply (R_requests s (ep, http E (length (requests s)) ep)) |].
  generalize (set_requests (requests s ++ [(ep, http E (length (requests s)) ep)]) s).
  intros s'.
  assert (Hrun : forall (m : M (option body)) s0,
             respects R m -> R s0 (snd (m s0))) by (intros m s0 H; apply H).
  destruct (http E (length (requests s)) ep) as [| | status_code b].
  - apply Hrun. repeat respects_step.
  - apply Hrun. repeat respects_step.
  - destruct ((status_code =? 401)%Z || (status_code =? 403)%Z);
      [apply Hrun; repeat respects_step |].
    destruct (status_code =? 429)%Z; [apply Hrun; repeat respects_step |].
    destruct (400 <=? status_code)%Z; [apply Hrun; repeat respects_step |].
    apply R_refl.
Qed.

Lemma respects_get_all_stocks : respects R (get_all_stocks E).
Proof.
  unfold get_all_stocks. cbv zeta.
  apply respects_bind; [apply respects_make_api_request | intros response].
  repeat respects_step.
Qed.

Lemma respects_dcf_bulk_items data :
  forall d, respects R (dcf_bulk_items E data d).
Proof.
  induction data as [| item rest IH]; intros d; simpl.
  - apply respects_ret.
  - destruct (_ && _); [| apply IH].
    apply respects_bind; [apply respects_cache_stock | intros _; apply IH].
Qed.

Lemma respects_get_dcf_bulk : respects R (get_dcf_bulk E).
Proof.
  unfold get_dcf_bulk.
  apply respects_bind; [apply respects_make_api_request | intros response].
  destruct response as [[| o | data] |]; repeat respects_step.
  apply respects_dcf_bulk_items.
Qed.

Lemma respects_profile_bulk_items data :
  forall d, respects R (profile_bulk_items E data d).
Proof.
  induction data as [| item rest IH]; intros d; simpl.
  - apply respects_ret.
  - destruct (negb _); [| apply IH].
    apply respects_bind; [apply respects_cache_stock | intros _; apply IH].
Qed.

Lemma respects_profiles_bulk_loop fuel :
  forall part d, respects R (profiles_bulk_loop E fuel part d).
Proof.
  induction fuel as [| fuel IH]; intros part d; simpl.
  - apply respects_ret.
  - apply respects_bind; [apply respects_make_api_request | intros response].
    destruct response as [[| o | [| item data]] |]; repeat respects_step.
    + apply (respects_profile_bulk_items (item :: data)).
    + apply IH.
Qed.

Lemma respects_get_profiles_bulk fuel : respects R (get_profiles_bulk E fuel).
Proof.
  unfold get_profiles_bulk.
  apply respects_bind; [apply respects_profiles_bulk_loop | intros r].
  repeat respects_step.
Qed.

Lemma respects_get_dcf_value symbol : respects R (get_dcf_value E symbol).
Proof.
  unfold get_dcf_value.
  apply respects_bind; [apply respects_gets | intros cached].
  destruct (cached_field cached "dcf"); [apply respects_ret |].
  apply respects_bind; [apply respects_make_api_request | intros response].
  repeat respects_step.
Qed.

Lemma respects_get_stock_price symbol : respects R (get_stock_price E symbol).
Proof.
  unfold get_stock_price.
  apply respects_bind; [apply respects_gets | intros cached].
  destruct (cached_field cached "price"); [apply respects_ret |].
  apply respects_bind; [apply respects_make_api_request | intros response].
  repeat respects_step.
Qed.

Lemma respects_get_company_profile symbol :
  respects R (get_company_profile E symbol).
Proof.
  unfold get_company_profile.
  apply respects_bind; [apply respects_gets | intros cached].
  destruct (cached_field cached "profile"); [apply respects_ret |].
  apply respects_bind; [apply respects_make_api_request | intros response].
  repeat respects_step.
Qed.

Lemma respects_upsert_fair symbol stock_data :
  respects R (upsert_fair symbol stock_data).
Proof.
  unfold upsert_fair. apply respects_bind_gets. intros s.
  destruct (stock_cache s !! "_fair_stocks") as [[e | l] |] eqn:Hf; simpl.
  - apply R_refl.
  - apply R_fair_cache. intros e. by rewrite Hf.
  - apply R_fair_cache. intros e. by rewrite Hf.
Qed.

Lemma none_or_le0_false v :
  none_or_le0 v = Ok false -> exists q, v = Scalar (SNum q) /\ (0 < q)%Q.
Proof.
  destruct v as [[| q | x] | o]; simpl; try discriminate.
  intros [= H]. exists q. split; [done |].
  apply Qnot_le_lt. intros Hle. apply Qle_bool_iff in Hle. congruence.
Qed.

Ltac respects_call :=
  first
    [ respects_step
    | apply respects_get_dcf_value
    | apply respects_get_stock_price
    | apply respects_get_company_profile
    | apply respects_upsert_fair ].

Lemma respects_process_stock stock use_bulk dcf_bulk profiles_bulk :
  respects R
    (process_stock E stock use_bulk dcf_bulk profiles_bulk OVERVALUED_BUFFER).
Proof.
  unfold process_stock. cbv zeta.
  repeat respects_call.
  all: apply respects_modify; intros s'.
  all: repeat match goal with
       | H : none_or_le0 _ = Ok false |- _ =>
           apply none_or_le0_false in H as (? & ? & ?)
       end.
  all: simplify_eq.
  - apply R_undervalued; [done | done | by apply Qltb_lt].
  - match goal with
    | H : _ && _ = true |- _ =>
        apply andb_true_iff in H as [Hlo%Qle_bool_iff Hhi%Qle_bool_iff]
    end.
    by apply R_fair.
Qed.

Lemma respects_run_future stock use_bulk dcf_bulk profiles_bulk :
  respects R (run_future E stock use_bulk dcf_bulk profiles_bulk).
Proof.
  unfold run_future. apply respects_try_except.
  - apply respects_bind; [apply respects_process_stock | intros d].
    repeat respects_step.
    all: apply respects_modify; intros s'; apply R_counters.
  - repeat respects_step. apply respects_modify; intros s'; apply R_counters.
Qed.

Lemma respects_run_batch batch use_bulk dcf_bulk profiles_bulk :
  respects R (run_batch E batch use_bulk dcf_bulk profiles_bulk).
Proof.
  induction batch as [| stock rest IH]; simpl.
  - apply respects_ret.
  - apply respects_bind; [apply respects_run_future | intros _; apply IH].
Qed.

Lemma respects_run_batches nums all_stocks use_bulk dcf_bulk profiles_bulk :
  respects R (run_batches E nums all_stocks use_bulk dcf_bulk profiles_bulk).
Proof.
  induction nums as [| n rest IH]; simpl.
  - apply respects_ret.
  - apply respects_bind; [apply respects_run_batch | intros _].
    repeat respects_step. apply IH.
Qed.

Lemma respects_find_undervalued_stocks fuel :
  respects R (find_undervalued_stocks E fuel).
Proof.
  unfold find_undervalued_stocks.
  apply respects_bind; [apply respects_get_all_stocks | intros all_stocks].
  apply respects_bind; [apply respects_get_dcf_bulk | intros dcf_bulk].
  apply respects_bind; [apply respects_get_profiles_bulk | intros fetched].
  destruct fetched as [profiles_bulk |]; [| apply respects_ret].
  destruct all_stocks as [| o | l]; try apply respects_raise.
  apply respects_bind; [apply respects_run_batches | intros _].
  repeat respects_step.
Qed.

Lemma respects_validate_api_key : respects R (validate_api_key E).
Proof.
  intros s. unfold validate_api_key.
  eapply R_trans;
    [apply (R_requests s
       (ProfileOf "AAPL", http E (length (requests s)) (ProfileOf "AAPL"))) |].
  generalize (set_requests (requests s ++
       [(ProfileOf "AAPL", http E (length (requests s)) (ProfileOf "AAPL"))]) s).
  intros s'.
  assert (Hrun : forall (m : M bool) s0,
             respects R m -> R s0 (snd (m s0))) by (intros m s0 H; apply H).
  destruct (http E (length (requests s)) (ProfileOf "AAPL"))
    as [| | status_code b].
  - apply Hrun. repeat respects_step.
  - apply Hrun. repeat respects_step.
  - destruct (status_code =? 200)%Z; [apply R_refl |].
    destruct ((status_code =? 401)%Z || (status_code =? 403)%Z);
      apply Hrun; repeat respects_step.
Qed.

(** Whatever state a run ends in is related to the state it started
    from. *)
Lemma respects_main API_KEY fuel s0 s :
  final_state (main E API_KEY fuel s0) = Some s -> R s0 s.
Proof.
  unfold main. destruct API_KEY as [key |]; [| done].
  destruct (String.eqb key ""); [done |].
  destruct (String.length key <? 10)%nat; [done |].
  pose proof (respects_validate_api_key s0) as Hv.
  destruct (validate_api_key E s0) as [[[|] | e] s1]; simpl in Hv.
  - pose proof (respects_find_undervalued_stocks fuel s1) as Hf.
    destruct (find_undervalued_stocks E fuel s1) as [[[u |] | e] s2];
      simpl in Hf; simpl.
    + intros [= <-]. by eapply R_trans.
    + done.
    + intros [= <-]. eapply R_trans; [exact Hv |].
      eapply R_trans; [exact Hf |].
      assert (Hrun : forall (m : M unit) s0,
                 respects R m -> R s0 (snd (m s0)))
        by (intros m s' H; apply H).
      apply (Hrun (log_msg ERROR "Unexpected error occurred" ;;
                   save_cache ;; save_undervalued_cache)).
      repeat respects_step.
  - simpl. by intros [= <-].
  - simpl. by intros [= <-].
Qed.

End Respects.

(** ** One record per Symbol in the undervalued cache *)

Lemma upsert_found symbol rec (cache : list Fetch.stock_data) i old :
  unique_symbols cache ->
  cache !! i = Some old -> Fetch.Symbol old = symbol ->
  Fetch.upsert symbol rec cache = <[i := rec]> cache.
Proof.
  intros Hnd Hi Hold. unfold Fetch.upsert.
  destruct (list_find _ cache) as [[j x] |] eqn:Hfind.
  - apply list_find_Some in Hfind as (Hj & Hx & _).
    assert (j = i) as ->; [| done].
    eapply (NoDup_lookup (Fetch.Symbol <$> cache)); [exact Hnd | |].
    + by rewrite list_lookup_fmap, Hj.
    + rewrite list_lookup_fmap, Hi. simpl. congruence.
  - apply list_find_None in Hfind.
    rewrite Forall_forall in Hfind. exfalso.
    apply (Hfind old); [| done].
    eapply list_elem_of_lookup_2. exact Hi.
Qed.

Lemma upsert_absent symbol rec (cache : list Fetch.stock_data) :
  symbol ∉ Fetch.Symbol <$> cache ->
  Fetch.upsert symbol rec cache = (cache ++ [rec])%list.
Proof.
  intros Hnot. unfold Fetch.upsert.
  destruct (list_find _ cache) as [[j x] |] eqn:Hfind; [| done].
  apply list_find_Some in Hfind as (Hj & Hx & _).
  exfalso. apply Hnot. rewrite <- Hx.
  apply list_elem_of_fmap_2. eapply list_elem_of_lookup_2. exact Hj.
Qed.

Lemma upsert_unique symbol rec (cache : list Fetch.stock_data) :
  Fetch.Symbol rec = symbol ->
  unique_symbols cache -> unique_symbols (Fetch.upsert symbol rec cache).
Proof.
  intros Hrec Hnd. unfold Fetch.upsert, unique_symbols in *.
  destruct (list_find _ cache) as [[j x] |] eqn:Hfind.
  - apply list_find_Some in Hfind as (Hj & Hx & _).
    rewrite list_fmap_insert, Hrec, <- Hx.
    rewrite list_insert_id; [done |]. by rewrite list_lookup_fmap, Hj.
  - apply list_find_None in Hfind.
    rewrite fmap_app. simpl.
    apply NoDup_app. split; [done |]. split.
    + intros y Hy Hy'. apply list_elem_of_singleton in Hy'. subst y.
      apply list_elem_of_fmap in Hy as (z & Hz & Hin).
      rewrite Forall_forall in Hfind. apply (Hfind z); [done | congruence].
    + apply NoDup_singleton.
Qed.

Lemma run_keeps_undervalued_cache_unique (E : Fetch.env) :
  (forall stock use_bulk dcf_bulk profiles_bulk s,
     undervalued_cache_unique s ->
     undervalued_cache_unique
       (snd (Fetch.process_stock E stock use_bulk dcf_bulk profiles_bulk
               Fetch.OVERVALUED_BUFFER s))) /\
  (forall API_KEY fuel s0 s,
     undervalued_cache_unique s0 ->
     Fetch.final_state (Fetch.main E API_KEY fuel s0) = Some s ->
     undervalued_cache_unique s).
Proof.
  set (R := fun s s' : Fetch.state =>
              undervalued_cache_unique s -> undervalued_cache_unique s').
  assert (Hproc : forall stock use_bulk dcf_bulk profiles_bulk,
            respects R (Fetch.process_stock E stock use_bulk dcf_bulk
                          profiles_bulk Fetch.OVERVALUED_BUFFER)
            /\ forall API_KEY fuel s0 s,
                 Fetch.final_state (Fetch.main E API_KEY fuel s0) = Some s ->
                 R s0 s).
  { intros. split; [apply respects_process_stock | apply respects_main];
      unfold R, undervalued_cache_unique; simpl; try tauto.
    all: try (intros s1 s2 s3 H12 H23 H1; by auto).
    all: first
      [ by (intros s symbol o price dcf t _ _ _ [Hm Hf];
            split; [apply upsert_unique |])
      | by (intros s [Hm Hf]; split; [| intros l [= <-]]) ]. }
  split.
  - intros stock use_bulk dcf_bulk profiles_bulk s.
    apply (proj1 (Hproc stock use_bulk dcf_bulk profiles_bulk)).
  - intros API_KEY fuel s0 s H0 Hfin.
    by apply (proj2 (Hproc ∅ false None None) API_KEY fuel s0 s).
Qed.

(** C10.  The update of the undervalued cache made by process_stock keeps
    one record per Symbol: on a list without repeated Symbols, a record
    whose Symbol is already there replaces the old one in place, a record
    with a new Symbol is appended, and in both cases no Symbol is repeated
    afterwards.  So a run that starts from a cache with one record per
    Symbol has one record per Symbol in memory and in the saved file after
    every stock and at its end; the empty cache of a first run is such a
    start, and so is the cache loaded from the file that such a run
    leaves. *)
Theorem undervalued_cache_one_record_per_symbol :
  (forall symbol rec cache,
     Fetch.Symbol rec = symbol -> unique_symbols cache ->
     unique_symbols (Fetch.upsert symbol rec cache) /\
     (forall i old,
        cache !! i = Some old -> Fetch.Symbol old = symbol ->
        Fetch.upsert symbol rec cache = <[i := rec]> cache) /\
     (symbol ∉ Fetch.Symbol <$> cache ->
      Fetch.upsert symbol rec cache = (cache ++ [rec])%list)) /\
  (forall E stock use_bulk dcf_bulk profiles_bulk s,
     undervalued_cache_unique s ->
     undervalued_cache_unique
       (snd (Fetch.process_stock E stock use_bulk dcf_bulk profiles_bulk
               Fetch.OVERVALUED_BUFFER s))) /\
  (forall E API_KEY fuel s0 s,
     undervalued_cache_unique s0 ->
     Fetch.final_state (Fetch.main E API_KEY fuel s0) = Some s ->
     undervalued_cache_unique s) /\
  (forall cache_json,
     undervalued_cache_unique (Fetch.initial_state cache_json None)) /\
  (forall cache_json E API_KEY fuel s0 s l,
     undervalued_cache_unique s0 ->
     Fetch.final_state (Fetch.main E API_KEY fuel s0) = Some s ->
     Fetch.undervalued_cache_file s = Some l ->
     undervalued_cache_unique
       (Fetch.initial_state cache_json (Some (Some l)))).
Proof.
  split; [| split; [| split; [| split]]].
  - intros symbol rec cache Hrec Hnd. split; [by apply upsert_unique |].
    split.
    + intros i old Hi Hold. by eapply upsert_found.
    + apply upsert_absent.
  - intros E. apply (proj1 (run_keeps_undervalued_cache_unique E)).
  - intros E. apply (proj2 (run_keeps_undervalued_cache_unique E)).
  - intros cache_json. split; simpl.
    + apply NoDup_nil_2.
    + done.
  - intros cache_json E API_KEY fuel s0 s l H0 Hfin Hl.
    apply (proj2 (run_keeps_undervalued_cache_unique E)) in Hfin; [| done].
    destruct Hfin as [_ Hfile]. specialize (Hfile l Hl).
    split; simpl; [done |]. by intros l' [= <-].
Qed.

(** ** Discount and premium *)






Local Open Scope Q_scope.



Local Close Scope Q_scope.

(** ** Authentication failures *)

(** C5, as stated, fails: with an API that accepts the key check and
    answers each of the 83 later requests with 403, the run is not
    aborted; it goes through the 40 fallback symbols and finishes. *)
Lemma run_continues_after_403 :
  let out :=
    Fetch.main api_403 (Some "0123456789abcdef") 5
      (Fetch.initial_state None None) in
  Fetch.aborted out = false /\
  exists s,
    out = Fetch.Finished s /\
    length (List.filter Fetch.auth_failure (Fetch.requests s)) = 83%nat /\
    Fetch.processed_counter s = 40%nat /\
    Fetch.skipped s = 0%nat /\
    Fetch.d_status <$> Fetch.stocks_details s
      = replicate 40 Fetch.DATA_UNAVAILABLE.
Proof.
  split; [vm_compute; reflexivity |].
  eexists. split; [vm_compute; reflexivity |].
  repeat split; vm_compute; reflexivity.
Qed.

Lemma same_counters_refl s : same_counters s s.
Proof. by repeat split. Qed.

Lemma same_counters_trans s1 s2 s3 :
  same_counters s1 s2 -> same_counters s2 s3 -> same_counters s1 s3.
Proof.
  intros (H1 & H2 & H3) (H4 & H5 & H6). repeat split; congruence.
Qed.

Lemma process_stock_same_counters E stock use_bulk dcf_bulk profiles_bulk :
  respects same_counters
    (Fetch.process_stock E stock use_bulk dcf_bulk profiles_bulk
       Fetch.OVERVALUED_BUFFER).
Proof.
  apply respects_process_stock;
    first [ apply same_counters_refl | apply same_counters_trans
          | by intros; repeat split ].
Qed.

(** Whatever process_stock does -- return a detail, return nothing, or
    raise -- the loop of the pool counts the stock and goes on. *)
Lemma run_future_handles E stock use_bulk dcf_bulk profiles_bulk s :
  exists s',
    Fetch.run_future E stock use_bulk dcf_bulk profiles_bulk s = (Py.Ok tt, s')
    /\ handled s' = S (handled s).
Proof.
  unfold Fetch.run_future, Fetch.try_except, Fetch.bindM.
  pose proof (process_stock_same_counters E stock use_bulk dcf_bulk
                profiles_bulk s) as (Hp & Hk & _).
  destruct (Fetch.process_stock E stock use_bulk dcf_bulk profiles_bulk
              Fetch.OVERVALUED_BUFFER s) as [[[d |] | e] s1];
    simpl in Hp, Hk; unfold handled.
  - cbn -[Nat.modulo Nat.eqb].
    destruct (S (Fetch.processed_counter s1) mod 100 =? 0)%nat;
      cbn -[Nat.modulo Nat.eqb];
      eexists; (split; [reflexivity |]); simpl; lia.
  - simpl. eexists. split; [reflexivity |]. simpl. lia.
  - simpl. eexists. split; [reflexivity |]. simpl. lia.
Qed.

Lemma run_batch_handles E use_bulk dcf_bulk profiles_bulk batch :
  forall s, exists s',
    Fetch.run_batch E batch use_bulk dcf_bulk profiles_bulk s = (Py.Ok tt, s')
    /\ handled s' = (handled s + length batch)%nat.
Proof.
  induction batch as [| stock rest IH]; intros s; simpl.
  - exists s. split; [done | lia].
  - unfold Fetch.bindM.
    destruct (run_future_handles E stock use_bulk dcf_bulk profiles_bulk s)
      as (s1 & -> & H1).
    destruct (IH s1) as (s2 & -> & H2). exists s2. split; [done | lia].
Qed.

Lemma run_batches_handles E use_bulk dcf_bulk profiles_bulk all_stocks nums :
  forall s, exists s',
    Fetch.run_batches E nums all_stocks use_bulk dcf_bulk profiles_bulk s
      = (Py.Ok tt, s')
    /\ handled s' = (handled s + batch_sizes nums all_stocks)%nat.
Proof.
  induction nums as [| n rest IH]; intros s; simpl.
  - exists s. split; [done |]. unfold batch_sizes. simpl. lia.
  - unfold Fetch.bindM.
    destruct (run_batch_handles E use_bulk dcf_bulk profiles_bulk
                (take Fetch.BATCH_SIZE (drop (n * Fetch.BATCH_SIZE) all_stocks)) s)
      as (s1 & -> & H1).
    simpl.
    destruct (IH (Fetch.set_files
                    (Some (Fetch.stock_cache s1))
                    (Some (Fetch.undervalued_stocks_cache s1)) s1))
      as (s2 & Hrun & H2).
    exists s2. split; [exact Hrun |].
    rewrite H2. unfold batch_sizes, handled in *. simpl in *. lia.
Qed.

Lemma batch_sizes_seq (all_stocks : list Fetch.obj) k :
  batch_sizes (seq 0 k) all_stocks
  = Nat.min (k * Fetch.BATCH_SIZE) (length all_stocks).
Proof.
  unfold batch_sizes. induction k as [| k IH].
  - done.
  - rewrite seq_S, map_app, list_sum_app, IH. cbn [map Nat.add].
    unfold list_sum at 1. cbn [fold_right].
    rewrite length_take, length_drop.
    generalize Fetch.BATCH_SIZE. intros B. lia.
Qed.

Lemma batches_cover (all_stocks : list Fetch.obj) :
  batch_sizes
    (seq 0 ((length all_stocks + Fetch.BATCH_SIZE - 1) / Fetch.BATCH_SIZE))
    all_stocks
  = length all_stocks.
Proof.
  rewrite batch_sizes_seq.
  assert (HB : (0 < Fetch.BATCH_SIZE)%nat) by (unfold Fetch.BATCH_SIZE; lia).
  revert HB. generalize Fetch.BATCH_SIZE. intros B HB.
  pose proof (Nat.div_mod (length all_stocks + B - 1) B).
  pose proof (Nat.mod_upper_bound (length all_stocks + B - 1) B).
  nia.
Qed.

(** A 401 or 403 makes make_api_request give up on the request: it
    returns [None] without asking again, and touches only the trace of
    requests and the log. *)
Lemma make_api_request_auth_failure E ep s :
  is_auth_failure (Fetch.http E (length (Fetch.requests s)) ep) ->
  exists msgs,
    Fetch.make_api_request E ep s
    = (Py.Ok None,
       Fetch.set_log (Fetch.log s ++ msgs)
         (Fetch.set_requests
            (Fetch.requests s
             ++ [(ep, Fetch.http E (length (Fetch.requests s)) ep)]) s)) /\
    Forall (fun m => fst m = Fetch.ERROR) msgs /\
    (forall status_code b,
       Fetch.http E (length (Fetch.requests s)) ep
         = Fetch.Response status_code b ->
       Fetch.has_error_message b <> Py.Ok false -> msgs <> []).
Proof.
  intros (status_code & b & Hr & Hst). unfold Fetch.make_api_request.
  rewrite Hr.
  assert (Hauth : ((status_code =? 401)%Z || (status_code =? 403)%Z) = true).
  { destruct Hst as [-> | ->]; reflexivity. }
  rewrite Hauth.
  destruct (Fetch.has_error_message b) as [[|] | e] eqn:Hb.
  - exists [(Fetch.ERROR, "API Key Error");
            (Fetch.ERROR, "Please check your API key in .env file")].
    split; [| split].
    + cbn. by rewrite <- app_assoc.
    + by repeat constructor.
    + done.
  - exists []. split; [| split].
    + cbn. by rewrite app_nil_r.
    + constructor.
    + intros st b' [= _ <-]. by rewrite Hb.
  - exists [(Fetch.ERROR, "Authentication failed")]. split; [| split].
    + reflexivity.
    + by repeat constructor.
    + done.
Qed.

Lemma make_api_request_gives_up E ep s :
  is_auth_failure (Fetch.http E (length (Fetch.requests s)) ep) ->
  exists s',
    Fetch.make_api_request E ep s = (Py.Ok None, s') /\
    one_request_more s s'.
Proof.
  intros H. destruct (make_api_request_auth_failure E ep s H) as (msgs & -> & _).
  eexists. split; [reflexivity |]. split; simpl.
  - rewrite length_app. simpl. lia.
  - reflexivity.
Qed.

Lemma get_all_stocks_falls_back E s :
  is_auth_failure (Fetch.http E (length (Fetch.requests s)) Fetch.StockList) ->
  exists s',
    Fetch.get_all_stocks E s = (Py.Ok (Fetch.JArray fallback_stocks), s') /\
    one_request_more s s'.
Proof.
  intros H. unfold Fetch.get_all_stocks, Fetch.bindM.
  destruct (make_api_request_gives_up E _ s H) as (s1 & -> & Hlen & Hh).
  eexists. split; [reflexivity |]. by split.
Qed.

Lemma get_dcf_bulk_gives_up E s :
  is_auth_failure (Fetch.http E (length (Fetch.requests s)) Fetch.DcfBulk) ->
  exists s',
    Fetch.get_dcf_bulk E s = (Py.Ok None, s') /\ one_request_more s s'.
Proof.
  intros H. unfold Fetch.get_dcf_bulk, Fetch.bindM.
  destruct (make_api_request_gives_up E _ s H) as (s1 & -> & Hlen & Hh).
  eexists. split; [reflexivity |]. by split.
Qed.

Lemma get_profiles_bulk_gives_up E fuel s :
  is_auth_failure
    (Fetch.http E (length (Fetch.requests s)) (Fetch.ProfileBulk 0)) ->
  exists s',
    Fetch.get_profiles_bulk E (S fuel) s = (Py.Ok (Some None), s') /\
    one_request_more s s'.
Proof.
  intros H. unfold Fetch.get_profiles_bulk, Fetch.bindM. simpl.
  unfold Fetch.bindM.
  destruct (make_api_request_gives_up E _ s H) as (s1 & -> & Hlen & Hh).
  eexists. split; [reflexivity |]. by split.
Qed.

Lemma validate_api_key_passes E s :
  ~ is_auth_failure
      (Fetch.http E (length (Fetch.requests s)) (Fetch.ProfileOf "AAPL")) ->
  exists s',
    Fetch.validate_api_key E s = (Py.Ok true, s') /\ one_request_more s s'.
Proof.
  intros H. unfold Fetch.validate_api_key.
  destruct (Fetch.http E (length (Fetch.requests s)) (Fetch.ProfileOf "AAPL"))
    as [| | status_code b] eqn:Hr.
  - eexists. split; [reflexivity |]. split; simpl; [| done].
    rewrite length_app. simpl. lia.
  - eexists. split; [reflexivity |]. split; simpl; [| done].
    rewrite length_app. simpl. lia.
  - destruct (status_code =? 200)%Z eqn:H200.
    { eexists. split; [reflexivity |]. split; simpl; [| done].
      rewrite length_app. simpl. lia. }
    destruct ((status_code =? 401)%Z || (status_code =? 403)%Z) eqn:Hauth.
    { exfalso. apply H. exists status_code, b. split; [done |].
      apply orb_true_iff in Hauth as [?%Z.eqb_eq | ?%Z.eqb_eq]; auto. }
    eexists. split; [reflexivity |]. split; simpl; [| done].
    rewrite length_app. simpl. lia.
Qed.

Lemma validate_api_key_rejects E s :
  is_auth_failure
    (Fetch.http E (length (Fetch.requests s)) (Fetch.ProfileOf "AAPL")) ->
  Fetch.validate_api_key E s
  = (Py.Ok false,
     Fetch.set_log (Fetch.log s ++ [(Fetch.ERROR, "API key validation failed")])
       (Fetch.set_requests
          (Fetch.requests s
           ++ [(Fetch.ProfileOf "AAPL",
                Fetch.http E (length (Fetch.requests s))
                  (Fetch.ProfileOf "AAPL"))]) s)).
Proof.
  intros (status_code & b & Hr & Hst). unfold Fetch.validate_api_key.
  rewrite Hr. destruct Hst as [-> | ->]; reflexivity.
Qed.

Lemma find_undervalued_stocks_despite_auth_failures E fuel s :
  (forall n ep, (length (Fetch.requests s) <= n)%nat ->
                is_auth_failure (Fetch.http E n ep)) ->
  exists s',
    Fetch.find_undervalued_stocks E (S fuel) s = (Py.Ok (Some tt), s') /\
    handled s' = (handled s + 40)%nat.
Proof.
  intros Hauth. unfold Fetch.find_undervalued_stocks, Fetch.bindM.
  destruct (get_all_stocks_falls_back E s) as (s1 & -> & Hlen1 & Hh1);
    [by apply Hauth |].
  cbv beta iota.
  destruct (get_dcf_bulk_gives_up E s1) as (s2 & -> & Hlen2 & Hh2);
    [apply Hauth; lia |].
  cbv beta iota.
  destruct (get_profiles_bulk_gives_up E fuel s2) as (s3 & -> & Hlen3 & Hh3);
    [apply Hauth; lia |].
  cbv beta iota.
  destruct (run_batches_handles E false None None fallback_stocks
              (seq 0 ((length fallback_stocks + Fetch.BATCH_SIZE - 1)
                      / Fetch.BATCH_SIZE)) s3)
    as (s4 & -> & Hh4).
  cbv beta iota.
  eexists. split; [reflexivity |].
  rewrite batches_cover in Hh4.
  unfold handled in *. simpl. rewrite Hh4, Hh3, Hh2, Hh1. reflexivity.
Qed.

Lemma run_finishes_despite_auth_failures E key fuel s0 :
  key <> "" -> (10 <= String.length key)%nat ->
  ~ is_auth_failure
      (Fetch.http E (length (Fetch.requests s0)) (Fetch.ProfileOf "AAPL")) ->
  (forall n ep, (length (Fetch.requests s0) < n)%nat ->
                is_auth_failure (Fetch.http E n ep)) ->
  exists s,
    Fetch.main E (Some key) (S fuel) s0 = Fetch.Finished s /\
    handled s = (handled s0 + 40)%nat.
Proof.
  intros Hkey Hlen Hvalid Hauth. unfold Fetch.main.
  rewrite (proj2 (String.eqb_neq key "")) by done.
  rewrite (proj2 (Nat.ltb_ge (String.length key) 10)) by done.
  destruct (validate_api_key_passes E s0 Hvalid) as (s1 & -> & Hlen1 & Hh1).
  destruct (find_undervalued_stocks_despite_auth_failures E fuel s1)
    as (s2 & -> & Hh2).
  { intros n ep Hn. apply Hauth. lia. }
  exists s2. split; [done |]. lia.
Qed.

Lemma validation_failure_aborts E key fuel s0 :
  key <> "" -> (10 <= String.length key)%nat ->
  is_auth_failure
    (Fetch.http E (length (Fetch.requests s0)) (Fetch.ProfileOf "AAPL")) ->
  Fetch.main E (Some key) fuel s0
  = Fetch.ValidationFailed
      (Fetch.set_log
         (Fetch.log s0 ++ [(Fetch.ERROR, "API key validation failed")])
         (Fetch.set_requests
            (Fetch.requests s0
             ++ [(Fetch.ProfileOf "AAPL",
                  Fetch.http E (length (Fetch.requests s0))
                    (Fetch.ProfileOf "AAPL"))]) s0)).
Proof.
  intros Hkey Hlen Hauth. unfold Fetch.main.
  rewrite (proj2 (String.eqb_neq key "")) by done.
  rewrite (proj2 (Nat.ltb_ge (String.length key) 10)) by done.
  by rewrite validate_api_key_rejects.
Qed.

(** C5, amended.  A 401 or 403 in answer to the key check that opens the
    run is reported (an error is logged) and the run aborts there: no
    stock is fetched or counted.  A 401 or 403 in answer to any later
    request makes make_api_request give that request up -- it returns
    None and does not ask again, logging an error when the body is not
    JSON or carries an 'Error Message' -- and the run goes on: whatever
    the API answers while the stocks are processed, every stock of the
    list is counted, and a run in which every request after the key check
    is answered 401 or 403 still works through the 40 fallback symbols
    and finishes. *)
Theorem auth_failure_aborts_only_at_validation (E : Fetch.env) :
  (forall key fuel s0,
     key <> "" -> (10 <= String.length key)%nat ->
     is_auth_failure
       (Fetch.http E (length (Fetch.requests s0)) (Fetch.ProfileOf "AAPL")) ->
     exists s,
       Fetch.main E (Some key) fuel s0 = Fetch.ValidationFailed s /\
       (Fetch.ERROR, "API key validation failed") ∈ Fetch.log s /\
       handled s = handled s0 /\
       Fetch.stock_cache s = Fetch.stock_cache s0) /\
  (forall ep s,
     is_auth_failure (Fetch.http E (length (Fetch.requests s)) ep) ->
     exists msgs,
       Fetch.make_api_request E ep s
       = (Py.Ok None,
          Fetch.set_log (Fetch.log s ++ msgs)
            (Fetch.set_requests
               (Fetch.requests s
                ++ [(ep, Fetch.http E (length (Fetch.requests s)) ep)]) s)) /\
       Forall (fun m => fst m = Fetch.ERROR) msgs /\
       (forall status_code b,
          Fetch.http E (length (Fetch.requests s)) ep
            = Fetch.Response status_code b ->
          Fetch.has_error_message b <> Py.Ok false -> msgs <> [])) /\
  (forall use_bulk dcf_bulk profiles_bulk all_stocks s,
     exists s',
       Fetch.run_batches E
         (seq 0 ((length all_stocks + Fetch.BATCH_SIZE - 1) / Fetch.BATCH_SIZE))
         all_stocks use_bulk dcf_bulk profiles_bulk s = (Py.Ok tt, s') /\
       handled s' = (handled s + length all_stocks)%nat) /\
  (forall key fuel s0,
     key <> "" -> (10 <= String.length key)%nat ->
     ~ is_auth_failure
         (Fetch.http E (length (Fetch.requests s0)) (Fetch.ProfileOf "AAPL")) ->
     (forall n ep, (length (Fetch.requests s0) < n)%nat ->
                   is_auth_failure (Fetch.http E n ep)) ->
     exists s,
       Fetch.main E (Some key) (S fuel) s0 = Fetch.Finished s /\
       handled s = (handled s0 + 40)%nat).
Proof.
  split; [| split; [| split]].
  - intros key fuel s0 Hkey Hlen Hauth.
    rewrite (validation_failure_aborts E key fuel s0 Hkey Hlen Hauth).
    eexists. split; [reflexivity |]. simpl. repeat split.
    apply list_elem_of_In, in_or_app. right. by left.
  - apply make_api_request_auth_failure.
  - intros use_bulk dcf_bulk profiles_bulk all_stocks s.
    destruct (run_batches_handles E use_bulk dcf_bulk profiles_bulk all_stocks
                (seq 0 ((length all_stocks + Fetch.BATCH_SIZE - 1)
                        / Fetch.BATCH_SIZE)) s) as (s' & Hrun & Hh).
    exists s'. split; [exact Hrun |]. by rewrite Hh, batches_cover.
  - apply run_finishes_despite_auth_failures.
Qed.


Lemma auth_failure_aborts_only_at_validation_witness :
  exists s,
    Fetch.main api_403 (Some "0123456789abcdef") 5
      (Fetch.initial_state None None) = Fetch.Finished s /\
    handled s = (handled (Fetch.initial_state None None) + 40)%nat.
Proof.
  destruct (auth_failure_aborts_only_at_validation api_403)
    as (_ & _ & _ & Hrun).
  apply (Hrun "0123456789abcdef" 4%nat (Fetch.initial_state None None)).
  - discriminate.
  - vm_compute. lia.
  - intros (status_code & b & Hr & [-> | ->]); discriminate.
  - intros n ep Hn. destruct n as [| n]; [simpl in Hn; lia |].
    eexists 403%Z, _. split; [reflexivity | by right].
Defined.

(** ** What the partitioner gets right

    The groups themselves partition the table; the rows reach the files
    whenever no two sectors share a file name and sorting does not
    raise. *)

Lemma unique_from_spec (l : list Frame.cell) :
  forall seen,
    NoDup (Frame.select (map negb (Frame.duplicated_from seen l)) l) /\
    (forall x, x ∈ Frame.select (map negb (Frame.duplicated_from seen l)) l ->
               x ∉ seen) /\
    (forall x, x ∈ l ->
               x ∈ seen \/
               x ∈ Frame.select (map negb (Frame.duplicated_from seen l)) l).
Proof.
  induction l as [| k l IH]; intros seen; simpl.
  - split; [constructor |]. split; intros x Hx; by apply elem_of_nil in Hx.
  - destruct (IH (k :: seen)) as (Hnd & Hfresh & Hcov).
    case_bool_decide as Hk; simpl.
    + split; [exact Hnd |]. split.
      * intros x Hx. apply Hfresh in Hx. apply not_elem_of_cons in Hx. tauto.
      * intros x Hx. apply elem_of_cons in Hx as [-> | Hx]; [by left |].
        destruct (Hcov x Hx) as [Hs | Hu]; [| by right].
        apply elem_of_cons in Hs as [-> | Hs]; by left.
    + split; [| split].
      * apply NoDup_cons. split; [| exact Hnd].
        intros Hx. apply Hfresh in Hx. apply Hx, list_elem_of_here.
      * intros x Hx. apply elem_of_cons in Hx as [-> | Hx]; [done |].
        apply Hfresh in Hx. apply not_elem_of_cons in Hx. tauto.
      * intros x Hx.
        apply elem_of_cons in Hx as [-> | Hx];
          [right; apply list_elem_of_here |].
        destruct (Hcov x Hx) as [Hs | Hu].
        -- apply elem_of_cons in Hs as [-> | Hs];
             [right; apply list_elem_of_here | by left].
        -- right. by apply list_elem_of_further.
Qed.

Lemma unique_NoDup (l : list Frame.cell) : NoDup (Frame.unique l).
Proof. apply (unique_from_spec l []). Qed.

Lemma unique_covers (l : list Frame.cell) x : x ∈ l -> x ∈ Frame.unique l.
Proof.
  intros Hx. destruct (unique_from_spec l []) as (_ & _ & Hcov).
  destruct (Hcov x Hx) as [Hs | Hu]; [by apply elem_of_nil in Hs | done].
Qed.

Lemma groups_skip (key : Frame.row -> Frame.cell) r l (ks : list Frame.cell) :
  key r ∉ ks ->
  concat (map (fun k => List.filter (fun x => bool_decide (key x = k)) (r :: l)) ks)
  = concat (map (fun k => List.filter (fun x => bool_decide (key x = k)) l) ks).
Proof.
  induction ks as [| k ks IH]; intros Hr; [done |].
  apply not_elem_of_cons in Hr as [Hne Hr]. cbn [map concat].
  rewrite IH by done. f_equal. cbn [List.filter].
  by rewrite bool_decide_eq_false_2.
Qed.

Lemma groups_cons (key : Frame.row -> Frame.cell) r l (ks : list Frame.cell) :
  NoDup ks -> key r ∈ ks ->
  concat (map (fun k => List.filter (fun x => bool_decide (key x = k)) (r :: l)) ks)
  ≡ₚ r :: concat (map (fun k => List.filter (fun x => bool_decide (key x = k)) l) ks).
Proof.
  induction ks as [| k ks IH]; intros Hnd Hr.
  - by apply elem_of_nil in Hr.
  - pose proof (NoDup_cons_1_1 _ _ Hnd) as Hk.
    apply NoDup_cons_1_2 in Hnd. cbn [map concat].
    destruct (decide (key r = k)) as [Heq | Hne].
    + subst k. rewrite groups_skip by done. cbn [List.filter].
      by rewrite bool_decide_eq_true_2.
    + apply elem_of_cons in Hr as [Hr | Hr]; [done |].
      rewrite (IH Hnd Hr). cbn [List.filter].
      rewrite bool_decide_eq_false_2 by done.
      by rewrite Permutation_middle.
Qed.

Lemma groups_partition (key : Frame.row -> Frame.cell) (l : list Frame.row) :
  forall ks : list Frame.cell,
    NoDup ks -> (forall r, r ∈ l -> key r ∈ ks) ->
    concat (map (fun k => List.filter (fun x => bool_decide (key x = k)) l) ks)
    ≡ₚ l.
Proof.
  induction l as [| r l IH]; intros ks Hnd Hcov.
  - clear. induction ks as [| k ks IH]; [done | by simpl].
  - rewrite groups_cons; [| done | apply Hcov, list_elem_of_here].
    constructor. apply IH; [done |].
    intros r' Hr'. by apply Hcov, list_elem_of_further.
Qed.

(** The groups taken for the distinct sectors hold every row of the
    table once. *)
Lemma sector_groups_partition (df : Frame.DataFrame) :
  concat (map (fun sector => Frame.rows (SectorOrganizer.sector_rows sector df))
            (Frame.unique (Frame.column "Sector" df)))
  ≡ₚ Frame.rows df.
Proof.
  apply (groups_partition (fun r => Frame.loc r "Sector")).
  - apply unique_NoDup.
  - intros r Hr. apply unique_covers. unfold Frame.column.
    apply list_elem_of_In. apply (in_map (fun r => Frame.loc r "Sector")).
    by apply list_elem_of_In.
Qed.

Lemma sector_frame_rows sector df t :
  SectorOrganizer.sector_frame sector df = Py.Ok t ->
  Frame.rows t ≡ₚ Frame.rows (SectorOrganizer.sector_rows sector df).
Proof.
  unfold SectorOrganizer.sector_frame, Frame.sort_values_desc.
  destruct (Frame.has_column _ _).
  - destruct (Frame.comparable _); [| done]. intros [= <-]. simpl.
    apply merge_sort_Permutation.
  - by intros [= <-].
Qed.




(** * Beyond the promises of the specification *)

(** ** The in-place deduplication *)

(** X1.  On a table with a Symbol column remove_duplicates_in_place
    returns the table that [drop_duplicates] on Symbol leaves, writes
    that table over the input file and reports no error.  It is the
    table remove_duplicates returns whenever that one returns a table.
    Run on its own output, the in-place version returns and writes the
    same table once more, whereas remove_duplicates writes no file for
    a table that is already free of duplicates. *)
Theorem in_place_writes_deduplicated_table (T : Frame.DataFrame) :
  Frame.has_column "Symbol" T = true ->
  let D := Frame.drop_duplicates "Symbol" T in
  RemoveDuplicates.remove_duplicates_in_place (Frame.Sheet T)
  = {| RemoveDuplicates.returned := Some D;
       RemoveDuplicates.written := Some D;
       RemoveDuplicates.messages := [] |} /\
  (forall T',
     RemoveDuplicates.returned
       (RemoveDuplicates.remove_duplicates (Frame.Sheet T)) = Some T' ->
     T' = D) /\
  RemoveDuplicates.remove_duplicates_in_place (Frame.Sheet D)
  = RemoveDuplicates.remove_duplicates_in_place (Frame.Sheet T) /\
  RemoveDuplicates.written
    (RemoveDuplicates.remove_duplicates (Frame.Sheet D)) = None.
Proof.
  intros Hcol D. subst D.
  assert (HD : Frame.drop_duplicates "Symbol"
                 (Frame.drop_duplicates "Symbol" T)
               = Frame.drop_duplicates "Symbol" T).
  { apply drop_duplicates_none, duplicate_count_drop_duplicates. }
  unfold RemoveDuplicates.remove_duplicates_in_place,
    RemoveDuplicates.remove_duplicates.
  rewrite !has_column_drop_duplicates, Hcol, HD,
    duplicate_count_drop_duplicates.
  simpl. repeat split.
  intros T'.
  destruct (RemoveDuplicates.duplicate_count T =? 0)%nat eqn:Hc.
  - apply Nat.eqb_eq in Hc. simpl. intros [= <-].
    by rewrite drop_duplicates_none.
  - destruct (Frame.comparable _); simpl; [by intros [= <-] | done].
Qed.

Lemma in_place_writes_deduplicated_table_witness :
  Frame.has_column "Symbol" dup_table = true /\
  RemoveDuplicates.remove_duplicates_in_place (Frame.Sheet dup_table)
  = {| RemoveDuplicates.returned :=
         Some (Frame.drop_duplicates "Symbol" dup_table);
       RemoveDuplicates.written :=
         Some (Frame.drop_duplicates "Symbol" dup_table);
       RemoveDuplicates.messages := [] |}.
Proof.
  split; [reflexivity |].
  destruct (in_place_writes_deduplicated_table dup_table) as [H _];
    [reflexivity | exact H].
Defined.

(** ** The two versions of the currency filter *)

Lemma finish_returned df_filtered t :
  RemoveDuplicates.returned (FilterUsd.finish df_filtered) = Some t ->
  FilterUsd.sort_step (Frame.drop_duplicates "Symbol" df_filtered) = Py.Ok t.
Proof.
  unfold FilterUsd.finish, FilterUsd.dedup_step.
  destruct (RemoveDuplicates.duplicate_count df_filtered =? 0)%nat eqn:Hc.
  - apply Nat.eqb_eq in Hc. rewrite drop_duplicates_none by exact Hc.
    simpl. destruct (FilterUsd.sort_step df_filtered) as [d |]; [| done].
    destruct (FilterUsd.statistics d); simpl; [by intros [= <-] | done].
  - destruct (Frame.comparable _); [| done]. simpl.
    destruct (FilterUsd.sort_step _) as [d |]; [| done].
    destruct (FilterUsd.statistics d); simpl; [by intros [= <-] | done].
Qed.

(** X2.  Whenever filter_usd_stocks returns a table,
    filter_usd_stocks_parallel returns the same table for the same
    input file, writes it, and reports no error. *)
Theorem parallel_filter_agrees (input : Frame.file) (t : Frame.DataFrame) :
  RemoveDuplicates.returned (FilterUsd.filter_usd_stocks input) = Some t ->
  FilterUsd.filter_usd_stocks_parallel input
  = {| RemoveDuplicates.returned := Some t;
       RemoveDuplicates.written := Some t;
       RemoveDuplicates.messages := [] |}.
Proof.
  unfold FilterUsd.filter_usd_stocks, FilterUsd.filter_usd_stocks_parallel.
  destruct input as [| | df]; try done.
  destruct (Frame.has_column "Currency" df); [| done].
  destruct (Frame.has_column "Symbol" df); [| done]. simpl.
  destruct (FilterUsd.usd_filter df) as [df_usd |]; [| done].
  destruct (length (Frame.rows df_usd) =? 0)%nat; [done |].
  destruct (Frame.has_column "Country" df_usd).
  - destruct (FilterUsd.us_filter df df_usd) as [df_usd_us |]; [| done].
    destruct (length (Frame.rows df_usd_us) =? 0)%nat; [done |].
    intros H. by rewrite (finish_returned _ _ H).
  - intros H. by rewrite (finish_returned _ _ H).
Qed.

Lemma parallel_filter_agrees_witness :
  RemoveDuplicates.returned
    (FilterUsd.filter_usd_stocks (Frame.Sheet usd_table)) = Some usd_table_out /\
  FilterUsd.filter_usd_stocks_parallel (Frame.Sheet usd_table)
  = {| RemoveDuplicates.returned := Some usd_table_out;
       RemoveDuplicates.written := Some usd_table_out;
       RemoveDuplicates.messages := [] |}.
Proof.
  split; [vm_compute; reflexivity |].
  apply (parallel_filter_agrees (Frame.Sheet usd_table) usd_table_out).
  vm_compute. reflexivity.
Defined.

Lemma filter_filter_and {A} (p q : A -> bool) (l : list A) :
  List.filter q (List.filter p l) = List.filter (fun x => p x && q x) l.
Proof.
  induction l as [| x l IH]; [done |]. simpl.
  destruct (p x); simpl; [destruct (q x) |]; by rewrite IH.
Qed.

Lemma sorts_before_total c : Total (Frame.sorts_before c).
Proof.
  intros r1 r2. unfold Frame.sorts_before.
  destruct (Frame.loc r1 c) as [| a | a], (Frame.loc r2 c) as [| b | b];
    try tauto.
  - destruct (String.leb_total a b); tauto.
  - destruct (Qc_le_total a b); tauto.
Qed.

Lemma sort_step_spec d t :
  FilterUsd.sort_step d = Py.Ok t ->
  Frame.columns t = Frame.columns d /\ Frame.rows t ≡ₚ Frame.rows d /\
  (Frame.has_column "Discount %" d = true ->
   Sorted (Frame.sorts_before "Discount %") (Frame.rows t)).
Proof.
  unfold FilterUsd.sort_step, Frame.sort_values_desc.
  destruct (Frame.has_column "Discount %" d).
  - destruct (Frame.comparable _); [| done]. intros [= <-]. simpl.
    split; [done |]. split; [apply merge_sort_Permutation |].
    intros _. apply (@Sorted_merge_sort _ _ _ (sorts_before_total _)).
  - intros [= <-]. by repeat split.
Qed.

(** X3.  A table returned by filter_usd_stocks for the sheet [df] has the
    columns of [df]; its rows are, up to their order, the rows that
    [drop_duplicates] on Symbol keeps of the rows of [df] whose Currency
    reads USD and, when [df] has a Country column, whose Country reads
    US.  So every row is a row of [df] that passes the filters, no
    Symbol occurs twice, the table is not empty, and when [df] has a
    'Discount %' column every row sorts before the row after it in the
    descending order of that column. *)
Theorem usd_filter_output (df t : Frame.DataFrame) :
  RemoveDuplicates.returned
    (FilterUsd.filter_usd_stocks (Frame.Sheet df)) = Some t ->
  Frame.columns t = Frame.columns df /\
  Frame.rows t
  ≡ₚ Frame.rows
       (Frame.drop_duplicates "Symbol"
          (Frame.where_
             (fun r => FilterUsd.is_usd (Frame.loc r "Currency")
                       && (negb (Frame.has_column "Country" df)
                           || FilterUsd.is_us (Frame.loc r "Country")))
             df)) /\
  (forall r, r ∈ Frame.rows t ->
     r ∈ Frame.rows df /\
     FilterUsd.is_usd (Frame.loc r "Currency") = true /\
     (Frame.has_column "Country" df = true ->
      FilterUsd.is_us (Frame.loc r "Country") = true)) /\
  NoDup (Frame.column "Symbol" t) /\
  Frame.rows t <> [] /\
  (Frame.has_column "Discount %" df = true ->
   Sorted (Frame.sorts_before "Discount %") (Frame.rows t)).
Proof.
  intros Hret.
  set (p := fun r => FilterUsd.is_usd (Frame.loc r "Currency")
                     && (negb (Frame.has_column "Country" df)
                         || FilterUsd.is_us (Frame.loc r "Country"))).
  assert (H : exists df_filtered,
             Frame.columns df_filtered = Frame.columns df /\
             Frame.rows df_filtered = List.filter p (Frame.rows df) /\
             Frame.rows df_filtered <> [] /\
             FilterUsd.sort_step (Frame.drop_duplicates "Symbol" df_filtered)
             = Py.Ok t).
  { revert Hret. unfold FilterUsd.filter_usd_stocks.
    destruct (Frame.has_column "Currency" df); [| done].
    destruct (Frame.has_column "Symbol" df); [| done]. simpl.
    unfold FilterUsd.usd_filter.
    destruct (Frame.str_accessor _ _); [| done]. simpl.
    destruct (length _ =? 0)%nat eqn:Hlen; [done |].
    apply Nat.eqb_neq in Hlen.
    unfold Frame.has_column at 1. simpl. fold (Frame.has_column "Country" df).
    destruct (Frame.has_column "Country" df) eqn:Hc.
    - unfold FilterUsd.us_filter.
      destruct (Frame.str_accessor _ _); [| done]. simpl.
      destruct (length _ =? 0)%nat eqn:Hlen2; [done |].
      apply Nat.eqb_neq in Hlen2. intros Hf.
      eexists. split; [| split; [| split; [| exact (finish_returned _ _ Hf)]]].
      + done.
      + simpl. rewrite filter_filter_and. unfold p. simpl. done.
      + intros Heq. apply Hlen2. simpl in *. by rewrite Heq.
    - intros Hf.
      eexists. split; [| split; [| split; [| exact (finish_returned _ _ Hf)]]].
      + done.
      + simpl. unfold p. simpl. apply filter_ext. intros r.
        by rewrite andb_true_r.
      + intros Heq. apply Hlen. simpl in *. by rewrite Heq. }
  destruct H as (df_filtered & Hcols & Hrows & Hne & Hsort).
  apply sort_step_spec in Hsort as (Hc & Hp & Hs).
  assert (Hkept : Frame.rows (Frame.drop_duplicates "Symbol" df_filtered)
                  = kept "Symbol" [] (List.filter p (Frame.rows df))).
  { by rewrite drop_duplicates_rows, Hrows. }
  repeat split.
  - by rewrite Hc.
  - rewrite Hp, Hkept. done.
  - rewrite Hp, Hkept in H.
    apply (fun H => elem_of_sublist _ _ _ H (kept_sublist _ _ _)) in H.
    apply list_elem_of_In, filter_In in H as [H _]. by apply list_elem_of_In.
  - rewrite Hp, Hkept in H.
    apply (fun H => elem_of_sublist _ _ _ H (kept_sublist _ _ _)) in H.
    apply list_elem_of_In, filter_In in H as [_ H].
    unfold p in H. by apply andb_true_iff in H as [H _].
  - intros Hcountry. rewrite Hp, Hkept in H.
    apply (fun H => elem_of_sublist _ _ _ H (kept_sublist _ _ _)) in H.
    apply list_elem_of_In, filter_In in H as [_ H].
    unfold p in H. apply andb_true_iff in H as [_ H].
    by rewrite Hcountry in H.
  - unfold Frame.column. rewrite Hp, Hkept. apply kept_NoDup.
  - intros Ht. apply Hne.
    rewrite Ht in Hp. symmetry in Hp. apply Permutation_nil_r in Hp.
    rewrite drop_duplicates_rows in Hp.
    destruct (Frame.rows df_filtered) as [| r rs]; [done |].
    rewrite kept_cons in Hp. by rewrite bool_decide_eq_false_2 in Hp
      by apply not_elem_of_nil.
  - intros Hd. apply Hs. unfold Frame.has_column in *. simpl.
    by rewrite Hcols.
Qed.

Lemma usd_filter_output_witness :
  RemoveDuplicates.returned
    (FilterUsd.filter_usd_stocks (Frame.Sheet usd_table)) = Some usd_table_out /\
  NoDup (Frame.column "Symbol" usd_table_out) /\
  Sorted (Frame.sorts_before "Discount %") (Frame.rows usd_table_out).
Proof.
  split; [vm_compute; reflexivity |].
  destruct (usd_filter_output usd_table usd_table_out)
    as (_ & _ & _ & Hnd & _ & Hs); [vm_compute; reflexivity |].
  split; [exact Hnd | apply Hs; reflexivity].
Defined.

(** ** The exchange filter *)

Lemma find_exchange_column_in df col :
  fst (FilterExchange.find_exchange_column df) = Some col ->
  col ∈ Frame.columns df /\
  Str.contains "exchange" (Str.lower col) = true.
Proof.
  unfold FilterExchange.find_exchange_column.
  destruct (List.find _ FilterExchange.possible_names) as [name |] eqn:Hf;
    simpl.
  - intros [= <-]. apply find_some in Hf as [Hin Hcol].
    split; [by apply bool_decide_eq_true_1 in Hcol |].
    unfold FilterExchange.possible_names in Hin. simpl in Hin.
    repeat (destruct Hin as [<- | Hin]; [by vm_compute |]). done.
  - intros Hf2. apply find_some in Hf2 as [Hin Hc].
    split; [by apply list_elem_of_In | done].
Qed.

Lemma filter_stocks_by_exchange_spec (input : Frame.file) :
  let r := FilterExchange.filter_stocks_by_exchange input in
  let total := fst (fst (FilterExchange.counts r)) in
  let filtered := snd (fst (FilterExchange.counts r)) in
  let removed := snd (FilterExchange.counts r) in
  total = (filtered + removed)%nat /\
  match FilterExchange.output r with
  | Some d =>
      exists df col,
        input = Frame.Sheet df /\
        total = length (Frame.rows df) /\
        col ∈ Frame.columns df /\
        Str.contains "exchange" (Str.lower col) = true /\
        d = Frame.where_
              (fun row => FilterExchange.is_listed (Frame.loc row col)) df /\
        filtered = length (Frame.rows d) /\
        (0 < filtered)%nat
  | None => filtered = 0%nat
  end.
Proof.
  unfold FilterExchange.filter_stocks_by_exchange.
  destruct input as [| | df]; simpl; try done.
  destruct (length (Frame.rows df) =? 0)%nat eqn:Hlen; simpl; [done |].
  destruct (fst (FilterExchange.find_exchange_column df)) as [col |] eqn:Hcol;
    simpl.
  - pose proof (filter_length_le
                  (fun row => FilterExchange.is_listed (Frame.loc row col))
                  (Frame.rows df)) as Hle.
    match goal with
    | |- context [(0 <? ?n)%nat] => destruct (0 <? n)%nat eqn:Hpos
    end; simpl.
    + split; [lia |]. apply Nat.ltb_lt in Hpos.
      apply find_exchange_column_in in Hcol as [Hin Hname].
      by exists df, col.
    + split; [lia |]. apply Nat.ltb_ge in Hpos. lia.
  - split; [lia | done].
Qed.

(** X4.  filter_stocks_by_exchange splits its total count into the
    filtered and the removed count.  When it writes an output table the
    input was a sheet, the total is its number of rows, the table is the
    rows of the sheet whose value in the exchange column names NYSE or
    NASDAQ, the exchange column is a column of the sheet with 'exchange'
    in its lower-cased name, and the filtered count is the number of
    rows written and is not 0.  When it writes nothing the filtered
    count is 0. *)
Theorem exchange_filter_counts (input : Frame.file) :
  let r := FilterExchange.filter_stocks_by_exchange input in
  let total := fst (fst (FilterExchange.counts r)) in
  let filtered := snd (fst (FilterExchange.counts r)) in
  let removed := snd (FilterExchange.counts r) in
  total = (filtered + removed)%nat /\
  match FilterExchange.output r with
  | Some d =>
      exists df col,
        input = Frame.Sheet df /\
        total = length (Frame.rows df) /\
        col ∈ Frame.columns df /\
        Str.contains "exchange" (Str.lower col) = true /\
        d = Frame.where_
              (fun row => FilterExchange.is_listed (Frame.loc row col)) df /\
        filtered = length (Frame.rows d) /\
        (0 < filtered)%nat
  | None => filtered = 0%nat
  end.
Proof. exact (filter_stocks_by_exchange_spec input). Qed.



(** ** The names of the sector files *)

Lemma filter_chars_Forall keep s :
  Forall (fun c => keep c = true)
    (list_ascii_of_string (Str.filter_chars keep s)).
Proof.
  induction s as [| c s IH]; simpl; [constructor |].
  destruct (keep c) eqn:Hc; [| done]. simpl. by constructor.
Qed.

Lemma lstrip_Forall (P : ascii -> Prop) s :
  Forall P (list_ascii_of_string s) ->
  Forall P (list_ascii_of_string (Str.lstrip s)).
Proof.
  induction s as [| c s IH]; simpl; [done |].
  intros H. destruct (Str.isspace c); [| done].
  apply IH. by apply Forall_inv_tail in H.
Qed.

Lemma rstrip_Forall (P : ascii -> Prop) s :
  Forall P (list_ascii_of_string s) ->
  Forall P (list_ascii_of_string (Str.rstrip s)).
Proof.
  induction s as [| c s IH]; simpl; [done |].
  intros H. pose proof (Forall_inv H) as Hc.
  apply Forall_inv_tail, IH in H.
  destruct (Str.rstrip s) as [| c' r].
  - destruct (Str.isspace c); simpl; [constructor | by constructor].
  - simpl. by constructor.
Qed.

Lemma map_chars_Forall (P Q : ascii -> Prop) f s :
  (forall c, P c -> Q (f c)) ->
  Forall P (list_ascii_of_string s) ->
  Forall Q (list_ascii_of_string (Str.map_chars f s)).
Proof.
  intros Hf. induction s as [| c s IH]; simpl; [done |].
  intros H. constructor.
  - apply Hf. by apply Forall_inv in H.
  - apply IH. by apply Forall_inv_tail in H.
Qed.

(** X6.  The file name made from a sector is never empty and consists of
    letters, digits, '-' and '_' only. *)
Theorem safe_sector_name_is_safe (str_of_float : Qc -> string)
    (sector : Frame.cell) :
  SectorOrganizer.safe_sector_name str_of_float sector <> "" /\
  Forall (fun c => safe_char c = true)
    (list_ascii_of_string
       (SectorOrganizer.safe_sector_name str_of_float sector)).
Proof.
  unfold SectorOrganizer.safe_sector_name.
  destruct (String.eqb _ "") eqn:Hempty.
  - split; [done |]. by vm_compute; repeat constructor.
  - split; [by apply String.eqb_neq in Hempty |].
    unfold Str.replace_char, Str.strip.
    eapply map_chars_Forall;
      [| apply rstrip_Forall, lstrip_Forall, filter_chars_Forall].
    intros c Hc. simpl in Hc. unfold safe_char.
    destruct (Ascii.eqb c " ") eqn:Hsp; [done |].
    by rewrite orb_false_r in Hc.
Qed.

(** ** What a sector file holds *)

Lemma select_elem {A} (mask : list bool) (l : list A) x :
  x ∈ Frame.select mask l -> x ∈ l.
Proof.
  revert l. induction mask as [| b mask IH]; intros [| y l] Hx;
    simpl in Hx; try by apply elem_of_nil in Hx.
  destruct b.
  - apply elem_of_cons in Hx as [-> | Hx];
      [apply list_elem_of_here | by apply list_elem_of_further, IH].
  - by apply list_elem_of_further, IH.
Qed.

Lemma write_sectors_groups str_of_float (all_sectors : list Frame.cell) df
    sectors :
  forall folder,
    (forall f t, folder !! f = Some t ->
       exists sector,
         sector ∈ all_sectors /\
         SectorOrganizer.safe_sector_name str_of_float sector = f /\
         SectorOrganizer.sector_frame sector df = Py.Ok t) ->
    (forall s, s ∈ sectors -> s ∈ all_sectors) ->
    forall f t,
      fst (SectorOrganizer.write_sectors str_of_float sectors df folder) !! f
      = Some t ->
      exists sector,
        sector ∈ all_sectors /\
        SectorOrganizer.safe_sector_name str_of_float sector = f /\
        SectorOrganizer.sector_frame sector df = Py.Ok t.
Proof.
  induction sectors as [| s rest IH]; intros folder Hfolder Hall f t; simpl.
  - apply Hfolder.
  - destruct (SectorOrganizer.sector_frame s df) as [sdf |] eqn:Hs; simpl;
      [| apply Hfolder].
    apply IH.
    + intros f' t' Hf'.
      destruct (decide (SectorOrganizer.safe_sector_name str_of_float s = f'))
        as [Heq | Hne].
      * rewrite <- Heq, lookup_insert_eq in Hf'. injection Hf' as <-.
        exists s. split; [apply Hall, list_elem_of_here | done].
      * rewrite lookup_insert_ne in Hf' by done. by apply Hfolder.
    + intros s' Hs'. by apply Hall, list_elem_of_further.
Qed.

(** X7.  Every file that the organizer writes is named after a sector that
    occurs in the Sector column of the table; it has the columns of the
    table, it is not empty, and its rows are, up to their order, the
    rows of that sector. *)
Theorem sector_file_holds_one_group (str_of_float : Qc -> string)
    (df : Frame.DataFrame) (f : string) (t : Frame.DataFrame) :
  fst (SectorOrganizer.organize str_of_float df) !! f = Some t ->
  exists sector,
    sector ∈ Frame.column "Sector" (SectorOrganizer.with_sector df) /\
    SectorOrganizer.safe_sector_name str_of_float sector = f /\
    Frame.columns t = Frame.columns (SectorOrganizer.with_sector df) /\
    Frame.rows t
    ≡ₚ Frame.rows
         (SectorOrganizer.sector_rows sector (SectorOrganizer.with_sector df)) /\
    Frame.rows t <> [].
Proof.
  unfold SectorOrganizer.organize.
  destruct (Frame.comparable _); [| simpl; by rewrite lookup_empty].
  intros H.
  eapply (write_sectors_groups _
            (Frame.unique
               (Frame.column "Sector" (SectorOrganizer.with_sector df))))
    in H as (sector & Hin & Hname & Hframe).
  - apply select_elem in Hin.
    exists sector. split; [done |]. split; [done |].
    pose proof (sector_frame_rows _ _ _ Hframe) as Hrows.
    split; [| split; [done |]].
    + revert Hframe. unfold SectorOrganizer.sector_frame, Frame.sort_values_desc.
      destruct (Frame.has_column _ _); [| by intros [= <-]].
      destruct (Frame.comparable _); [by intros [= <-] | done].
    + intros Hnil. rewrite Hnil in Hrows. symmetry in Hrows.
      apply Permutation_nil_r in Hrows.
      unfold Frame.column in Hin.
      apply list_elem_of_In, in_map_iff in Hin as (r & Hr & Hin).
      assert (Hr' : In r (Frame.rows (SectorOrganizer.sector_rows sector
                                        (SectorOrganizer.with_sector df)))).
      { apply filter_In. split; [done |]. by apply bool_decide_eq_true_2. }
      by rewrite Hrows in Hr'.
  - intros f0 t0 H0. by rewrite lookup_empty in H0.
  - intros s Hs.
    by rewrite (@merge_sort_Permutation _ SectorOrganizer.cell_le
                  SectorOrganizer.cell_le_dec) in Hs.
Qed.

Lemma sector_file_holds_one_group_witness :
  exists sector,
    sector ∈ Frame.column "Sector"
               (SectorOrganizer.with_sector two_sector_table) /\
    SectorOrganizer.safe_sector_name (fun _ => "") sector = "Technology" /\
    Frame.columns two_sector_table
    = Frame.columns (SectorOrganizer.with_sector two_sector_table) /\
    [row_TINY]
    ≡ₚ Frame.rows
         (SectorOrganizer.sector_rows sector
            (SectorOrganizer.with_sector two_sector_table)) /\
    [row_TINY] <> [].
Proof.
  apply (sector_file_holds_one_group (fun _ => "") two_sector_table
           "Technology"
           {| Frame.columns := ["Symbol"; "Sector"; "Discount %"];
              Frame.rows := [row_TINY] |}).
  vm_compute. reflexivity.
Defined.


(** ** The market cap of one stock *)

Lemma market_cap_request http ep (s : MarketCap.state) :
  exists response s',
    MarketCap.make_api_request http ep s = (Py.Ok response, s') /\
    MarketCap.requests s'
    = (MarketCap.requests s
       ++ [(ep, http (length (MarketCap.requests s)) ep)])%list.
Proof.
  unfold MarketCap.make_api_request.
  destruct (http _ ep) as [| | status_code b]; simpl; eauto.
  destruct (status_code =? 200)%Z; simpl; eauto.
  destruct (status_code =? 429)%Z; simpl; eauto.
  destruct (_ || _); simpl; eauto.
Qed.

Lemma positive_spec v :
  (forall m, MarketCap.positive v = Py.Ok (Some m) -> (0 < m)%Q) /\
  (forall e, MarketCap.positive v = Py.Raise e -> Fetch.parse_errors e = true).
Proof.
  destruct v as [| q | x]; simpl.
  - split; intros; discriminate.
  - split; [| intros; discriminate].
    intros m. destruct (Py.Qltb 0 q) eqn:Hq; [| discriminate].
    intros [= <-]. by apply Qltb_lt.
  - destruct (String.eqb x ""); split; intros; try discriminate.
    by simplify_eq.
Qed.

Lemma price_times_shares_spec p n :
  (forall m, MarketCap.price_times_shares p n = Py.Ok (Some m) -> (0 < m)%Q) /\
  (forall e, MarketCap.price_times_shares p n = Py.Raise e ->
             Fetch.parse_errors e = true).
Proof.
  unfold MarketCap.price_times_shares.
  destruct (_ && _); [| split; intros; discriminate].
  destruct p as [| p | p], n as [| n | n]; split; intros; try discriminate;
    try by simplify_eq.
  destruct (Py.Qltb 0 (p * n)) eqn:Hq; [| discriminate].
  simplify_eq. by apply Qltb_lt.
Qed.

Lemma parse_block_spec (read : Fetch.obj -> Py.result (option Q))
    (response : option Fetch.body) (s : MarketCap.state) :
  (forall item m, read item = Py.Ok (Some m) -> (0 < m)%Q) ->
  (forall item e, read item = Py.Raise e -> Fetch.parse_errors e = true) ->
  exists found,
    match response with
    | Some b =>
        Run.try_except
          (Run.bind (Run.lift (MarketCap.latest b))
             (fun item =>
                match item with
                | Some item => Run.lift (read item)
                | None => Run.ret None
                end))
          Fetch.parse_errors (Run.ret None)
    | None => Run.ret None
    end s = (found, s) /\
    (found = Py.Ok None \/ found_ok found).
Proof.
  intros Hpos Hraise. unfold found_ok.
  destruct response as [b |]; [| exists (Py.Ok None); by auto].
  unfold Run.try_except, Run.bind, Run.lift, Run.ret,
    MarketCap.latest, Fetch.first_item.
  destruct b as [| o | [| item l]]; simpl; [by eauto | | by eauto |].
  - case_bool_decide; simpl; eauto.
  - destruct (read item) as [[m |] | e] eqn:Hr; simpl; [| by eauto |].
    + eexists. split; [done |]. right. left. exists m.
      split; [done |]. by eapply Hpos.
    + rewrite (Hraise _ _ Hr). simpl. eauto.
Qed.

Lemma get_market_cap_spec http symbol (s : MarketCap.state) :
  let r := MarketCap.get_market_cap http symbol s in
  exists made,
    MarketCap.requests (snd r) = (MarketCap.requests s ++ made)%list /\
    ((map fst made = [MarketCap.KeyMetrics symbol] /\ found_ok (fst r)) \/
     (map fst made = [MarketCap.KeyMetrics symbol; MarketCap.Profile symbol]
      /\ found_ok (fst r)) \/
     (map fst made = [MarketCap.KeyMetrics symbol; MarketCap.Profile symbol;
                      MarketCap.Quote symbol]
      /\ (fst r = Py.Ok None \/ found_ok (fst r)))).
Proof.
  cbv zeta.
  destruct (MarketCap.get_market_cap http symbol s) as [res s'] eqn:Heq.
  simpl. unfold MarketCap.get_market_cap in Heq.
  (* key metrics *)
  unfold Run.bind at 1 in Heq.
  destruct (market_cap_request http (MarketCap.KeyMetrics symbol) s)
    as (response1 & s1 & Hr1 & Hs1).
  rewrite Hr1 in Heq. clear Hr1.
  unfold Run.bind at 1 in Heq.
  destruct (parse_block_spec
              (fun item => MarketCap.positive
                             (Fetch.get item "marketCap" Fetch.SNull))
              response1 s1) as (found1 & Hb1 & Hfound1);
    [intros item; apply positive_spec | intros item; apply positive_spec |].
  rewrite Hb1 in Heq. clear Hb1.
  destruct Hfound1 as [-> | Hfound1].
  2: { eexists.
       destruct Hfound1 as [(m & -> & Hm) | ->]; simpl in Heq;
         injection Heq as <- <-;
         (split; [exact Hs1 | left; split; [done | unfold found_ok; eauto]]). }
  (* profile *)
  unfold Run.bind at 1 in Heq.
  destruct (market_cap_request http (MarketCap.Profile symbol) s1)
    as (response2 & s2 & Hr2 & Hs2).
  rewrite Hr2 in Heq. clear Hr2.
  unfold Run.bind at 1 in Heq.
  destruct (parse_block_spec
              (fun item => MarketCap.positive
                             (Fetch.get item "mktCap" Fetch.SNull))
              response2 s2) as (found2 & Hb2 & Hfound2);
    [intros item; apply positive_spec | intros item; apply positive_spec |].
  rewrite Hb2 in Heq. clear Hb2.
  rewrite Hs1, <- app_assoc in Hs2. simpl in Hs2.
  destruct Hfound2 as [-> | Hfound2].
  2: { eexists.
       destruct Hfound2 as [(m & -> & Hm) | ->]; simpl in Heq;
         injection Heq as <- <-;
         (split; [exact Hs2
                 | right; left; split; [done | unfold found_ok; eauto]]). }
  (* quote *)
  unfold Run.bind at 1 in Heq.
  destruct (market_cap_request http (MarketCap.Quote symbol) s2)
    as (response3 & s3 & Hr3 & Hs3).
  rewrite Hr3 in Heq. clear Hr3.
  destruct (parse_block_spec
              (fun item => MarketCap.price_times_shares
                             (Fetch.get item "price" Fetch.SNull)
                             (Fetch.get item "sharesOutstanding" Fetch.SNull))
              response3 s3) as (found3 & Hb3 & Hfound3);
    [intros item; apply price_times_shares_spec
    | intros item; apply price_times_shares_spec |].
  rewrite Hb3 in Heq. injection Heq as <- <-.
  rewrite Hs2, <- app_assoc in Hs3. simpl in Hs3.
  eexists. split; [exact Hs3 |].
  right. right. split; [done |]. exact Hfound3.
Qed.

(** X9.  A market cap returned by get_market_cap is a positive number. *)
Theorem market_cap_is_positive
    (http : nat -> MarketCap.endpoint -> Fetch.http_result)
    (symbol : string) (s s' : MarketCap.state) (m : Q) :
  MarketCap.get_market_cap http symbol s = (Py.Ok (Some m), s') ->
  (0 < m)%Q.
Proof.
  intros H.
  destruct (get_market_cap_spec http symbol s) as (made & _ & Hcases).
  rewrite H in Hcases. simpl in Hcases. unfold found_ok in Hcases.
  destruct Hcases as [[_ Hg] | [[_ Hg] | [_ [Hg | Hg]]]];
    try discriminate;
    destruct Hg as [(m' & [= <-] & Hm) | Hg]; done.
Qed.

Lemma market_cap_is_positive_witness : (0 < 5000000000)%Q.
Proof.
  apply (market_cap_is_positive cap_api "AAPL" no_requests
           (snd (MarketCap.get_market_cap cap_api "AAPL" no_requests))).
  vm_compute. reflexivity.
Defined.


(** ** The regions stage *)

Lemma regions_request E symbol (s : Regions.state) :
  exists response s',
    Regions.make_api_request E symbol s = (Py.Ok response, s') /\
    one_region_request
      (symbol, Regions.http E (length (Regions.requests s)) symbol) s s' /\
    forall b, response = Some b ->
      exists status_code,
        Regions.http E (length (Regions.requests s)) symbol
        = Fetch.Response status_code b /\
        (400 <=? status_code)%Z = false.
Proof.
  unfold Regions.make_api_request, one_region_request.
  destruct (Regions.http E _ symbol) as [| | status_code b]; simpl.
  1, 2: do 2 eexists; split; [done |]; split; [done |]; by intros b' [=].
  destruct (_ || _); simpl.
  { destruct (Fetch.has_error_message b) as [[|] |]; simpl;
      (do 2 eexists; split; [done |]; split; [done |]; by intros b' [=]). }
  destruct (status_code =? 429)%Z; simpl.
  { do 2 eexists; split; [done |]; split; [done |]; by intros b' [=]. }
  destruct (400 <=? status_code)%Z eqn:H400; simpl.
  { do 2 eexists; split; [done |]; split; [done |]; by intros b' [=]. }
  do 2 eexists. split; [done |]. split; [done |].
  intros b' [= <-]. by exists status_code.
Qed.

Lemma get_stock_region_spec E symbol (s : Regions.state) :
  exists r s',
    Regions.get_stock_region E symbol s = (r, s') /\
    one_region_request
      (symbol, Regions.http E (length (Regions.requests s)) symbol) s s' /\
    (r = Py.Ok None \/
     (r = Py.Raise Py.KeyError /\
      object_answer (Regions.http E (length (Regions.requests s)) symbol)) \/
     exists profile_data, r = Py.Ok (Some (Regions.region_info_of profile_data))).
Proof.
  unfold Regions.get_stock_region, Run.bind.
  destruct (regions_request E symbol s) as (response & s' & -> & Hs' & Hb).
  destruct response as [b |]; [| by eauto 10].
  destruct (Hb b eq_refl) as (status_code & Ha & H400).
  unfold Run.try_except, Run.lift, Run.ret, Fetch.first_item.
  destruct b as [| o | [| item l]]; simpl; [by eauto 10 | | by eauto 10 |].
  - case_bool_decide; simpl; [by eauto 10 |].
    do 2 eexists. split; [done |]. split; [done |]. right. left.
    split; [done |]. by exists status_code, o.
  - exists (Py.Ok (Some (Regions.region_info_of item))), s'. eauto 10.
Qed.

Lemma get_stock_region_result E symbol (s : Regions.state) :
  fst (Regions.get_stock_region E symbol s)
  = region_info_for (Regions.http E (length (Regions.requests s)) symbol).
Proof.
  unfold Regions.get_stock_region, Regions.make_api_request, Run.bind,
    region_info_for.
  destruct (Regions.http E _ symbol) as [| | status_code b]; simpl; try done.
  destruct ((status_code =? 401)%Z || (status_code =? 403)%Z) eqn:Hauth.
  { assert ((400 <=? status_code)%Z = true) as -> by lia.
    by destruct (Fetch.has_error_message b) as [[|] |]. }
  destruct (status_code =? 429)%Z eqn:H429.
  { by assert ((400 <=? status_code)%Z = true) as -> by lia. }
  destruct (400 <=? status_code)%Z; [done |].
  unfold Run.try_except, Run.lift, Run.ret, Fetch.first_item.
  destruct b as [| o | [| item l]]; simpl; try done.
  by case_bool_decide.
Qed.

Lemma region_info_for_raise a e :
  region_info_for a = Py.Raise e -> e = Py.KeyError /\ object_answer a.
Proof.
  unfold region_info_for, object_answer.
  destruct a as [| | status_code b]; try done.
  destruct (400 <=? status_code)%Z eqn:H400; [done |].
  destruct b as [| o | [| item l]]; try done.
  case_bool_decide; [done |]. intros [= <-]. split; [done |].
  by exists status_code, o.
Qed.

Lemma region_info_for_Some a region_info :
  region_info_for a = Py.Ok (Some region_info) ->
  exists item, region_info = Regions.region_info_of item.
Proof.
  unfold region_info_for.
  destruct a as [| | status_code b]; try done.
  destruct (400 <=? status_code)%Z; [done |].
  destruct b as [| o | [| item l]]; try done.
  - by case_bool_decide.
  - intros [= <-]. by exists item.
Qed.

Lemma get_stock_region_run E symbol (s : Regions.state) :
  exists s',
    Regions.get_stock_region E symbol s
    = (region_info_for
         (Regions.http E (length (Regions.requests s)) symbol), s') /\
    one_region_request
      (symbol, Regions.http E (length (Regions.requests s)) symbol) s s'.
Proof.
  destruct (get_stock_region_spec E symbol s) as (r & s' & Heq & Hone & _).
  exists s'. pose proof (get_stock_region_result E symbol s) as H.
  rewrite Heq in H. simpl in H. by subst r.
Qed.

Lemma regions_process_stock_spec E stock (s s' : Regions.state) res :
  has_symbol stock = true ->
  Regions.process_stock E stock s = (res, s') ->
  let symbol := Fetch.get stock "Symbol" (Fetch.SStr "") in
  let a := Regions.http E (length (Regions.requests s)) symbol in
  match region_info_for a with
  | Py.Raise e =>
      res = Py.Raise Py.KeyError /\ one_region_request (symbol, a) s s'
      /\ object_answer a
  | Py.Ok region_info =>
      let e := enhanced region_info (Regions.now_at E (Regions.clock s)) stock in
      res = Py.Ok (Some e) /\
      Regions.requests s' = (Regions.requests s ++ [(symbol, a)])%list /\
      Regions.batch_results s' = (Regions.batch_results s ++ [e])%list /\
      Regions.results s' = Regions.results s /\
      Regions.processed_counter s' = S (Regions.processed_counter s) /\
      Regions.clock s' = S (Regions.clock s)
  end.
Proof.
  intros Hsym Heq. cbv zeta. unfold Regions.process_stock in Heq.
  unfold has_symbol in Hsym. rewrite Hsym in Heq.
  change (negb true) with false in Heq. cbv iota in Heq.
  unfold Run.bind at 1 in Heq.
  destruct (get_stock_region_run E (Fetch.get stock "Symbol" (Fetch.SStr "")) s)
    as (s1 & Hr1 & Hs1).
  rewrite Hr1 in Heq. clear Hr1.
  destruct Hs1 as (Hreq & Hb & Hres & Hc & Hk).
  destruct (region_info_for _) as [region_info | e] eqn:Hinfo.
  - unfold Run.bind, Regions.now, Run.modify, Run.ret in Heq. simpl in Heq.
    injection Heq as <- <-. unfold enhanced. simpl.
    rewrite Hk, Hb, Hres, Hc, Hreq. repeat split; reflexivity.
  - apply region_info_for_raise in Hinfo as [-> Hobj].
    injection Heq as <- <-. by repeat split.
Qed.

Lemma twice_app es1 es2 : twice (es1 ++ es2) = (twice es1 ++ twice es2)%list.
Proof. unfold twice. by rewrite flat_map_app. Qed.

Lemma twice_Permutation es : twice es ≡ₚ (es ++ es)%list.
Proof.
  induction es as [| e es IH]; [done |]. simpl. rewrite IH.
  by rewrite <- Permutation_middle.
Qed.

Lemma asked_symbols_app l1 l2 :
  asked_symbols (l1 ++ l2) = (asked_symbols l1 ++ asked_symbols l2)%list.
Proof. unfold asked_symbols. by rewrite List.filter_app, map_app. Qed.

Lemma enhanced_keeps_fields region_info t stock k :
  k ∉ region_columns ->
  enhanced region_info t stock !! k = Regions.Json <$> stock !! k.
Proof.
  intros Hk.
  assert (Hne : forall c, c ∈ region_columns -> c <> k) by (by intros c Hc ->).
  unfold enhanced, Regions.with_region.
  destruct region_info as [region_info |];
    rewrite !lookup_insert_ne, lookup_fmap;
    try done;
    apply Hne; unfold region_columns;
    repeat first [apply list_elem_of_here | apply list_elem_of_further].
Qed.

Lemma enhanced_symbol region_info t stock :
  has_symbol stock = true ->
  enhanced region_info t stock !! "Symbol"
  = Some (Regions.Json (Fetch.get stock "Symbol" (Fetch.SStr ""))).
Proof.
  intros Hsym. rewrite enhanced_keeps_fields.
  - unfold has_symbol, Fetch.get in *.
    by destruct (stock !! "Symbol").
  - unfold region_columns. intros H.
    repeat (apply elem_of_cons in H as [H | H]; [discriminate |]).
    by apply elem_of_nil in H.
Qed.

Lemma regions_process_stock_skip E stock (s : Regions.state) :
  has_symbol stock = false ->
  Regions.process_stock E stock s = (Py.Ok None, s).
Proof.
  intros H. unfold Regions.process_stock. unfold has_symbol in H.
  by rewrite H.
Qed.

Lemma collected_nil E s : collected E [] [] s s.
Proof.
  unfold collected. simpl. rewrite app_nil_r.
  repeat split; try done; try lia; try constructor.
Qed.

Lemma collected_app E l1 l2 es1 es2 s1 s2 s3 :
  collected E l1 es1 s1 s2 -> collected E l2 es2 s2 s3 ->
  collected E (l1 ++ l2) (es1 ++ es2) s1 s3.
Proof.
  intros (Hr1 & Hc1 & Hl1 & Hf1 & Hs1) (Hr2 & Hc2 & Hl2 & Hf2 & Hs2).
  unfold collected.
  rewrite asked_symbols_app, !length_app, Hr2, Hr1, Hc2, Hc1, <- app_assoc.
  repeat split; try done; try lia.
  - apply Forall_app. split.
    + eapply Forall_impl; [exact Hf1 |].
      intros e (stock & ri & t & Hin & Hsym & ->).
      exists stock, ri, t. split; [| done]. apply elem_of_app. by left.
    + eapply Forall_impl; [exact Hf2 |].
      intros e (stock & ri & t & Hin & Hsym & ->).
      exists stock, ri, t. split; [| done]. apply elem_of_app. by right.
  - intros Hnever. by rewrite !fmap_app, Hs1, Hs2.
Qed.

Lemma collected_sub E stocks stocks' es s s' :
  (forall stock, stock ∈ stocks -> stock ∈ stocks') ->
  asked_symbols stocks = asked_symbols stocks' ->
  collected E stocks es s s' -> collected E stocks' es s s'.
Proof.
  intros Hsub Hasked (Hr & Hc & Hl & Hf & Hs). unfold collected.
  rewrite <- Hasked. repeat split; try done.
  eapply Forall_impl; [exact Hf |].
  intros e (stock & ri & t & Hin & Hsym & ->). exists stock, ri, t. auto.
Qed.

Lemma regions_run_future_spec E stock (s s' : Regions.state) res :
  Regions.run_future E stock s = (res, s') ->
  res = Py.Ok tt /\
  Regions.results s' = Regions.results s /\
  exists es,
    Regions.batch_results s' = (Regions.batch_results s ++ twice es)%list /\
    collected E [stock] es s s'.
Proof.
  unfold Regions.run_future, Run.try_except, Run.bind at 1.
  destruct (Regions.process_stock E stock s) as [r s1] eqn:Hp.
  unfold collected, asked_symbols. simpl.
  destruct (has_symbol stock) eqn:Hsym.
  - apply regions_process_stock_spec in Hp; [| done]. cbv zeta in Hp.
    destruct (region_info_for _) as [ri | e].
    + destruct Hp as (-> & Hreq & Hb & Hres & Hc & Hk).
      simpl. intros [= <- <-]. simpl.
      rewrite Hreq, map_app. simpl.
      repeat split; try done.
      eexists [_]. simpl. rewrite Hb, <- app_assoc. simpl.
      repeat split; try done; try lia.
      * constructor; [| constructor].
        exists stock, ri, (Regions.now_at E (Regions.clock s)).
        by repeat split; [apply list_elem_of_here | ..].
      * intros _. by rewrite enhanced_symbol.
    + destruct Hp as (-> & (Hreq & Hb & Hres & Hc & Hk) & Hobj).
      simpl. intros [= <- <-]. simpl.
      rewrite Hreq, map_app. simpl.
      repeat split; try done.
      exists []. rewrite app_nil_r. simpl.
      repeat split; try done; try lia; try constructor.
      intros Hnever. exfalso. by eapply Hnever.
  - rewrite regions_process_stock_skip in Hp by done. injection Hp as <- <-.
    simpl. intros [= <- <-].
    repeat split; try done.
    exists []. rewrite !app_nil_r. simpl.
    repeat split; try done; try lia; try constructor.
Qed.

Lemma regions_run_batch_spec E batch :
  forall (s s' : Regions.state) res,
    Regions.run_batch E batch s = (res, s') ->
    res = Py.Ok tt /\
    Regions.results s' = Regions.results s /\
    exists es,
      Regions.batch_results s' = (Regions.batch_results s ++ twice es)%list /\
      collected E batch es s s'.
Proof.
  induction batch as [| stock rest IH]; intros s s' res; simpl.
  - intros [= <- <-]. repeat split; try done.
    exists []. rewrite app_nil_r. split; [done | apply collected_nil].
  - unfold Run.bind at 1.
    destruct (Regions.run_future E stock s) as [r1 s1] eqn:H1.
    apply regions_run_future_spec in H1 as (-> & Hres1 & es1 & Hb1 & Hc1).
    intros H2. apply IH in H2 as (-> & Hres2 & es2 & Hb2 & Hc2).
    split; [done |]. split; [congruence |].
    exists (es1 ++ es2)%list.
    rewrite twice_app, Hb2, Hb1, <- app_assoc. split; [done |].
    apply (collected_app E [stock] rest es1 es2 s s1 s'); done.
Qed.

Lemma regions_run_batches_spec E stocks batch_nums :
  forall (s s' : Regions.state) res,
    Regions.run_batches E batch_nums stocks s = (res, s') ->
    res = Py.Ok tt /\
    exists es,
      Regions.results s' = (Regions.results s ++ twice es)%list /\
      collected E
        (concat (map (fun batch_num =>
                        take Regions.BATCH_SIZE
                          (drop (batch_num * Regions.BATCH_SIZE) stocks))
                   batch_nums))
        es s s'.
Proof.
  induction batch_nums as [| batch_num rest IH]; intros s s' res.
  - simpl. intros [= <- <-]. split; [done |].
    exists []. rewrite app_nil_r. split; [done | apply collected_nil].
  - cbn [Regions.run_batches map concat]. cbv zeta.
    set (batch := take Regions.BATCH_SIZE
                    (drop (batch_num * Regions.BATCH_SIZE) stocks)).
    unfold Run.bind at 1. unfold Run.modify at 1.
    unfold Run.bind at 1.
    destruct (Regions.run_batch E batch _) as [r1 s1] eqn:H1.
    apply regions_run_batch_spec in H1 as (-> & Hres1 & es1 & Hb1 & Hc1).
    simpl in Hres1, Hb1.
    unfold Run.bind at 1. unfold Run.modify at 1.
    intros H2. apply IH in H2 as (-> & es2 & Hr2 & Hc2).
    simpl in Hr2.
    split; [done |].
    exists (es1 ++ es2)%list.
    rewrite twice_app, Hr2, Hres1, Hb1, <- app_assoc. split; [done |].
    eapply collected_app; [| exact Hc2].
    destruct Hc1 as (H1 & H2 & H3 & H4 & H5). by repeat split.
Qed.

(** ** Batches *)

Lemma batches_take {A} (B : nat) (l : list A) k :
  concat (map (fun batch_num => take B (drop (batch_num * B) l)) (seq 0 k))
  = take (k * B) l.
Proof.
  induction k as [| k IH]; [done |].
  rewrite seq_S, map_app, concat_app, IH. simpl. rewrite app_nil_r.
  rewrite take_take_drop. f_equal. lia.
Qed.

Lemma batches_concat {A} (B : nat) (l : list A) :
  (0 < B)%nat ->
  concat (map (fun batch_num => take B (drop (batch_num * B) l))
            (seq 0 ((length l + B - 1) / B)))
  = l.
Proof.
  intros HB. rewrite batches_take. apply take_ge.
  pose proof (Nat.div_mod (length l + B - 1) B ltac:(lia)) as Hdm.
  pose proof (Nat.mod_upper_bound (length l + B - 1) B ltac:(lia)) as Hub.
  nia.
Qed.

Lemma fetch_regions_spec E stocks res (s' : Regions.state) :
  Regions.fetch_regions_for_stocks E (Some (Fetch.JArray stocks))
    Regions.initial_state = (res, s') ->
  exists es,
    Regions.results s' = twice es /\
    collected E stocks es Regions.initial_state s'.
Proof.
  unfold Regions.fetch_regions_for_stocks, Regions.load_undervalued_stocks.
  unfold Run.bind at 1. unfold Run.ret at 1.
  destruct stocks as [| stock rest].
  - simpl. intros [= <- <-]. exists []. split; [done |].
    unfold collected. simpl.
    repeat split; try done; try lia; try constructor.
  - set (stocks := stock :: rest). cbv zeta. unfold Run.bind at 1.
    destruct (Regions.run_batches E _ stocks Regions.initial_state)
      as [r s1] eqn:H1.
    apply regions_run_batches_spec in H1 as (-> & es & Hr & Hc).
    rewrite (batches_concat Regions.BATCH_SIZE stocks) in Hc
      by (unfold Regions.BATCH_SIZE; lia).
    intros [= <- <-]. by exists es.
Qed.

(** X11.  When fetch_regions_for_stocks has gone through the stocks of the
    cache file, its result list holds every record that a worker built
    twice -- once appended by process_stock and once by the loop over
    the futures -- while the counter of processed stocks counts each
    record once; every record was built from a stock of the file that
    carries a ticker. *)
Theorem regions_results_hold_each_record_twice (E : Regions.env)
    (stocks : list Fetch.obj) (res : Py.result bool) (s' : Regions.state) :
  Regions.fetch_regions_for_stocks E (Some (Fetch.JArray stocks))
    Regions.initial_state = (res, s') ->
  exists es,
    Regions.results s' ≡ₚ (es ++ es)%list /\
    Regions.processed_counter s' = length es /\
    Forall (enhanced_from stocks) es.
Proof.
  intros H. apply fetch_regions_spec in H as (es & Hr & _ & Hc & _ & Hf & _).
  exists es. split; [rewrite Hr; apply twice_Permutation |]. by split.
Qed.

Lemma regions_results_hold_each_record_twice_witness :
  exists es,
    Regions.results (snd regions_run) ≡ₚ (es ++ es)%list /\
    Regions.processed_counter (snd regions_run) = length es /\
    Forall (enhanced_from cached_stocks) es.
Proof.
  apply (regions_results_hold_each_record_twice regions_api cached_stocks
           (fst regions_run)).
  vm_compute. reflexivity.
Defined.



(** X13.  When the API never answers with a JSON object that is not
    empty, fetch_regions_for_stocks builds one record for every stock
    that carries a ticker, whatever the API answered for it: the
    Symbols of the records are the tickers of the file, in its order. *)
Theorem regions_keep_every_ticker (E : Regions.env)
    (stocks : list Fetch.obj) (res : Py.result bool) (s' : Regions.state) :
  never_object E ->
  Regions.fetch_regions_for_stocks E (Some (Fetch.JArray stocks))
    Regions.initial_state = (res, s') ->
  exists es,
    Regions.results s' ≡ₚ (es ++ es)%list /\
    (fun e : Regions.record => e !! "Symbol") <$> es
    = (fun v => Some (Regions.Json v)) <$> asked_symbols stocks.
Proof.
  intros Hnever H.
  apply fetch_regions_spec in H as (es & Hr & _ & _ & _ & _ & Hs).
  exists es. split; [rewrite Hr; apply twice_Permutation | by apply Hs].
Qed.

Lemma regions_keep_every_ticker_witness :
  exists es,
    Regions.results (snd regions_run) ≡ₚ (es ++ es)%list /\
    (fun e : Regions.record => e !! "Symbol") <$> es
    = [Some (Regions.Json (Fetch.SStr "AAA"));
       Some (Regions.Json (Fetch.SStr "BBB"))].
Proof.
  apply (regions_keep_every_ticker regions_api cached_stocks
           (fst regions_run)).
  - intros n symbol (status_code & o & H & _). simpl in H.
    repeat case_match; discriminate.
  - vm_compute. reflexivity.
Defined.

Lemma enhanced_None t stock : region_na (enhanced None t stock).
Proof.
  unfold region_na, enhanced, Regions.with_region.
  split; [by simplify_map_eq |].
  repeat constructor; by simplify_map_eq.
Qed.

Lemma enhanced_Some item t stock :
  region_of item (enhanced (Some (Regions.region_info_of item)) t stock).
Proof.
  unfold region_of, enhanced, Regions.with_region, Regions.region_info_of,
    Fetch.get.
  split; [by simplify_map_eq |].
  repeat constructor; by simplify_map_eq.
Qed.

(** X14.  For a stock with a ticker process_stock makes one profile
    request.  Unless the answer is a JSON object that [data[0]] fails
    on, in which case a KeyError leaves process_stock, it returns a
    record that has every field of the stock outside the ten region
    columns unchanged and the time of the clock as
    Region_Fetch_Timestamp.  When the request failed or the answer held
    no profile, Region_Fetched is False and the eight region columns
    read 'N/A'; otherwise Region_Fetched is True and the region columns
    are read off the first profile of the answer, 'N/A' standing in for
    a missing key. *)
Theorem region_columns_of_a_stock (E : Regions.env) (stock : Fetch.obj)
    (s s' : Regions.state) (res : Py.result (option Regions.record)) :
  has_symbol stock = true ->
  Regions.process_stock E stock s = (res, s') ->
  match region_info_for
          (Regions.http E (length (Regions.requests s))
             (Fetch.get stock "Symbol" (Fetch.SStr ""))) with
  | Py.Raise _ => res = Py.Raise Py.KeyError
  | Py.Ok region_info =>
      exists e,
        res = Py.Ok (Some e) /\
        (forall k, k ∉ region_columns ->
                   e !! k = Regions.Json <$> stock !! k) /\
        e !! "Region_Fetch_Timestamp"
        = Some (Regions.Json
                  (Fetch.SStr (Regions.now_at E (Regions.clock s)))) /\
        match region_info with
        | None => region_na e
        | Some _ =>
            exists item,
              region_info = Some (Regions.region_info_of item) /\
              region_of item e
        end
  end.
Proof.
  intros Hsym Heq.
  apply regions_process_stock_spec in Heq; [| done]. cbv zeta in Heq.
  destruct (region_info_for _) as [region_info | e] eqn:Hinfo;
    [| by destruct Heq as [-> _]].
  destruct Heq as (-> & _).
  eexists. split; [done |].
  split; [intros k Hk; by apply enhanced_keeps_fields |].
  split; [unfold enhanced; by simplify_map_eq |].
  destruct region_info as [region_info |]; [| apply enhanced_None].
  apply region_info_for_Some in Hinfo as [item ->].
  exists item. split; [done | apply enhanced_Some].
Qed.

Lemma region_columns_of_a_stock_witness :
  exists e,
    fst (Regions.process_stock regions_api stock_BBB Regions.initial_state)
    = Py.Ok (Some e) /\
    (forall k, k ∉ region_columns ->
               e !! k = Regions.Json <$> stock_BBB !! k) /\
    e !! "Region_Fetch_Timestamp"
    = Some (Regions.Json (Fetch.SStr "2024-01-01T00:00:00")) /\
    region_na e.
Proof.
  apply (region_columns_of_a_stock regions_api stock_BBB Regions.initial_state
           (snd (Regions.process_stock regions_api stock_BBB
                   Regions.initial_state))).
  - reflexivity.
  - vm_compute. reflexivity.
Defined.

(** ** The cache answers for what it was told *)

Lemma cache_stock_in_fields now symbol price dcf profile c c' :
  Fetch.cache_stock_in now symbol price dcf profile c = Py.Ok c' ->
  exists e,
    c' !! symbol = Some (Fetch.Entry e) /\
    (Fetch.is_none price = false -> e !! "price" = Some price) /\
    (Fetch.is_none dcf = false -> e !! "dcf" = Some dcf) /\
    (Fetch.is_none profile = false -> e !! "profile" = Some profile).
Proof.
  unfold Fetch.cache_stock_in.
  set (c0 := match c !! symbol with Some _ => c | None => _ end).
  destruct (c0 !! symbol) as [[e |] |]; try done.
  intros [= <-]. eexists. split; [by rewrite lookup_insert_eq |].
  destruct (Fetch.is_none price), (Fetch.is_none dcf),
    (Fetch.is_none profile); repeat split; intros; try done;
    by simplify_map_eq.
Qed.

Lemma cached_field_Some (c : gmap string Fetch.cache_value) (symbol : string)
    e k v :
  c !! symbol = Some (Fetch.Entry e) -> e !! k = Some v ->
  Fetch.is_none v = false ->
  Fetch.cached_field (c !! symbol) k = Some v.
Proof.
  intros -> Hk Hv. unfold Fetch.cached_field. by rewrite Hk, Hv.
Qed.

Lemma cache_stock_fields E symbol price dcf profile s s' r :
  Fetch.cache_stock E symbol price dcf profile s = (r, s') ->
  match r with
  | Py.Ok _ =>
      exists e,
        Fetch.stock_cache s' !! symbol = Some (Fetch.Entry e) /\
        (Fetch.is_none price = false -> e !! "price" = Some price) /\
        (Fetch.is_none dcf = false -> e !! "dcf" = Some dcf) /\
        (Fetch.is_none profile = false -> e !! "profile" = Some profile)
  | Py.Raise e => e = Py.TypeError /\ s' = s
  end.
Proof.
  unfold Fetch.cache_stock.
  destruct (Fetch.cache_stock_in _ _ _ _ _ _) as [c |] eqn:Hc.
  - intros [= <- <-]. simpl. by eapply cache_stock_in_fields.
  - intros [= <- <-]. split; [| done]. revert Hc. unfold Fetch.cache_stock_in.
    repeat case_match; by intros [= <-].
Qed.

(** X15.  What cache_stock files for a symbol is what the getters return
    afterwards without asking the API: a price that is not None is
    returned by get_stock_price, a DCF value that is not None by
    get_dcf_value (together with the cached price), a profile that is
    not None by get_company_profile, and the state stays as it is. *)
Theorem cache_stock_then_get (E : Fetch.env) (symbol : string)
    (price dcf profile : Fetch.value) (s s' : Fetch.state) :
  Fetch.cache_stock E symbol price dcf profile s = (Py.Ok tt, s') ->
  (Fetch.is_none price = false ->
   Fetch.get_stock_price E symbol s' = (Py.Ok price, s')) /\
  (Fetch.is_none dcf = false ->
   exists cached_price,
     Fetch.get_dcf_value E symbol s' = (Py.Ok (dcf, cached_price), s') /\
     (Fetch.is_none price = false -> cached_price = price)) /\
  (Fetch.is_none profile = false ->
   Fetch.get_company_profile E symbol s' = (Py.Ok profile, s')).
Proof.
  intros H. apply cache_stock_fields in H as (e & He & Hp & Hd & Hpr).
  repeat split.
  - intros Hn. unfold Fetch.get_stock_price, Fetch.bindM,
      Fetch.get_cached_stock, Fetch.gets.
    by rewrite (cached_field_Some _ _ _ _ _ He (Hp Hn) Hn).
  - intros Hn. unfold Fetch.get_dcf_value, Fetch.bindM,
      Fetch.get_cached_stock, Fetch.gets.
    rewrite (cached_field_Some _ _ _ _ _ He (Hd Hn) Hn), He.
    eexists. split; [done |]. intros Hn'. by rewrite (Hp Hn').
  - intros Hn. unfold Fetch.get_company_profile, Fetch.bindM,
      Fetch.get_cached_stock, Fetch.gets.
    by rewrite (cached_field_Some _ _ _ _ _ He (Hpr Hn) Hn).
Qed.

Lemma cache_stock_then_get_witness :
  Fetch.get_stock_price api_403 "AAPL"
    (snd (Fetch.cache_stock api_403 "AAPL" (Fetch.Scalar (Fetch.SNum 150))
            Fetch.VNone Fetch.VNone (Fetch.initial_state None None)))
  = (Py.Ok (Fetch.Scalar (Fetch.SNum 150)),
     snd (Fetch.cache_stock api_403 "AAPL" (Fetch.Scalar (Fetch.SNum 150))
            Fetch.VNone Fetch.VNone (Fetch.initial_state None None))).
Proof.
  apply (cache_stock_then_get api_403 "AAPL" (Fetch.Scalar (Fetch.SNum 150))
           Fetch.VNone Fetch.VNone (Fetch.initial_state None None));
    reflexivity.
Defined.

(** ** What was fetched once is not fetched again *)

Lemma price_hit E symbol (s : Fetch.state) v :
  Fetch.cached_field (Fetch.stock_cache s !! symbol) "price" = Some v ->
  Fetch.get_stock_price E symbol s = (Py.Ok v, s).
Proof.
  intros H. unfold Fetch.get_stock_price, Fetch.bindM,
    Fetch.get_cached_stock, Fetch.gets. by rewrite H.
Qed.

Lemma profile_hit E symbol (s : Fetch.state) v :
  Fetch.cached_field (Fetch.stock_cache s !! symbol) "profile" = Some v ->
  Fetch.get_company_profile E symbol s = (Py.Ok v, s).
Proof.
  intros H. unfold Fetch.get_company_profile, Fetch.bindM,
    Fetch.get_cached_stock, Fetch.gets. by rewrite H.
Qed.

Lemma dcf_hit E symbol (s : Fetch.state) v :
  Fetch.cached_field (Fetch.stock_cache s !! symbol) "dcf" = Some v ->
  exists p, Fetch.get_dcf_value E symbol s = (Py.Ok (v, p), s).
Proof.
  intros H. unfold Fetch.get_dcf_value, Fetch.bindM,
    Fetch.get_cached_stock, Fetch.gets. rewrite H. by eexists.
Qed.

Lemma api_request_ok E ep (s : Fetch.state) :
  exists response s', Fetch.make_api_request E ep s = (Py.Ok response, s').
Proof.
  unfold Fetch.make_api_request.
  destruct (Fetch.http E _ ep) as [| | status_code b]; simpl; eauto.
  destruct (_ || _); simpl.
  { destruct (Fetch.has_error_message b) as [[|] |]; simpl; eauto. }
  destruct (status_code =? 429)%Z; simpl; eauto.
  destruct (400 <=? status_code)%Z; simpl; eauto.
  destruct (Fetch.has_error_message b) as [[|] |]; simpl; eauto.
Qed.

(** X16.  A price, a profile or a DCF value that a getter has returned
    for a symbol and that is not None is returned again by the next call
    of the same getter, which makes no request and changes nothing. *)
Theorem fetched_values_are_remembered (E : Fetch.env) (symbol : string)
    (s s' : Fetch.state) :
  (forall price,
     Fetch.get_stock_price E symbol s = (Py.Ok price, s') ->
     Fetch.is_none price = false ->
     Fetch.get_stock_price E symbol s' = (Py.Ok price, s')) /\
  (forall profile,
     Fetch.get_company_profile E symbol s = (Py.Ok profile, s') ->
     Fetch.is_none profile = false ->
     Fetch.get_company_profile E symbol s' = (Py.Ok profile, s')) /\
  (forall dcf_value stock_price_from_dcf,
     Fetch.get_dcf_value E symbol s
     = (Py.Ok (dcf_value, stock_price_from_dcf), s') ->
     Fetch.is_none dcf_value = false ->
     exists cached_price,
       Fetch.get_dcf_value E symbol s'
       = (Py.Ok (dcf_value, cached_price), s')).
Proof.
  split; [| split].
  - intros price Hget Hn. apply price_hit. revert Hget.
    unfold Fetch.get_stock_price, Fetch.bindM at 1,
      Fetch.get_cached_stock, Fetch.gets.
    destruct (Fetch.cached_field _ "price") as [v |] eqn:Hc.
    { by intros [= <- <-]. }
    unfold Fetch.bindM at 1.
    destruct (api_request_ok E (Fetch.QuoteOf symbol) s)
      as (response & s1 & ->).
    destruct response as [b |]; [| intros [= <- <-]; done].
    unfold Fetch.try_except, Fetch.bindM, Fetch.lift, Fetch.ret.
    destruct (Fetch.first_item b) as [[item |] | e]; simpl.
    + destruct (Fetch.truthy_and_gt0 _) as [[|] | e]; simpl.
      * destruct (Fetch.cache_stock E symbol _ _ _ s1) as [[[] | e] s2] eqn:Hcs.
        -- intros [= <- <-].
           apply cache_stock_fields in Hcs as (e & He & Hp & _).
           by eapply cached_field_Some; [| apply Hp |].
        -- apply cache_stock_fields in Hcs as [-> ->]. simpl.
           intros [= <- <-]. done.
      * intros [= <- <-]. done.
      * destruct (Fetch.parse_errors e); intros [= <- <-]; done.
    + intros [= <- <-]. done.
    + destruct (Fetch.parse_errors e); intros [= <- <-]; done.
  - intros profile Hget Hn. apply profile_hit. revert Hget.
    unfold Fetch.get_company_profile, Fetch.bindM at 1,
      Fetch.get_cached_stock, Fetch.gets.
    destruct (Fetch.cached_field _ "profile") as [v |] eqn:Hc.
    { by intros [= <- <-]. }
    unfold Fetch.bindM at 1.
    destruct (api_request_ok E (Fetch.ProfileOf symbol) s)
      as (response & s1 & ->).
    destruct response as [b |]; [| intros [= <- <-]; done].
    unfold Fetch.try_except, Fetch.bindM, Fetch.lift, Fetch.ret.
    destruct (Fetch.first_item b) as [[item |] | e]; simpl.
    + destruct (Fetch.cache_stock E symbol _ _ _ s1) as [[[] | e] s2] eqn:Hcs.
      * intros [= <- <-].
        apply cache_stock_fields in Hcs as (e & He & _ & _ & Hp).
        by eapply cached_field_Some; [| apply Hp |].
      * apply cache_stock_fields in Hcs as [-> ->]. simpl.
        intros [= <- <-]. done.
    + intros [= <- <-]. done.
    + destruct (Fetch.parse_errors e); intros [= <- <-]; done.
  - intros dcf_value p Hget Hn. apply dcf_hit. revert Hget.
    unfold Fetch.get_dcf_value, Fetch.bindM at 1,
      Fetch.get_cached_stock, Fetch.gets.
    destruct (Fetch.cached_field _ "dcf") as [v |] eqn:Hc.
    { by intros [= <- <- <-]. }
    unfold Fetch.bindM at 1.
    destruct (api_request_ok E (Fetch.DcfOf symbol) s)
      as (response & s1 & ->).
    destruct response as [b |]; [| intros [= <- <- <-]; done].
    unfold Fetch.try_except, Fetch.bindM, Fetch.lift, Fetch.ret.
    destruct (Fetch.first_item b) as [[item |] | e]; simpl.
    + destruct (Fetch.truthy_and_gt0 (Fetch.Scalar (Fetch.get item "dcf" _)))
        as [[|] | e]; simpl.
      * destruct (Fetch.truthy_and_gt0 _) as [[|] | e]; simpl.
        -- destruct (Fetch.cache_stock E symbol _ _ _ s1)
             as [[[] | e] s2] eqn:Hcs.
           ++ intros [= <- <- <-].
              apply cache_stock_fields in Hcs as (e & He & _ & Hd & _).
              by eapply cached_field_Some; [| apply Hd |].
           ++ apply cache_stock_fields in Hcs as [-> ->]. simpl.
              intros [= <- <- <-]. done.
        -- destruct (Fetch.cache_stock E symbol _ _ _ s1)
             as [[[] | e] s2] eqn:Hcs.
           ++ intros [= <- <- <-].
              apply cache_stock_fields in Hcs as (e & He & _ & Hd & _).
              by eapply cached_field_Some; [| apply Hd |].
           ++ apply cache_stock_fields in Hcs as [-> ->]. simpl.
              intros [= <- <- <-]. done.
        -- destruct (Fetch.parse_errors e); intros [= <- <- <-]; done.
      * intros [= <- <- <-]. done.
      * destruct (Fetch.parse_errors e); intros [= <- <- <-]; done.
    + intros [= <- <- <-]. done.
    + destruct (Fetch.parse_errors e); intros [= <- <- <-]; done.
Qed.

(** ** Bulk data goes through the cache *)

Lemma cache_stock_in_other now symbol price dcf profile c c' k :
  Fetch.cache_stock_in now symbol price dcf profile c = Py.Ok c' ->
  k <> symbol -> c' !! k = c !! k.
Proof.
  unfold Fetch.cache_stock_in. intros H Hne.
  repeat case_match; simplify_eq; by rewrite ?lookup_insert_ne by done.
Qed.

Lemma cache_stock_run E symbol price dcf profile (s s' : Fetch.state) :
  Fetch.cache_stock E symbol price dcf profile s = (Py.Ok tt, s') ->
  (forall k, k <> symbol ->
             Fetch.stock_cache s' !! k = Fetch.stock_cache s !! k) /\
  exists e,
    Fetch.stock_cache s' !! symbol = Some (Fetch.Entry e) /\
    (Fetch.is_none price = false -> e !! "price" = Some price) /\
    (Fetch.is_none dcf = false -> e !! "dcf" = Some dcf) /\
    (Fetch.is_none profile = false -> e !! "profile" = Some profile).
Proof.
  unfold Fetch.cache_stock.
  destruct (Fetch.cache_stock_in _ _ _ _ _ _) as [c |] eqn:Hc; [| done].
  intros [= <-]. simpl. split.
  - intros k Hk. by eapply cache_stock_in_other.
  - by eapply cache_stock_in_fields.
Qed.

Lemma dcf_bulk_items_spec E data :
  forall dcf_dict (s s' : Fetch.state) dcf_dict',
    Fetch.dcf_bulk_items E data dcf_dict s = (Py.Ok dcf_dict', s') ->
    dcf_bulk_cached dcf_dict s -> dcf_bulk_cached dcf_dict' s'.
Proof.
  induction data as [| item rest IH]; intros d s s' d'; simpl.
  - by intros [= <- <-].
  - destruct (negb (String.eqb (Fetch.get_symbol item) "")
              && Fetch.truthy_scalar (Fetch.get item "dcf" Fetch.SNull))
      eqn:Hitem; [| apply IH].
    apply andb_true_iff in Hitem as [Hsym Hv].
    apply negb_true_iff, String.eqb_neq in Hsym.
    unfold Fetch.bindM at 1.
    destruct (Fetch.cache_stock E _ _ _ _ s) as [[[] | e] s1] eqn:Hcs;
      [| done].
    apply cache_stock_run in Hcs as (Hother & e & He & _ & Hd & _).
    intros Hrest Hcached. eapply IH; [exact Hrest |].
    intros symbol v Hlook.
    destruct (decide (symbol = Fetch.get_symbol item)) as [-> | Hne].
    + rewrite lookup_insert_eq in Hlook. injection Hlook as <-.
      split; [done |]. split; [done |].
      eapply cached_field_Some; [exact He | apply Hd |].
      * by destruct (Fetch.get item "dcf" Fetch.SNull).
      * by destruct (Fetch.get item "dcf" Fetch.SNull).
    + rewrite lookup_insert_ne in Hlook by done.
      destruct (Hcached _ _ Hlook) as (H1 & H2 & H3).
      split; [done |]. split; [done |]. by rewrite Hother.
Qed.

Lemma profile_bulk_items_spec E data :
  forall profiles_dict (s s' : Fetch.state) profiles_dict',
    Fetch.profile_bulk_items E data profiles_dict s
    = (Py.Ok profiles_dict', s') ->
    profiles_bulk_cached profiles_dict s ->
    profiles_bulk_cached profiles_dict' s'.
Proof.
  induction data as [| item rest IH]; intros d s s' d'; simpl.
  - by intros [= <- <-].
  - destruct (negb (String.eqb (Fetch.get_symbol item) "")) eqn:Hsym;
      [| apply IH].
    apply negb_true_iff, String.eqb_neq in Hsym.
    unfold Fetch.bindM at 1.
    destruct (Fetch.cache_stock E _ _ _ _ s) as [[[] | e] s1] eqn:Hcs;
      [| done].
    apply cache_stock_run in Hcs as (Hother & e & He & _ & _ & Hp).
    intros Hrest Hcached. eapply IH; [exact Hrest |].
    intros symbol v Hlook.
    destruct (decide (symbol = Fetch.get_symbol item)) as [-> | Hne].
    + rewrite lookup_insert_eq in Hlook. injection Hlook as <-.
      split; [done |]. split; [by eexists |].
      eapply cached_field_Some; [exact He | by apply Hp | done].
    + rewrite lookup_insert_ne in Hlook by done.
      destruct (Hcached _ _ Hlook) as (H1 & H2 & H3).
      split; [done |]. split; [done |]. by rewrite Hother.
Qed.

Lemma bulk_cached_request E ep (s : Fetch.state) :
  exists response s',
    Fetch.make_api_request E ep s = (Py.Ok response, s') /\
    Fetch.stock_cache s' = Fetch.stock_cache s.
Proof.
  unfold Fetch.make_api_request.
  destruct (Fetch.http E _ ep) as [| | status_code b]; simpl; eauto.
  destruct (_ || _); simpl.
  { destruct (Fetch.has_error_message b) as [[|] |]; simpl; eauto. }
  destruct (status_code =? 429)%Z; simpl; eauto.
  destruct (400 <=? status_code)%Z; simpl; eauto.
  destruct (Fetch.has_error_message b) as [[|] |]; simpl; eauto.
Qed.

Lemma profiles_bulk_loop_spec E fuel :
  forall part profiles_dict (s s' : Fetch.state) profiles_dict',
    Fetch.profiles_bulk_loop E fuel part profiles_dict s
    = (Py.Ok (Some profiles_dict'), s') ->
    profiles_bulk_cached profiles_dict s ->
    profiles_bulk_cached profiles_dict' s'.
Proof.
  induction fuel as [| fuel IH]; intros part d s s' d'; simpl; [done |].
  unfold Fetch.bindM at 1.
  destruct (bulk_cached_request E (Fetch.ProfileBulk part) s)
    as (response & s1 & -> & Hc1).
  assert (Hsame : forall d0, profiles_bulk_cached d0 s ->
                             profiles_bulk_cached d0 s1).
  { intros d0 H symbol v Hl. rewrite Hc1. by apply H. }
  destruct response as [[| o | [| item data]] |].
  - unfold Fetch.bindM, Fetch.log_msg, Fetch.modify, Fetch.ret. simpl.
    intros [= <- <-] H symbol v Hl. simpl. rewrite Hc1. by apply H.
  - case_bool_decide; [| done]. intros [= <- <-]. by apply Hsame.
  - intros [= <- <-]. by apply Hsame.
  - unfold Fetch.bindM at 1.
    destruct (Fetch.profile_bulk_items E (item :: data) d s1)
      as [[d1 | e] s2] eqn:Hitems; [| done].
    intros Hrest Hcached.
    apply profile_bulk_items_spec in Hitems; [| by apply Hsame].
    destruct (length (item :: data) <? 1000)%nat.
    + by injection Hrest as <- <-.
    + by eapply IH.
  - intros [= <- <-]. by apply Hsame.
Qed.

(** X17.  Every entry of the dictionary that get_dcf_bulk returns is a
    truthy DCF value under a non-empty ticker, and the cache holds that
    value as the 'dcf' of the ticker when get_dcf_bulk returns.  The
    dictionary that get_profiles_bulk returns is not empty, every entry
    of it is the profile made of an item of the API under a non-empty
    ticker, and the cache holds it as the 'profile' of the ticker. *)
Theorem bulk_data_is_cached (E : Fetch.env) (s s' : Fetch.state) :
  (forall dcf_dict,
     Fetch.get_dcf_bulk E s = (Py.Ok (Some dcf_dict), s') ->
     dcf_bulk_cached dcf_dict s') /\
  (forall fuel profiles_dict,
     Fetch.get_profiles_bulk E fuel s = (Py.Ok (Some (Some profiles_dict)), s') ->
     profiles_dict <> ∅ /\ profiles_bulk_cached profiles_dict s').
Proof.
  split.
  - intros d. unfold Fetch.get_dcf_bulk, Fetch.bindM at 1.
    destruct (bulk_cached_request E Fetch.DcfBulk s)
      as (response & s1 & -> & Hc1).
    destruct response as [[| o | data] |].
    + unfold Fetch.bindM, Fetch.log_msg, Fetch.modify, Fetch.ret. simpl.
      intros [= <- <-]. by intros symbol v Hl.
    + case_bool_decide; [| done]. intros [= <- <-]. by intros symbol v Hl.
    + unfold Fetch.bindM.
      destruct (Fetch.dcf_bulk_items E data ∅ s1) as [[d1 | e] s2] eqn:Hitems;
        [| done].
      intros [= <- <-]. eapply dcf_bulk_items_spec; [exact Hitems |].
      by intros symbol v Hl.
    + unfold Fetch.bindM, Fetch.log_msg, Fetch.modify, Fetch.ret. simpl. done.
  - intros fuel d. unfold Fetch.get_profiles_bulk, Fetch.bindM at 1.
    destruct (Fetch.profiles_bulk_loop E fuel 0 ∅ s) as [[[d1 |] | e] s1]
      eqn:Hloop; try done.
    case_bool_decide as Hempty; [done |]. intros [= <- <-].
    split; [done |].
    eapply profiles_bulk_loop_spec; [exact Hloop |]. by intros symbol v Hl.
Qed.

(** ** Requests per stock *)

Section Asks.

Import Py Fetch.

Variable E : env.

Variable eps : list endpoint.

Lemma asks_le {A} (m : M A) n n' :
  asks eps n m -> (n <= n')%nat -> asks eps n' m.
Proof.
  intros H Hle s. destruct (H s) as (made & Hm & Hl & Hf).
  exists made. repeat split; [done | lia | done].
Qed.

Lemma asks_same {A} (m : M A) n :
  (forall s, requests (snd (m s)) = requests s) -> asks eps n m.
Proof.
  intros H s. exists []. rewrite H, app_nil_r.
  repeat split; [simpl; lia | constructor].
Qed.

Lemma asks_ret {A} (a : A) n : asks eps n (ret a).
Proof. by apply asks_same. Qed.

Lemma asks_raise {A} e n : asks eps n (@raise A e).
Proof. by apply asks_same. Qed.

Lemma asks_lift {A} (r : result A) n : asks eps n (lift r).
Proof. by apply asks_same. Qed.

Lemma asks_gets {A} (f : state -> A) n : asks eps n (gets f).
Proof. by apply asks_same. Qed.

Lemma asks_modify (f : state -> state) n :
  (forall s, requests (f s) = requests s) -> asks eps n (modify f).
Proof. intros H. by apply asks_same. Qed.

Lemma asks_bind {A B} (m : M A) (k : A -> M B) a b :
  asks eps a m -> (forall x, asks eps b (k x)) ->
  asks eps (a + b) (bindM m k).
Proof.
  intros Hm Hk s. unfold bindM.
  destruct (Hm s) as (made1 & H1 & Hl1 & Hf1).
  destruct (m s) as [[x | e] s1]; simpl in *.
  - destruct (Hk x s1) as (made2 & H2 & Hl2 & Hf2).
    exists (made1 ++ made2)%list.
    rewrite H2, H1, <- app_assoc, length_app.
    repeat split; [lia | by apply Forall_app].
  - exists made1. repeat split; [done | lia | done].
Qed.

Lemma asks_bind0 {A B} (m : M A) (k : A -> M B) n :
  asks eps 0 m -> (forall x, asks eps n (k x)) -> asks eps n (bindM m k).
Proof. intros Hm Hk. by apply (asks_bind m k 0 n). Qed.

Lemma asks_bind1 {A B} (m : M A) (k : A -> M B) n :
  asks eps 1 m -> (forall x, asks eps n (k x)) -> asks eps (S n) (bindM m k).
Proof. intros Hm Hk. by apply (asks_bind m k 1 n). Qed.

Lemma asks_bind_lift {A B} (r : result A) (k : A -> M B) n :
  (forall a, r = Ok a -> asks eps n (k a)) -> asks eps n (bindM (lift r) k).
Proof.
  intros Hk s. unfold bindM, lift. destruct r as [a | e]; simpl.
  - by apply Hk.
  - exists []. rewrite app_nil_r. repeat split; [simpl; lia | constructor].
Qed.

Lemma asks_try_except {A} (m h : M A) handled n :
  asks eps n m -> asks eps 0 h -> asks eps n (try_except m handled h).
Proof.
  intros Hm Hh s. unfold try_except.
  destruct (Hm s) as (made1 & H1 & Hl1 & Hf1).
  destruct (m s) as [[x | e] s1]; simpl in *.
  - by exists made1.
  - destruct (handled e); [| by exists made1].
    destruct (Hh s1) as (made2 & H2 & Hl2 & Hf2).
    exists (made1 ++ made2)%list.
    rewrite H2, H1, <- app_assoc, length_app.
    repeat split; [lia | by apply Forall_app].
Qed.

Lemma asks_log_msg l msg n : asks eps n (log_msg l msg).
Proof. by apply asks_modify. Qed.

Lemma asks_cache_stock symbol price dcf profile n :
  asks eps n (cache_stock E symbol price dcf profile).
Proof.
  apply asks_same. intros s. unfold cache_stock.
  by destruct (cache_stock_in _ _ _ _ _ _).
Qed.

Lemma asks_now n : asks eps n (now E).
Proof. by apply asks_same. Qed.

Lemma asks_upsert_fair symbol stock_data n :
  asks eps n (upsert_fair symbol stock_data).
Proof.
  apply asks_same. intros s. unfold upsert_fair, bindM, gets. simpl.
  by destruct (stock_cache s !! "_fair_stocks") as [[|] |].
Qed.

Lemma asks_make_api_request ep :
  ep ∈ eps -> asks eps 1 (make_api_request E ep).
Proof.
  intros Hep s. exists [(ep, http E (length (requests s)) ep)].
  split; [| split; [simpl; lia | by repeat constructor]].
  unfold make_api_request.
  destruct (http E _ ep) as [| | status_code b]; simpl; try done.
  destruct (_ || _); simpl.
  { by destruct (has_error_message b) as [[|] |]. }
  destruct (status_code =? 429)%Z; simpl; [done |].
  destruct (400 <=? status_code)%Z; simpl; [| done].
  by destruct (has_error_message b) as [[|] |].
Qed.

Ltac asks_zero :=
  repeat
    lazymatch goal with
    | |- asks _ _ (ret _) => apply asks_ret
    | |- asks _ _ (raise _) => apply asks_raise
    | |- asks _ _ (lift _) => apply asks_lift
    | |- asks _ _ (gets _) => apply asks_gets
    | |- asks _ _ (get_cached_stock _) => apply asks_gets
    | |- asks _ _ (log_msg _ _) => apply asks_log_msg
    | |- asks _ _ (cache_stock _ _ _ _ _) => apply asks_cache_stock
    | |- asks _ _ (now _) => apply asks_now
    | |- asks _ _ (upsert_fair _ _) => apply asks_upsert_fair
    | |- asks _ _ (modify _) => apply asks_modify; intros ?; reflexivity
    | |- asks _ _ (bindM (lift _) _) => apply asks_bind_lift; intros ? ?
    | |- asks _ _ (bindM _ _) => apply asks_bind0; [| intros ?]
    | |- asks _ _ (try_except _ _ _) => apply asks_try_except
    | |- asks _ _ (match ?x with _ => _ end) => destruct x eqn:?
    | |- asks _ _ (if ?x then _ else _) => destruct x eqn:?
    end.

Lemma asks_get_dcf_value symbol :
  DcfOf symbol ∈ eps -> asks eps 1 (get_dcf_value E symbol).
Proof.
  intros Hep. unfold get_dcf_value.
  apply asks_bind0; [apply asks_gets | intros cached].
  destruct (cached_field cached "dcf"); [apply asks_ret |].
  apply (asks_bind _ _ 1 0); [by apply asks_make_api_request | intros response].
  asks_zero.
Qed.

Lemma asks_get_stock_price symbol :
  QuoteOf symbol ∈ eps -> asks eps 1 (get_stock_price E symbol).
Proof.
  intros Hep. unfold get_stock_price.
  apply asks_bind0; [apply asks_gets | intros cached].
  destruct (cached_field cached "price"); [apply asks_ret |].
  apply (asks_bind _ _ 1 0); [by apply asks_make_api_request | intros response].
  asks_zero.
Qed.

Lemma asks_get_company_profile symbol :
  ProfileOf symbol ∈ eps -> asks eps 1 (get_company_profile E symbol).
Proof.
  intros Hep. unfold get_company_profile.
  apply asks_bind0; [apply asks_gets | intros cached].
  destruct (cached_field cached "profile"); [apply asks_ret |].
  apply (asks_bind _ _ 1 0); [by apply asks_make_api_request | intros response].
  asks_zero.
Qed.

Lemma asks_process_stock stock use_bulk dcf_bulk profiles_bulk buffer :
  let symbol := get_symbol stock in
  DcfOf symbol ∈ eps -> QuoteOf symbol ∈ eps -> ProfileOf symbol ∈ eps ->
  asks eps 3 (process_stock E stock use_bulk dcf_bulk profiles_bulk buffer).
Proof.
  intros symbol Hd Hq Hp. unfold process_stock. cbv zeta. fold symbol.
  destruct (String.eqb symbol ""); [apply asks_ret |].
  apply asks_bind0; [asks_zero | intros profile_display].
  apply asks_bind0; [asks_zero | intros company_name].
  apply (asks_bind _ _ 1 2).
  { repeat lazymatch goal with
      | |- asks _ _ (match ?x with _ => _ end) => destruct x eqn:?
      | |- asks _ _ (if ?x then _ else _) => destruct x eqn:?
      end;
      first [by apply asks_get_dcf_value | apply asks_ret]. }
  intros dcf.
  apply asks_bind_lift. intros from_dcf _.
  apply (asks_bind _ _ 1 1).
  { destruct from_dcf; [apply asks_ret | by apply asks_get_stock_price]. }
  intros current_price.
  repeat
    lazymatch goal with
    | |- asks _ _ (bindM (if is_none _ then get_company_profile _ _ else _) _) =>
        apply (asks_bind _ _ 1 0);
        [ destruct (is_none _);
          [by apply asks_get_company_profile | apply asks_ret]
        | intros ? ]
    | |- asks _ _ (ret _) => apply asks_ret
    | |- asks _ _ (raise _) => apply asks_raise
    | |- asks _ _ (cache_stock _ _ _ _ _) => apply asks_cache_stock
    | |- asks _ _ (now _) => apply asks_now
    | |- asks _ _ (upsert_fair _ _) => apply asks_upsert_fair
    | |- asks _ _ (modify _) => apply asks_modify; intros ?; reflexivity
    | |- asks _ _ (bindM (lift _) _) => apply asks_bind_lift; intros ? ?
    | |- asks _ _ (bindM _ _) => apply asks_bind0; [| intros ?]
    | |- asks _ _ (match ?x with _ => _ end) => destruct x eqn:?
    | |- asks _ _ (if ?x then _ else _) => destruct x eqn:?
    end.
Qed.

End Asks.

(** X18.  process_stock asks the API at most three times for a stock, and
    only for the DCF value, the quote and the profile of its ticker;
    for a stock without a ticker it returns None and leaves the state
    as it is. *)
Theorem at_most_three_requests_per_stock (E : Fetch.env) (stock : Fetch.obj)
    (use_bulk : bool) (dcf_bulk : option (gmap string Fetch.scalar))
    (profiles_bulk : option (gmap string Fetch.obj)) (buffer : Q)
    (s : Fetch.state) :
  let symbol := Fetch.get_symbol stock in
  let r := Fetch.process_stock E stock use_bulk dcf_bulk profiles_bulk
             buffer s in
  (exists made,
     Fetch.requests (snd r) = (Fetch.requests s ++ made)%list /\
     (length made <= 3)%nat /\
     Forall (fun x => fst x ∈ [Fetch.DcfOf symbol; Fetch.QuoteOf symbol;
                               Fetch.ProfileOf symbol]) made) /\
  (symbol = "" -> r = (Py.Ok None, s)).
Proof.
  intros symbol r. split.
  - apply (asks_process_stock E
             [Fetch.DcfOf symbol; Fetch.QuoteOf symbol; Fetch.ProfileOf symbol]).
    + apply list_elem_of_here.
    + apply list_elem_of_further, list_elem_of_here.
    + do 2 apply list_elem_of_further. apply list_elem_of_here.
  - intros Hsym. unfold r, Fetch.process_stock. fold symbol. by rewrite Hsym.
Qed.

(** ** The caches on disk at the end of a run *)

Lemma bindM_Ok {A B} (m : Fetch.M A) (k : A -> Fetch.M B) s b s' :
  Fetch.bindM m k s = (Py.Ok b, s') ->
  exists a s1, m s = (Py.Ok a, s1) /\ k a s1 = (Py.Ok b, s').
Proof.
  unfold Fetch.bindM. destruct (m s) as [[a | e] s1]; [| done].
  intros H. by exists a, s1.
Qed.

Lemma find_undervalued_stocks_saves E fuel s u s' :
  Fetch.find_undervalued_stocks E fuel s = (Py.Ok (Some u), s') ->
  caches_saved s'.
Proof.
  unfold Fetch.find_undervalued_stocks. intros H.
  apply bindM_Ok in H as (all_stocks & s1 & _ & H).
  apply bindM_Ok in H as (dcf_bulk & s2 & _ & H).
  apply bindM_Ok in H as (fetched & s3 & _ & H).
  destruct fetched as [profiles_bulk |]; [| done].
  destruct all_stocks as [| o | l]; try done.
  apply bindM_Ok in H as ([] & s4 & _ & H).
  unfold Fetch.bindM, Fetch.save_cache, Fetch.save_undervalued_cache,
    Fetch.modify, Fetch.ret in H. simpl in H.
  injection H as <- <-. by split.
Qed.

Lemma cache_stock_in_keeps_keys now symbol price dcf profile c c' k :
  Fetch.cache_stock_in now symbol price dcf profile c = Py.Ok c' ->
  is_Some (c !! k) -> is_Some (c' !! k).
Proof.
  unfold Fetch.cache_stock_in. intros H Hk.
  destruct (decide (k = symbol)) as [-> | Hne].
  - repeat case_match; simplify_eq; by rewrite lookup_insert_eq.
  - repeat case_match; simplify_eq;
      by rewrite ?lookup_insert_ne by done.
Qed.

Lemma load_cache_keys file : has_list_keys (Fetch.load_cache file).
Proof.
  unfold has_list_keys, Fetch.load_cache, Fetch.with_list_keys,
    Fetch.empty_cache.
  destruct file as [[c |] |]; [| by simplify_map_eq..].
  repeat case_match; simplify_map_eq; by eauto.
Qed.

Lemma with_list_keys_id c :
  has_list_keys c -> Fetch.with_list_keys c = c.
Proof.
  intros [[x Hx] [y Hy]]. unfold Fetch.with_list_keys. by rewrite Hx, Hy.
Qed.

Lemma run_keeps_list_keys (E : Fetch.env) API_KEY fuel s0 s :
  Fetch.final_state (Fetch.main E API_KEY fuel s0) = Some s ->
  has_list_keys (Fetch.stock_cache s0) -> has_list_keys (Fetch.stock_cache s).
Proof.
  apply (respects_main E
           (fun s s' => has_list_keys (Fetch.stock_cache s) ->
                        has_list_keys (Fetch.stock_cache s')));
    try (by intros); try (intros; simpl in *; tauto).
  - intros s1 t symbol price dcf profile c Hc [H1 H2]. simpl.
    split; by eapply cache_stock_in_keeps_keys.
  - intros s1 l _ [H1 H2]. simpl. split; by simplify_map_eq.
Qed.

(** X19.  When a run has gone past the key check and ends, whether it
    finishes or an exception ends it, the two cache files hold what the
    two caches hold in memory; a restart from these files begins with
    the same stock cache and the same undervalued cache. *)
Theorem run_leaves_its_caches_on_disk (E : Fetch.env)
    (API_KEY : option string) (fuel : nat)
    (cache_json : option (option (gmap string Fetch.cache_value)))
    (undervalued_json : option (option (list Fetch.stock_data)))
    (s : Fetch.state) :
  (Fetch.main E API_KEY fuel (Fetch.initial_state cache_json undervalued_json)
   = Fetch.Finished s \/
   exists e,
     Fetch.main E API_KEY fuel (Fetch.initial_state cache_json undervalued_json)
     = Fetch.Crashed e s) ->
  caches_saved s /\
  let restarted :=
    Fetch.initial_state (Some (Fetch.cache_file s))
      (Some (Fetch.undervalued_cache_file s)) in
  Fetch.stock_cache restarted = Fetch.stock_cache s /\
  Fetch.undervalued_stocks_cache restarted = Fetch.undervalued_stocks_cache s.
Proof.
  intros Hmain.
  assert (Hfinal : Fetch.final_state
                     (Fetch.main E API_KEY fuel
                        (Fetch.initial_state cache_json undervalued_json))
                   = Some s).
  { by destruct Hmain as [-> | [e ->]]. }
  apply run_keeps_list_keys in Hfinal; [| apply load_cache_keys].
  assert (Hsaved : caches_saved s).
  { revert Hmain. unfold Fetch.main.
    destruct API_KEY as [key |]; [| by intros [? | [? ?]]].
    destruct (String.eqb key ""); [by intros [? | [? ?]] |].
    destruct (String.length key <? 10)%nat; [by intros [? | [? ?]] |].
    destruct (Fetch.validate_api_key E _) as [[[|] | e] s1];
      try by intros [? | [? ?]].
    destruct (Fetch.find_undervalued_stocks E fuel s1)
      as [[[u |] | e] s2] eqn:Hf.
    - intros [[= <-] | [e [=]]]. by eapply find_undervalued_stocks_saves.
    - by intros [? | [? ?]].
    - intros [[=] | [e' [= _ <-]]]. by split. }
  split; [done |]. destruct Hsaved as [Hc Hu]. cbv zeta.
  rewrite Hc, Hu. simpl. split; [| done]. by apply with_list_keys_id.
Qed.

Lemma run_leaves_its_caches_on_disk_witness : caches_saved state_after_403.
Proof.
  destruct (run_leaves_its_caches_on_disk api_403 (Some "0123456789abcdef") 5
              None None state_after_403) as [H _];
    [left; vm_compute; reflexivity | exact H].
Defined.

(** ** Each result list holds one kind of record *)

Lemma filed_by_status_same s s' :
  Fetch.undervalued_stocks s' = Fetch.undervalued_stocks s ->
  Fetch.fair_stocks s' = Fetch.fair_stocks s ->
  Fetch.undervalued_stocks_cache s' = Fetch.undervalued_stocks_cache s ->
  filed_by_status s s'.
Proof.
  intros Hu Hf Hc. split; [| by rewrite Hc].
  exists [], []. rewrite Hu, Hf, !app_nil_r. by repeat split.
Qed.

Lemma filed_by_status_trans s1 s2 s3 :
  filed_by_status s1 s2 -> filed_by_status s2 s3 -> filed_by_status s1 s3.
Proof.
  intros [(u1 & f1 & Hu1 & Hf1 & Pu1 & Pf1) Hc1]
         [(u2 & f2 & Hu2 & Hf2 & Pu2 & Pf2) Hc2].
  split; [| by auto].
  exists (u1 ++ u2)%list, (f1 ++ f2)%list.
  rewrite Hu2, Hu1, Hf2, Hf1, !app_assoc.
  repeat split; by apply Forall_app.
Qed.

Lemma upsert_Forall (P : Fetch.stock_data -> Prop) symbol rec cache :
  P rec -> Forall P cache -> Forall P (Fetch.upsert symbol rec cache).
Proof.
  intros Hrec Hc. unfold Fetch.upsert.
  destruct (list_find _ cache) as [[i x] |].
  - by apply Forall_insert.
  - apply Forall_app. split; [done | by constructor].
Qed.

(** X20.  In a run the list of undervalued stocks grows by records of
    status UNDERVALUED with a premium of 0 only, the list of fair-value
    stocks by records of status FAIR with a discount of 0 only, and an
    undervalued cache that held UNDERVALUED records only still does. *)
Theorem result_lists_hold_one_status_each (E : Fetch.env)
    (API_KEY : option string) (fuel : nat) (s0 s : Fetch.state) :
  Fetch.final_state (Fetch.main E API_KEY fuel s0) = Some s ->
  filed_by_status s0 s.
Proof.
  apply (respects_main E filed_by_status).
  - intros s1. by apply filed_by_status_same.
  - apply filed_by_status_trans.
  - intros. by apply filed_by_status_same.
  - intros. by apply filed_by_status_same.
  - intros. by apply filed_by_status_same.
  - intros. by apply filed_by_status_same.
  - intros. by apply filed_by_status_same.
  - intros. by apply filed_by_status_same.
  - intros. by apply filed_by_status_same.
  - intros. by apply filed_by_status_same.
  - intros s1 symbol o price dcf t Hp Hd Hlt stock_data. split.
    + exists [stock_data], []. simpl. rewrite app_nil_r.
      repeat split; [| done]. by repeat constructor.
    + simpl. apply upsert_Forall. by split.
  - intros s1 symbol o price dcf t Hp Hd Hlo Hhi. split; [| done].
    exists [], [Fetch.fair_record symbol o price dcf t]. simpl.
    rewrite app_nil_r. repeat split; [done |]. by repeat constructor.
Qed.

Lemma result_lists_hold_one_status_each_witness :
  filed_by_status (Fetch.initial_state None None) state_after_403.
Proof.
  apply (result_lists_hold_one_status_each api_403 (Some "0123456789abcdef") 5).
  vm_compute. reflexivity.
Defined.

(** ** The detail record of a stock *)

Section Returns.

Import Py Fetch.

Context {A : Type} (P : A -> Prop).

Lemma returns_ret (a : A) : P a -> returns P (ret a).
Proof. intros H s a' s' [= <- <-]. done. Qed.

Lemma returns_raise e : returns P (@raise A e).
Proof. by intros s a s'. Qed.

Lemma returns_bind {B} (m : M B) (k : B -> M A) :
  (forall x, returns P (k x)) -> returns P (bindM m k).
Proof.
  intros Hk s a s'. unfold bindM. destruct (m s) as [[x | e] s1]; [| done].
  apply Hk.
Qed.

Lemma returns_bind_lift {B} (r : result B) (k : B -> M A) :
  (forall x, r = Ok x -> returns P (k x)) -> returns P (bindM (lift r) k).
Proof.
  intros Hk s a s'. unfold bindM, lift. destruct r as [x | e]; [| done].
  by apply Hk.
Qed.

End Returns.

Ltac returns_step :=
  lazymatch goal with
  | |- returns _ (Fetch.ret _) => apply returns_ret
  | |- returns _ (Fetch.raise _) => apply returns_raise
  | |- returns _ (Fetch.bindM (Fetch.lift _) _) =>
      apply returns_bind_lift; intros ? ?
  | |- returns _ (Fetch.bindM _ _) => apply returns_bind; intros ?
  | |- returns _ (match ?x with _ => _ end) => destruct x eqn:?
  | |- returns _ (if ?x then _ else _) => destruct x eqn:?
  end.

Lemma process_stock_returns E stock use_bulk dcf_bulk profiles_bulk buffer :
  Fetch.get_symbol stock <> "" ->
  returns (fun r => exists d, r = Some d /\
                              detail_ok (Fetch.get_symbol stock) buffer d)
    (Fetch.process_stock E stock use_bulk dcf_bulk profiles_bulk buffer).
Proof.
  intros Hsym. unfold Fetch.process_stock. cbv zeta.
  apply String.eqb_neq in Hsym. rewrite Hsym.
  repeat returns_step.
  all: eexists; (split; [reflexivity |]).
  all: unfold detail_ok; simpl.
  all: repeat match goal with
       | H : Fetch.none_or_le0 _ = Py.Ok false |- _ =>
           apply none_or_le0_false in H as (? & ? & ?)
       end.
  all: simplify_eq.
  all: try (split; [done |]; repeat split; try done; by eauto).
  all: split; [done |].
  all: match goal with
       | |- context [Fetch.valuation_status ?p ?d ?b] =>
           destruct (Fetch.valuation_status p d b) eqn:Hv;
           try (exfalso; revert Hv; unfold Fetch.valuation_status;
                repeat case_match; discriminate);
           (split; [done |]; exists p, d; by repeat split)
       end.
Qed.

(** X21.  process_stock returns None only for a stock without a ticker,
    and then changes nothing.  Otherwise the detail it returns bears
    the ticker and is of one of these kinds: DATA_UNAVAILABLE with
    neither price nor DCF; NO_DCF_DATA with a positive price and no DCF;
    NO_PRICE_DATA with a positive DCF and no price; or, with
    [has_data] set and both numbers positive, the status that
    [valuation_status] gives them. *)
Theorem process_stock_detail (E : Fetch.env) (stock : Fetch.obj)
    (use_bulk : bool) (dcf_bulk : option (gmap string Fetch.scalar))
    (profiles_bulk : option (gmap string Fetch.obj)) (buffer : Q)
    (s s' : Fetch.state) (r : option Fetch.stock_detail) :
  Fetch.process_stock E stock use_bulk dcf_bulk profiles_bulk buffer s
  = (Py.Ok r, s') ->
  match r with
  | None => Fetch.get_symbol stock = "" /\ s' = s
  | Some d =>
      Fetch.get_symbol stock <> "" /\
      detail_ok (Fetch.get_symbol stock) buffer d
  end.
Proof.
  intros H.
  destruct (String.eqb (Fetch.get_symbol stock) "") eqn:Hsym.
  - unfold Fetch.process_stock in H. rewrite Hsym in H.
    injection H as <- <-. by apply String.eqb_eq in Hsym.
  - apply String.eqb_neq in Hsym.
    apply process_stock_returns in H as (d & -> & Hd); done.
Qed.

Lemma process_stock_detail_witness :
  Fetch.get_symbol {["symbol" := Fetch.SStr "AAPL"]} <> "" /\
  detail_ok (Fetch.get_symbol {["symbol" := Fetch.SStr "AAPL"]})
    Fetch.OVERVALUED_BUFFER detail_AAPL.
Proof.
  apply (process_stock_detail api_undervalued {["symbol" := Fetch.SStr "AAPL"]}
           false None None Fetch.OVERVALUED_BUFFER
           (Fetch.initial_state None None)
           (snd (Fetch.process_stock api_undervalued
                   {["symbol" := Fetch.SStr "AAPL"]} false None None
                   Fetch.OVERVALUED_BUFFER (Fetch.initial_state None None)))
           (Some detail_AAPL)).
  vm_compute. reflexivity.
Defined.

(** ** The stock list *)

